(** * Spotify playlist pipeline: extraction, transformation, sinks, connectors

    A shallow embedding of the Python sources under [src/main]:
    - [extractors/spotify_extractor.py]  ([Extractor])
    - [transfomers/spotify_transformer.py] ([Transformer], over [Pandas])
    - [loaders/local_loader.py], [loaders/s3_loader.py] ([Loaders])
    - [connectors/*.py] ([Connectors])
    - [main.py] ([Pipeline])

    Python values are a JSON-like inductive type, exceptions are values of
    type [exn], and a computation that may raise returns a [result].  Code
    that logs, touches class attributes, the file system or the object store
    runs in a state-and-exception monad [M] over a [World]. *)

From Stdlib Require Import List String Ascii ZArith Bool Arith Lia Sorted.
From Stdlib Require Import DecimalString.
Import ListNotations.
Open Scope string_scope.
Set Warnings "-register-all".

(* ================================================================== *)
(** ** Python values, exceptions, subscripting *)
(* ================================================================== *)

Module Py.

(** JSON-like Python values; numbers are integers, as are the numeric
    fields the pipeline reads.  A [PDict] keeps insertion order, which is
    the order Python dicts iterate in; [dict_get] returns the first
    binding. *)
Inductive pyval : Type :=
| PNone
| PBool (b : bool)
| PInt (z : Z)
| PStr (s : string)
| PList (l : list pyval)
| PDict (d : list (string * pyval)).

(** The exception classes the modelled code can meet.  All of them are
    subclasses of [Exception], so [except Exception] catches each one. *)
Inductive exn : Type :=
| KeyError (key : string)
| TypeError (msg : string)
| IndexError (msg : string)
| ValueError (msg : string)
| AttributeError (msg : string)
| OSError (msg : string)
| LibraryError (msg : string)
| PlainException (msg : string).

Inductive result (A : Type) : Type :=
| Ok (a : A)
| Raise (e : exn).
Arguments Ok {A} a.
Arguments Raise {A} e.

Definition rbind {A B} (r : result A) (k : A -> result B) : result B :=
  match r with
  | Ok a => k a
  | Raise e => Raise e
  end.

Declare Scope py_scope.
Delimit Scope py_scope with py.
Notation "x <- c ;; k" := (rbind c (fun x => k))
  (at level 61, c at next level, right associativity) : py_scope.

Definition quote_char : string := String (ascii_of_nat 39) EmptyString.

(** [str(e)]: a [KeyError] prints the repr of its key. *)
Definition exn_str (e : exn) : string :=
  match e with
  | KeyError k => quote_char ++ k ++ quote_char
  | TypeError m | IndexError m | ValueError m | AttributeError m
  | OSError m | LibraryError m | PlainException m => m
  end.

Definition nat_str (n : nat) : string := NilZero.string_of_uint (Nat.to_uint n).

Fixpoint dict_get (k : string) (d : list (string * pyval)) : option pyval :=
  match d with
  | [] => None
  | (k', v) :: d' => if String.eqb k k' then Some v else dict_get k d'
  end.

(** Structural equality of values. *)
Fixpoint pyval_eqb (a b : pyval) : bool :=
  match a, b with
  | PNone, PNone => true
  | PBool x, PBool y => Bool.eqb x y
  | PInt x, PInt y => (x =? y)%Z
  | PStr x, PStr y => String.eqb x y
  | PList x, PList y =>
      (fix go (x y : list pyval) : bool :=
         match x, y with
         | [], [] => true
         | u :: x', v :: y' => pyval_eqb u v && go x' y'
         | _, _ => false
         end) x y
  | PDict x, PDict y =>
      (fix go (x y : list (string * pyval)) : bool :=
         match x, y with
         | [], [] => true
         | (k, u) :: x', (k', v) :: y' =>
             String.eqb k k' && pyval_eqb u v && go x' y'
         | _, _ => false
         end) x y
  | _, _ => false
  end.

Definition type_name (v : pyval) : string :=
  match v with
  | PNone => "NoneType"
  | PBool _ => "bool"
  | PInt _ => "int"
  | PStr _ => "str"
  | PList _ => "list"
  | PDict _ => "dict"
  end.

(** [v[k]] for a string key [k]. *)
Definition getitem (v : pyval) (k : string) : result pyval :=
  match v with
  | PDict d =>
      match dict_get k d with
      | Some x => Ok x
      | None => Raise (KeyError k)
      end
  | PList _ => Raise (TypeError "list indices must be integers or slices, not str")
  | PStr _ => Raise (TypeError "string indices must be integers, not 'str'")
  | PNone | PBool _ | PInt _ =>
      Raise (TypeError (quote_char ++ type_name v ++ quote_char ++ " object is not subscriptable"))
  end.

(** Position of a Python integer index in a sequence of length [n];
    negative indices count from the end. *)
Definition seq_index (n : nat) (i : Z) : option nat :=
  if (0 <=? i)%Z then
    (if (i <? Z.of_nat n)%Z then Some (Z.to_nat i) else None)
  else
    (if (0 <=? i + Z.of_nat n)%Z then Some (Z.to_nat (i + Z.of_nat n)) else None).

(** [v[i]] for an integer index [i]. *)
Definition getitem_int (v : pyval) (i : Z) : result pyval :=
  match v with
  | PList l =>
      match seq_index (List.length l) i with
      | Some n =>
          match nth_error l n with
          | Some x => Ok x
          | None => Raise (IndexError "list index out of range")
          end
      | None => Raise (IndexError "list index out of range")
      end
  | PStr s =>
      match seq_index (String.length s) i with
      | Some n =>
          match String.get n s with
          | Some c => Ok (PStr (String c EmptyString))
          | None => Raise (IndexError "string index out of range")
          end
      | None => Raise (IndexError "string index out of range")
      end
  | PDict _ => Raise (KeyError (NilZero.string_of_int (Z.to_int i)))
  | PNone | PBool _ | PInt _ =>
      Raise (TypeError (quote_char ++ type_name v ++ quote_char ++ " object is not subscriptable"))
  end.

(** [v[k1][k2]...]: subscripts applied left to right. *)
Fixpoint path (v : pyval) (ks : list string) : result pyval :=
  match ks with
  | [] => Ok v
  | k :: ks' =>
      match getitem v k with
      | Ok x => path x ks'
      | Raise e => Raise e
      end
  end.

Fixpoint chars (s : string) : list pyval :=
  match s with
  | EmptyString => []
  | String c s' => PStr (String c EmptyString) :: chars s'
  end.

(** The elements a [for x in v] loop visits. *)
Definition iterate (v : pyval) : result (list pyval) :=
  match v with
  | PList l => Ok l
  | PDict d => Ok (map (fun kv => PStr (fst kv)) d)
  | PStr s => Ok (chars s)
  | PNone | PBool _ | PInt _ =>
      Raise (TypeError (quote_char ++ type_name v ++ quote_char ++ " object is not iterable"))
  end.

(** [v is None]. *)
Definition is_none (v : pyval) : bool :=
  match v with
  | PNone => true
  | _ => false
  end.

(** Truth value of [v] in a condition. *)
Definition truthy (v : pyval) : bool :=
  match v with
  | PNone => false
  | PBool b => b
  | PInt z => negb (z =? 0)%Z
  | PStr s => negb (String.eqb s "")
  | PList l => negb (Nat.eqb (List.length l) 0)
  | PDict d => negb (Nat.eqb (List.length d) 0)
  end.

(** [v == s] for a string literal [s]. *)
Definition eq_str (v : pyval) (s : string) : bool :=
  match v with
  | PStr s' => String.eqb s' s
  | _ => false
  end.

(** [len(v)] for the containers that have one. *)
Definition len (v : pyval) : nat :=
  match v with
  | PList l => List.length l
  | PDict d => List.length d
  | PStr s => String.length s
  | _ => 0
  end.

(** Log records written through [loguru]. *)
Inductive log_entry : Type :=
| Info (msg : string)
| Error (msg : string).

Fixpoint quoted_names (l : list string) : string :=
  match l with
  | [] => ""
  | [x] => quote_char ++ x ++ quote_char
  | x :: l' => quote_char ++ x ++ quote_char ++ ", " ++ quoted_names l'
  end.

(** Calling a bound method declared with positional parameters [params]
    (after [self]) on the argument list [args]: the call itself raises
    [TypeError] when the counts differ, before the body runs. *)
Definition py_call {A} (qualname : string) (params : list string)
    (body : list pyval -> A) (args : list pyval) : result A :=
  if Nat.eqb (List.length args) (List.length params) then Ok (body args)
  else if Nat.ltb (List.length args) (List.length params) then
    Raise (TypeError (qualname ++ "() missing " ++
                      nat_str (List.length params - List.length args) ++
                      " required positional argument: " ++
                      quoted_names (skipn (List.length args) params)))
  else
    Raise (TypeError (qualname ++ "() takes " ++ nat_str (S (List.length params)) ++
                      " positional arguments but " ++ nat_str (S (List.length args)) ++
                      " were given")).

End Py.
Export Py.
Open Scope py_scope.

(* ================================================================== *)
(** ** extractors/spotify_extractor.py *)
(* ================================================================== *)

Module Extractor.

Record DataExtract : Type := { playlist_data : pyval }.

(** The statements of one loop iteration either [continue] or append
    records; [for_each] threads the list being built and stops at the first
    exception, as the loop does inside its enclosing [try]. *)
Fixpoint for_each (body : pyval -> result (list pyval)) (xs : list pyval)
    (acc : list pyval) : result (list pyval) :=
  match xs with
  | [] => Ok acc
  | x :: xs' =>
      match body x with
      | Ok rs => for_each body xs' (acc ++ rs)
      | Raise e => Raise e
      end
  end.

(** The values [for data in self.playlist_data['items']] visits. *)
Definition playlist_items (self : DataExtract) : result (list pyval) :=
  items <- getitem (playlist_data self) "items" ;;
  iterate items.

(** Body of the loop of [extract_album_data], lines 49-64. *)
Definition album_body (data : pyval) : result (list pyval) :=
  track <- getitem data "track" ;;
  if is_none track then Ok []
  else
    album_id <- path data ["track"; "album"; "id"] ;;
    album_name <- path data ["track"; "album"; "name"] ;;
    album_release_date <- path data ["track"; "album"; "release_date"] ;;
    album_total_tracks <- path data ["track"; "album"; "total_tracks"] ;;
    album_url <- path data ["track"; "album"; "external_urls"; "spotify"] ;;
    Ok [PDict [("id", album_id);
               ("name", album_name);
               ("release_date", album_release_date);
               ("total_tracks", album_total_tracks);
               ("url", album_url)]].

(** The [try] block of [extract_album_data], lines 47-66, up to logging. *)
Definition album_try (self : DataExtract) : result (list pyval) :=
  its <- playlist_items self ;;
  for_each album_body its [].

(** Each method returns the value handed to the caller together with the
    log lines it wrote.  Falling off the end of the [except] clause returns
    [None]. *)
Definition extract_album_data (self : DataExtract) : pyval * list log_entry :=
  match album_try self with
  | Ok album_list =>
      (PList album_list,
       [Info ("Data Extraction for album Succesfull with " ++
              nat_str (List.length album_list) ++ " ")])
  | Raise e => (PNone, [Info ("Got Some error with exceptin " ++ exn_str e)])
  end.

(** Body of the inner loop of [extract_artist_data], lines 98-106. *)
Definition artist_inner (artist : pyval) : result (list pyval) :=
  artist_id <- getitem artist "id" ;;
  artist_name <- getitem artist "name" ;;
  artist_url <- path artist ["external_urls"; "spotify"] ;;
  Ok [PDict [("id", artist_id); ("name", artist_name); ("url", artist_url)]].

(** Body of the outer loop of [extract_artist_data], lines 94-106. *)
Definition artist_body (data : pyval) : result (list pyval) :=
  track <- getitem data "track" ;;
  if is_none track then Ok []
  else
    artists <- path data ["track"; "artists"] ;;
    arts <- iterate artists ;;
    for_each artist_inner arts [].

Definition artist_try (self : DataExtract) : result (list pyval) :=
  its <- playlist_items self ;;
  for_each artist_body its [].

Definition extract_artist_data (self : DataExtract) : pyval * list log_entry :=
  match artist_try self with
  | Ok artist_list =>
      (PList artist_list,
       [Info ("Data Extraction for arist Succesfull with " ++
              nat_str (List.length artist_list) ++ " ")])
  | Raise e => (PNone, [Info ("Got some error with exception " ++ exn_str e)])
  end.

(** Body of the loop of [extract_song_data], lines 142-164.  The last key
    of the record is ['artist_ids']. *)
Definition song_body (data : pyval) : result (list pyval) :=
  track <- getitem data "track" ;;
  if is_none track then Ok []
  else
    song_id <- path data ["track"; "id"] ;;
    song_name <- path data ["track"; "name"] ;;
    song_duration_ms <- path data ["track"; "duration_ms"] ;;
    song_popularity <- path data ["track"; "popularity"] ;;
    song_url <- path data ["track"; "external_urls"; "spotify"] ;;
    song_added_at <- getitem data "added_at" ;;
    album_id <- path data ["track"; "album"; "id"] ;;
    album_artists <- path data ["track"; "album"; "artists"] ;;
    first_artist <- getitem_int album_artists 0 ;;
    artist_ids <- getitem first_artist "id" ;;
    Ok [PDict [("id", song_id);
               ("name", song_name);
               ("added_at", song_added_at);
               ("duration_ms", song_duration_ms);
               ("popularity", song_popularity);
               ("url", song_url);
               ("album_id", album_id);
               ("artist_ids", artist_ids)]].

Definition song_try (self : DataExtract) : result (list pyval) :=
  its <- playlist_items self ;;
  for_each song_body its [].

(** [extract_song_data(self, playlist_data)]: the second parameter is
    declared and never read; the body uses [self.playlist_data]. *)
Definition extract_song_data (self : DataExtract) (playlist_data : pyval)
    : pyval * list log_entry :=
  match song_try self with
  | Ok song_list =>
      (PList song_list,
       [Info ("Data Extraction for Songs Succesfull with " ++
              nat_str (List.length song_list) ++ " ")])
  | Raise e => (PNone, [Info ("Got some Error with exception " ++ exn_str e)])
  end.

End Extractor.

(* ================================================================== *)
(** ** The part of pandas the pipeline uses *)
(* ================================================================== *)

Module Pandas.

(** A table cell: a Python object, the float [nan] that fills a missing
    key, any other float64 (given by the 64 bits of its IEEE 754 encoding),
    or the outcome of a date-time conversion ([NaT] or a timestamp in
    nanoseconds). *)
Inductive cell : Type :=
| CVal (v : pyval)
| CNaN
| CFloat (bits : Z)
| CNaT
| CTime (ns : Z).

(** Row-major table: every row lists its cells in the order of [columns]. *)
Record DataFrame : Type := { columns : list string; rows : list (list cell) }.

(** [pd.DataFrame()]. *)
Definition empty_frame : DataFrame := {| columns := []; rows := [] |}.

(** [df.empty]: some axis has length zero. *)
Definition empty (df : DataFrame) : bool :=
  Nat.eqb (List.length (columns df)) 0 || Nat.eqb (List.length (rows df)) 0.

(** [df.shape] as it prints. *)
Definition shape_str (df : DataFrame) : string :=
  "(" ++ nat_str (List.length (rows df)) ++ ", " ++
  nat_str (List.length (columns df)) ++ ")".

(** What the library does outside the fragment spelled out here: building a
    table from data that is not a list of dicts, choosing the type a column
    is stored with, parsing a column of dates with [errors='coerce'], and
    printing one cell in a CSV field.

    [stored col n] is the cell the library holds at position [n] of a
    column built from the objects [col].  The constructor infers one type
    per column from all of its objects: a column of integers with a missing
    entry, for one, is stored as float64, so that an integer beyond 2^53 is
    rounded and a missing entry of a text column may read [nan] where the
    record said [None]. *)
Record Lib : Type := {
  DataFrame_other : pyval -> result DataFrame;
  stored : list cell -> nat -> cell;
  to_datetime : list cell -> result (list cell);
  render_cell : cell -> string
}.

Fixpoint mem_str (s : string) (l : list string) : bool :=
  match l with
  | [] => false
  | x :: l' => String.eqb s x || mem_str s l'
  end.

(** Distinct strings of [l] in order of first appearance. *)
Fixpoint uniq (seen : list string) (l : list string) : list string :=
  match l with
  | [] => []
  | x :: l' => if mem_str x seen then uniq seen l' else x :: uniq (x :: seen) l'
  end.

Fixpoint as_dicts (l : list pyval) : option (list (list (string * pyval))) :=
  match l with
  | [] => Some []
  | PDict d :: l' =>
      match as_dicts l' with
      | Some ds => Some (d :: ds)
      | None => None
      end
  | _ :: _ => None
  end.

(** The object a record gives for column [c]: its value under that key,
    [nan] when it lacks the key. *)
Definition given (c : string) (d : list (string * pyval)) : cell :=
  match dict_get c d with
  | Some v => CVal v
  | None => CNaN
  end.

(** The objects the records give for column [c], one per record. *)
Definition given_column (c : string) (ds : list (list (string * pyval))) : list cell :=
  map (given c) ds.

(** Row [n] of the table built from the records [ds]: in each column the
    cell the library stores for record [n]. *)
Definition stored_row (L : Lib) (cols : list string)
    (ds : list (list (string * pyval))) (n : nat) : list cell :=
  map (fun c => stored L (given_column c ds) n) cols.

(** A list of dicts becomes one row per dict; the columns are the keys in
    order of first appearance, a key a dict lacks is a missing entry, and
    each column is stored with the type the library infers for it. *)
Definition from_records (L : Lib) (ds : list (list (string * pyval))) : DataFrame :=
  let cols := uniq [] (flat_map (map fst) ds) in
  {| columns := cols; rows := map (stored_row L cols ds) (seq 0 (List.length ds)) |}.

(** [pd.DataFrame(data)]. *)
Definition mk_DataFrame (L : Lib) (data : pyval) : result DataFrame :=
  match data with
  | PNone => Ok empty_frame
  | PList l =>
      match as_dicts l with
      | Some ds => Ok (from_records L ds)
      | None => DataFrame_other L data
      end
  | PBool _ | PInt _ | PStr _ =>
      Raise (ValueError "DataFrame constructor not properly called!")
  | PDict _ => DataFrame_other L data
  end.

Fixpoint col_index (c : string) (cols : list string) : option nat :=
  match cols with
  | [] => None
  | x :: cols' =>
      if String.eqb c x then Some 0
      else match col_index c cols' with
           | Some n => Some (S n)
           | None => None
           end
  end.

(** The value two cells are compared by when looking for duplicates: two
    cells are duplicates of each other when they have the same key.
    Missing values of every kind fall in one class; numbers are compared
    by value, so [True] and [False] are the integers 1 and 0 and a float
    with an integer value is that integer; a list or a dict, which cannot
    be hashed, is compared with [==], element by element, a dict whatever
    the order of its entries. *)
Inductive key : Type :=
| KNA
| KInt (z : Z)
| KFloat (bits : Z)
| KStr (s : string)
| KTime (ns : Z)
| KObj (v : pyval).

Definition key_eqb (a b : key) : bool :=
  match a, b with
  | KNA, KNA => true
  | KInt x, KInt y => (x =? y)%Z
  | KFloat x, KFloat y => (x =? y)%Z
  | KStr x, KStr y => String.eqb x y
  | KTime x, KTime y => (x =? y)%Z
  | KObj x, KObj y => pyval_eqb x y
  | _, _ => false
  end.

(** The bindings a dict reads: the first one of each key. *)
Fixpoint first_bindings (seen : list string) (d : list (string * pyval))
    : list (string * pyval) :=
  match d with
  | [] => []
  | (k, v) :: d' =>
      if mem_str k seen then first_bindings seen d'
      else (k, v) :: first_bindings (k :: seen) d'
  end.

Fixpoint insert_entry (kv : string * pyval) (l : list (string * pyval))
    : list (string * pyval) :=
  match l with
  | [] => [kv]
  | x :: l' =>
      if String.leb (fst kv) (fst x) then kv :: l else x :: insert_entry kv l'
  end.

(** Entries in the order of their keys. *)
Definition sort_entries (l : list (string * pyval)) : list (string * pyval) :=
  fold_right insert_entry [] l.

(** One representative for all the values Python's [==] holds equal: a
    bool is its integer, a dict lists its entries by key. *)
Fixpoint canon (v : pyval) : pyval :=
  match v with
  | PNone => PNone
  | PBool b => PInt (if b then 1 else 0)
  | PInt z => PInt z
  | PStr s => PStr s
  | PList l => PList (map canon l)
  | PDict d =>
      PDict (sort_entries
               (first_bindings [] (map (fun kv => (fst kv, canon (snd kv))) d)))
  end.

(** The key of a float64 given by its bits: sign, 11 bits of exponent, 52
    bits of fraction.  An exponent of 2047 is an infinity (fraction 0) or
    a [nan]; an exponent of 0 is a zero or a subnormal number, below 1 in
    magnitude; otherwise the value is (2^52 + fraction) * 2^(exponent -
    1075). *)
Definition float_key (bits : Z) : key :=
  let b := (bits mod 2 ^ 64)%Z in
  let negative := Z.testbit b 63 in
  let exponent := ((b / 2 ^ 52) mod 2 ^ 11)%Z in
  let fraction := (b mod 2 ^ 52)%Z in
  let signed := fun z : Z => if negative then (- z)%Z else z in
  if (exponent =? 2047)%Z then
    (if (fraction =? 0)%Z then KFloat b else KNA)
  else if (exponent =? 0)%Z then
    (if (fraction =? 0)%Z then KInt 0 else KFloat b)
  else
    let significand := (2 ^ 52 + fraction)%Z in
    if (1075 <=? exponent)%Z then
      KInt (signed (significand * 2 ^ (exponent - 1075))%Z)
    else if (significand mod 2 ^ (1075 - exponent) =? 0)%Z then
      KInt (signed (significand / 2 ^ (1075 - exponent))%Z)
    else KFloat b.

(** Looking for duplicates never fails on a cell: an object that cannot be
    hashed is still compared for equality. *)
Definition key_of_cell (c : cell) : result key :=
  match c with
  | CVal PNone | CNaN | CNaT => Ok KNA
  | CVal (PBool b) => Ok (KInt (if b then 1 else 0))
  | CVal (PInt z) => Ok (KInt z)
  | CVal (PStr s) => Ok (KStr s)
  | CFloat bits => Ok (float_key bits)
  | CTime ns => Ok (KTime ns)
  | CVal (PList l) => Ok (KObj (canon (PList l)))
  | CVal (PDict d) => Ok (KObj (canon (PDict d)))
  end.

Fixpoint keys_eqb (a b : list key) : bool :=
  match a, b with
  | [], [] => true
  | x :: a', y :: b' => key_eqb x y && keys_eqb a' b'
  | _, _ => false
  end.

Fixpoint mem_keys (k : list key) (seen : list (list key)) : bool :=
  match seen with
  | [] => false
  | x :: seen' => keys_eqb k x || mem_keys k seen'
  end.

Definition cell_at (i : nat) (r : list cell) : cell := nth i r CNaN.

(** Positions of the [subset] columns; a name that is not a column is a
    [KeyError]. *)
Fixpoint subset_indices (subset : list string) (cols : list string)
    : result (list nat) :=
  match subset with
  | [] => Ok []
  | c :: subset' =>
      match col_index c cols with
      | None => Raise (KeyError c)
      | Some i =>
          rest <- subset_indices subset' cols ;;
          Ok (i :: rest)
      end
  end.

Fixpoint row_key (idx : list nat) (r : list cell) : result (list key) :=
  match idx with
  | [] => Ok []
  | i :: idx' =>
      k <- key_of_cell (cell_at i r) ;;
      ks <- row_key idx' r ;;
      Ok (k :: ks)
  end.

Fixpoint keyed (idx : list nat) (rs : list (list cell))
    : result (list (list key * list cell)) :=
  match rs with
  | [] => Ok []
  | r :: rs' =>
      k <- row_key idx r ;;
      krs <- keyed idx rs' ;;
      Ok ((k, r) :: krs)
  end.

(** Rows whose key has not been seen before, in their original order. *)
Fixpoint keep_first (seen : list (list key)) (krs : list (list key * list cell))
    : list (list cell) :=
  match krs with
  | [] => []
  | (k, r) :: krs' =>
      if mem_keys k seen then keep_first seen krs'
      else r :: keep_first (k :: seen) krs'
  end.

(** [df.drop_duplicates(subset=subset)] with the default [keep='first']:
    an empty frame is returned as it is, before the subset is looked up. *)
Definition drop_duplicates (df : DataFrame) (subset : list string)
    : result DataFrame :=
  if empty df then Ok df
  else
    idx <- subset_indices subset (columns df) ;;
    krs <- keyed idx (rows df) ;;
    Ok {| columns := columns df; rows := keep_first [] krs |}.

(** [df[c]]. *)
Definition get_column (df : DataFrame) (c : string) : result (list cell) :=
  match col_index c (columns df) with
  | Some i => Ok (map (cell_at i) (rows df))
  | None => Raise (KeyError c)
  end.

Fixpoint set_nth (i : nat) (v : cell) (r : list cell) : list cell :=
  match r, i with
  | [], _ => []
  | _ :: r', O => v :: r'
  | x :: r', S i' => x :: set_nth i' v r'
  end.

Fixpoint zip_with {A B C} (f : A -> B -> C) (xs : list A) (ys : list B) : list C :=
  match xs, ys with
  | x :: xs', y :: ys' => f x y :: zip_with f xs' ys'
  | _, _ => []
  end.

(** [df[c] = values]: the values replace column [c], or become a new last
    column; their number must be the number of rows. *)
Definition set_column (df : DataFrame) (c : string) (values : list cell)
    : result DataFrame :=
  if negb (Nat.eqb (List.length values) (List.length (rows df))) then
    Raise (ValueError "Length of values does not match length of index")
  else
    match col_index c (columns df) with
    | Some i =>
        Ok {| columns := columns df;
              rows := zip_with (fun r v => set_nth i v r) (rows df) values |}
    | None =>
        Ok {| columns := (columns df ++ [c])%list;
              rows := zip_with (fun r v => (r ++ [v])%list) (rows df) values |}
    end.

Definition dquote : ascii := ascii_of_nat 34.

Fixpoint needs_quoting (s : string) : bool :=
  match s with
  | EmptyString => false
  | String c s' =>
      Ascii.eqb c "," || Ascii.eqb c dquote || Ascii.eqb c (ascii_of_nat 10)
      || Ascii.eqb c (ascii_of_nat 13) || needs_quoting s'
  end.

Fixpoint double_quotes (s : string) : string :=
  match s with
  | EmptyString => EmptyString
  | String c s' =>
      if Ascii.eqb c dquote then String c (String c (double_quotes s'))
      else String c (double_quotes s')
  end.

(** Standard CSV escaping of a field. *)
Definition csv_field (s : string) : string :=
  if needs_quoting s then String dquote (double_quotes s ++ String dquote EmptyString)
  else s.

Fixpoint join (sep : string) (l : list string) : string :=
  match l with
  | [] => ""
  | [x] => x
  | x :: l' => x ++ sep ++ join sep l'
  end.

(** One line of the file: the fields, escaped, between commas.  A line of
    one empty field is written as two double quotes, so that it is not an
    empty line. *)
Definition csv_row (fields : list string) : string :=
  match fields with
  | [EmptyString] => String dquote (String dquote EmptyString)
  | _ => join "," (map csv_field fields)
  end.

Fixpoint index_from (n : nat) (rs : list (list cell)) : list (nat * list cell) :=
  match rs with
  | [] => []
  | r :: rs' => (n, r) :: index_from (S n) rs'
  end.

(** The lines of [df.to_csv(index=index)]: the header, then one line per
    row; with [index=True] every line starts with the row label. *)
Definition to_csv_lines (L : Lib) (df : DataFrame) (index : bool) : list string :=
  let header := if index then "" :: columns df else columns df in
  csv_row header
  :: map (fun nr =>
            let fields := map (render_cell L) (snd nr) in
            csv_row (if index then nat_str (fst nr) :: fields else fields))
         (index_from 0 (rows df)).

Definition newline : string := String (ascii_of_nat 10) EmptyString.

Definition to_csv (L : Lib) (df : DataFrame) (index : bool) : string :=
  concat "" (map (fun l => l ++ newline) (to_csv_lines L df index)).

End Pandas.

(* ================================================================== *)
(** ** transfomers/spotify_transformer.py *)
(* ================================================================== *)

Module Transformer.
Import Pandas.

Record TransformData : Type := {
  album_data : pyval;
  artist_data : pyval;
  song_data : pyval
}.

(** The [try] block of [transform_album_data], lines 46-52. *)
Definition album_try (L : Lib) (self : TransformData) : result DataFrame :=
  album_df <- mk_DataFrame L (album_data self) ;;
  album_df <- drop_duplicates album_df ["id"] ;;
  release_date <- get_column album_df "release_date" ;;
  converted <- to_datetime L release_date ;;
  album_df <- set_column album_df "release_date" converted ;;
  Ok album_df.

Definition transform_album_data (L : Lib) (self : TransformData)
    : DataFrame * list log_entry :=
  match album_try L self with
  | Ok album_df =>
      (album_df,
       [Info ("Album Data transformed to DataFrame with shape " ++ shape_str album_df)])
  | Raise e => (empty_frame, [Error ("Error transforming album data: " ++ exn_str e)])
  end.

(** The [try] block of [transform_artist_data], lines 74-78. *)
Definition artist_try (L : Lib) (self : TransformData) : result DataFrame :=
  artist_df <- mk_DataFrame L (artist_data self) ;;
  artist_df <- drop_duplicates artist_df ["id"] ;;
  Ok artist_df.

Definition transform_artist_data (L : Lib) (self : TransformData)
    : DataFrame * list log_entry :=
  match artist_try L self with
  | Ok artist_df =>
      (artist_df,
       [Info ("Artist Data transformed to DataFrame with shape " ++ shape_str artist_df)])
  | Raise e => (empty_frame, [Error ("Error transforming artist data: " ++ exn_str e)])
  end.

(** The [try] block of [transform_song_data], lines 104-110. *)
Definition song_try (L : Lib) (self : TransformData) : result DataFrame :=
  song_df <- mk_DataFrame L (song_data self) ;;
  song_df <- drop_duplicates song_df ["id"] ;;
  added_at <- get_column song_df "added_at" ;;
  converted <- to_datetime L added_at ;;
  song_df <- set_column song_df "added_at" converted ;;
  Ok song_df.

Definition transform_song_data (L : Lib) (self : TransformData)
    : DataFrame * list log_entry :=
  match song_try L self with
  | Ok song_df =>
      (song_df,
       [Info ("Song Data transformed to DataFrame with shape " ++ shape_str song_df)])
  | Raise e => (empty_frame, [Error ("Error transforming song data: " ++ exn_str e)])
  end.

End Transformer.

(* ================================================================== *)
(** ** Process state and the external collaborators *)
(* ================================================================== *)

Module Runtime.
Import Pandas.

(** A parsed configuration file: sections of string options. *)
Definition Config : Type := list (string * list (string * string)).

Fixpoint assoc {A} (k : string) (l : list (string * A)) : option A :=
  match l with
  | [] => None
  | (k', v) :: l' => if String.eqb k k' then Some v else assoc k l'
  end.

(** [config[section][option]]; [config] is [None] when a caller relied on
    the default of [get_instance]. *)
Definition config_get (config : option Config) (section option : string)
    : result string :=
  match config with
  | None => Raise (TypeError "'NoneType' object is not subscriptable")
  | Some c =>
      match assoc section c with
      | None => Raise (KeyError section)
      | Some sec =>
          match assoc option sec with
          | None => Raise (KeyError option)
          | Some v => Ok v
          end
      end
  end.

(** The three connector classes. *)
Inductive backend : Type := Spotify | S3 | MySql.

(** An instance of a connector class.  [obj_id] is the identity of the
    object; [client] is the library handle ([spotify_client], [s3_client]
    or [connection]), [None] until the connect method has stored one. *)
Record Connection : Type := {
  cls : backend;
  obj_id : nat;
  config : option Config;
  client : option nat
}.

Record S3Object : Type := {
  Bucket : string;
  Key : string;
  Body : string;
  ContentType : string
}.

Record World : Type := {
  log : list log_entry;
  next_obj : nat;
  spotify_instance : option Connection;
  s3_instance : option Connection;
  mysql_instance : option Connection;
  dirs : list string;
  files : list (string * string);
  s3_objects : list S3Object;
  clock : nat
}.

(** Behaviour of the libraries and services outside the repository.

    [makedirs_error d] is the exception a call of [os.makedirs] for [d]
    ends in, if any; the call makes the missing parents of [d] one after
    the other, and [makedirs_partial d] lists the ones a failing call had
    made.  [write_error p] is the exception writing the file [p] ends in,
    if any; [write_partial p] tells how far a failing write got: [None]
    when the file could not be opened, [Some n] when it was opened, that
    is created or emptied, and [n] characters were written. *)
Record Ext : Type := {
  pandas : Lib;
  config_file : Config;
  spotipy_Spotify : string -> string -> result nat;
  playlist_tracks : nat -> string -> result pyval;
  boto3_client : string -> string -> string -> result nat;
  mysql_connect : string -> string -> string -> string -> result nat;
  makedirs_error : string -> option exn;
  makedirs_partial : string -> list string;
  write_error : string -> option exn;
  write_partial : string -> option nat;
  put_object_error : nat -> string -> string -> option exn;
  strftime_now : nat -> string
}.

(** State-and-exception monad: the state survives a raised exception. *)
Definition M (A : Type) : Type := World -> result A * World.

Definition ret {A} (a : A) : M A := fun w => (Ok a, w).
Definition raise {A} (e : exn) : M A := fun w => (Raise e, w).

Definition bind {A B} (c : M A) (k : A -> M B) : M B :=
  fun w =>
    match c w with
    | (Ok a, w') => k a w'
    | (Raise e, w') => (Raise e, w')
    end.

Definition try_except {A} (c : M A) (handler : exn -> M A) : M A :=
  fun w =>
    match c w with
    | (Ok a, w') => (Ok a, w')
    | (Raise e, w') => handler e w'
    end.

Definition lift {A} (r : result A) : M A := fun w => (r, w).

Definition set_log (l : list log_entry) (w : World) : World :=
  {| log := l; next_obj := next_obj w;
     spotify_instance := spotify_instance w; s3_instance := s3_instance w;
     mysql_instance := mysql_instance w; dirs := dirs w; files := files w;
     s3_objects := s3_objects w; clock := clock w |}.

Definition set_next_obj (n : nat) (w : World) : World :=
  {| log := log w; next_obj := n;
     spotify_instance := spotify_instance w; s3_instance := s3_instance w;
     mysql_instance := mysql_instance w; dirs := dirs w; files := files w;
     s3_objects := s3_objects w; clock := clock w |}.

Definition set_instance (b : backend) (i : option Connection) (w : World) : World :=
  {| log := log w; next_obj := next_obj w;
     spotify_instance := match b with Spotify => i | _ => spotify_instance w end;
     s3_instance := match b with S3 => i | _ => s3_instance w end;
     mysql_instance := match b with MySql => i | _ => mysql_instance w end;
     dirs := dirs w; files := files w;
     s3_objects := s3_objects w; clock := clock w |}.

Definition set_dirs (d : list string) (w : World) : World :=
  {| log := log w; next_obj := next_obj w;
     spotify_instance := spotify_instance w; s3_instance := s3_instance w;
     mysql_instance := mysql_instance w; dirs := d; files := files w;
     s3_objects := s3_objects w; clock := clock w |}.

Definition set_files (f : list (string * string)) (w : World) : World :=
  {| log := log w; next_obj := next_obj w;
     spotify_instance := spotify_instance w; s3_instance := s3_instance w;
     mysql_instance := mysql_instance w; dirs := dirs w; files := f;
     s3_objects := s3_objects w; clock := clock w |}.

Definition set_s3_objects (o : list S3Object) (w : World) : World :=
  {| log := log w; next_obj := next_obj w;
     spotify_instance := spotify_instance w; s3_instance := s3_instance w;
     mysql_instance := mysql_instance w; dirs := dirs w; files := files w;
     s3_objects := o; clock := clock w |}.

Definition set_clock (n : nat) (w : World) : World :=
  {| log := log w; next_obj := next_obj w;
     spotify_instance := spotify_instance w; s3_instance := s3_instance w;
     mysql_instance := mysql_instance w; dirs := dirs w; files := files w;
     s3_objects := s3_objects w; clock := n |}.

(** [cls._instance]. *)
Definition instance_of (b : backend) (w : World) : option Connection :=
  match b with
  | Spotify => spotify_instance w
  | S3 => s3_instance w
  | MySql => mysql_instance w
  end.

Definition logger (e : log_entry) : M unit :=
  fun w => (Ok tt, set_log (log w ++ [e]) w).

Definition logger_info (msg : string) : M unit := logger (Info msg).
Definition logger_error (msg : string) : M unit := logger (Error msg).

(** Runs a computation that returns its own log lines. *)
Definition logged {A} (c : A * list log_entry) : M A :=
  fun w => (Ok (fst c), set_log (log w ++ snd c) w).

(** A fresh process: nothing logged, no connector instance, nothing
    written. *)
Definition initial_world : World :=
  {| log := []; next_obj := 0;
     spotify_instance := None; s3_instance := None; mysql_instance := None;
     dirs := []; files := []; s3_objects := []; clock := 0 |}.

End Runtime.

Declare Scope m_scope.
Delimit Scope m_scope with M.
Notation "x <~ c ;; k" := (Runtime.bind c (fun x => k))
  (at level 61, c at next level, right associativity) : m_scope.
Notation "c ;;; k" := (Runtime.bind c (fun _ => k))
  (at level 61, right associativity) : m_scope.
Open Scope m_scope.

(* ================================================================== *)
(** ** connectors/spotify_connector.py, s3_connector.py, mysql_connector.py *)
(* ================================================================== *)

Module Connectors.
Import Runtime.

Definition with_client (self : Connection) (c : option nat) : Connection :=
  {| cls := cls self; obj_id := obj_id self; config := config self; client := c |}.

(** [SpotifyConnection.connectAPI]: every exception is logged and
    swallowed, the instance keeps [spotify_client = None]. *)
Definition connectAPI (E : Ext) (self : Connection) : M Connection :=
  try_except
    (client_id <~ lift (config_get (config self) "spotify-auth" "CLIENT_ID") ;;
     client_secret <~ lift (config_get (config self) "spotify-auth" "CLIENT_SECRET_KEY") ;;
     sp <~ lift (spotipy_Spotify E client_id client_secret) ;;
     logger_info "Connected and object created" ;;;
     ret (with_client self (Some sp)))
    (fun e =>
       logger_info ("API connection got some Error " ++ exn_str e) ;;;
       ret self).

(** [S3Connection.connect_to_s3]: an exception is logged and raised again. *)
Definition connect_to_s3 (E : Ext) (self : Connection) : M Connection :=
  try_except
    (key_id <~ lift (config_get (config self) "aws-auth" "aws_access_key_id") ;;
     secret <~ lift (config_get (config self) "aws-auth" "aws_secret_access_key") ;;
     region <~ lift (config_get (config self) "aws-auth" "region_name") ;;
     c <~ lift (boto3_client E key_id secret region) ;;
     logger_info "Connected to AWS S3 successfully." ;;;
     ret (with_client self (Some c)))
    (fun e =>
       logger_error ("Failed to connect to S3: " ++ exn_str e) ;;;
       raise e).

(** [MySqlConnection.connect_to_database]: [except Error] catches the
    driver's errors only; anything else leaves the method unlogged. *)
Definition connect_to_database (E : Ext) (self : Connection) : M Connection :=
  try_except
    (host <~ lift (config_get (config self) "mysql-auth" "HOST") ;;
     user <~ lift (config_get (config self) "mysql-auth" "USER") ;;
     password <~ lift (config_get (config self) "mysql-auth" "PASSWORD") ;;
     database <~ lift (config_get (config self) "mysql-auth" "DATABASE") ;;
     c <~ lift (mysql_connect E host user password database) ;;
     ret (with_client self (Some c)))
    (fun e =>
       match e with
       | LibraryError _ =>
           logger_error ("Error connecting to MySQL: " ++ exn_str e) ;;;
           raise e
       | _ => raise e
       end).

Definition connect (E : Ext) (b : backend) (self : Connection) : M Connection :=
  match b with
  | Spotify => connectAPI E self
  | S3 => connect_to_s3 E self
  | MySql => connect_to_database E self
  end.

(** Allocation of the object the constructor is about to initialise. *)
Definition new_object (b : backend) (cfg : option Config) : M Connection :=
  fun w =>
    (Ok {| cls := b; obj_id := next_obj w; config := cfg; client := None |},
     set_next_obj (S (next_obj w)) w).

(** [cls(config)]: [__init__] refuses to run once [cls._instance] is set;
    it does not itself store the new object in [cls._instance]. *)
Definition construct (E : Ext) (b : backend) (cfg : option Config) : M Connection :=
  self <~ new_object b cfg ;;
  registered <~ (fun w => (Ok (instance_of b w), w)) ;;
  match registered with
  | Some _ => raise (PlainException "Use get_instance() instead of creating a new object")
  | None => connect E b self
  end.

(** [cls.get_instance(config)]. *)
Definition get_instance (E : Ext) (b : backend) (cfg : option Config) : M Connection :=
  registered <~ (fun w => (Ok (instance_of b w), w)) ;;
  match registered with
  | None =>
      inst <~ construct E b cfg ;;
      (fun w => (Ok tt, set_instance b (Some inst) w)) ;;;
      ret inst
  | Some inst => ret inst
  end.

(** [SpotifyConnection.get_playlist_track]. *)
Definition get_playlist_track (E : Ext) (self : Connection) (playlist_id : string)
    : M pyval :=
  match client self with
  | None => raise (PlainException "Spotify client not initialized")
  | Some sp =>
      try_except
        (lift (playlist_tracks E sp playlist_id))
        (fun e =>
           logger_error ("Failed to get playlist tracks: " ++ exn_str e) ;;;
           raise e)
  end.

End Connectors.

(* ================================================================== *)
(** ** loaders/local_loader.py and loaders/s3_loader.py *)
(* ================================================================== *)

Module Loaders.
Import Pandas Runtime.

Definition all_slashes (s : string) : bool :=
  forallb (fun c => Ascii.eqb c "/") (list_ascii_of_string s).

(** The prefix of [s] up to and including its last slash, if it has one. *)
Fixpoint upto_last_slash (s : string) : option string :=
  match s with
  | EmptyString => None
  | String c s' =>
      match upto_last_slash s' with
      | Some h => Some (String c h)
      | None => if Ascii.eqb c "/" then Some (String c EmptyString) else None
      end
  end.

Fixpoint rstrip_slashes (s : string) : string :=
  match s with
  | EmptyString => EmptyString
  | String c s' =>
      match rstrip_slashes s' with
      | EmptyString => if Ascii.eqb c "/" then EmptyString else String c EmptyString
      | r => String c r
      end
  end.

(** [os.path.dirname]. *)
Definition dirname (p : string) : string :=
  match upto_last_slash p with
  | None => ""
  | Some head => if all_slashes head then head else rstrip_slashes head
  end.

Fixpoint ends_with_slash (s : string) : bool :=
  match s with
  | EmptyString => false
  | String c EmptyString => Ascii.eqb c "/"
  | String _ s' => ends_with_slash s'
  end.

(** [os.path.join(a, b)] for a relative [b]. *)
Definition path_join (a b : string) : string :=
  if String.eqb a "" then b
  else if ends_with_slash a then a ++ b
  else a ++ "/" ++ b.

(** The directories [ds] with those of [made] that were not among them. *)
Definition add_dirs (made : list string) (ds : list string) : list string :=
  fold_left (fun acc d => if mem_str d acc then acc else (acc ++ [d])%list) made ds.

(** [os.makedirs(d, exist_ok=True)]: a call that fails leaves the parents
    it had made. *)
Definition os_makedirs (E : Ext) (d : string) : M unit :=
  fun w =>
    match makedirs_error E d with
    | Some e => (Raise e, set_dirs (add_dirs (makedirs_partial E d) (dirs w)) w)
    | None => (Ok tt, if mem_str d (dirs w) then w else set_dirs (dirs w ++ [d]) w)
    end.

(** The files [fs] once the file at [filepath] holds [content]. *)
Definition put_file (filepath content : string) (fs : list (string * string))
    : list (string * string) :=
  (filepath, content) :: filter (fun f => negb (String.eqb (fst f) filepath)) fs.

(** Writing [content] to the file at [filepath], as [df.to_csv(filepath)]
    does: the file is opened for writing, which creates or empties it,
    and the text is written through.  A write that fails on opening
    leaves the files as they were; one that fails later leaves the file
    with the characters written so far. *)
Definition write_file (E : Ext) (filepath content : string) : M unit :=
  fun w =>
    match write_error E filepath with
    | Some e =>
        (Raise e,
         match write_partial E filepath with
         | None => w
         | Some n => set_files (put_file filepath (substring 0 n content) (files w)) w
         end)
    | None => (Ok tt, set_files (put_file filepath content (files w)) w)
    end.

Record LoadDataLocal : Type := {
  album_df : option DataFrame;
  artist_df : option DataFrame;
  song_df : option DataFrame
}.

(** [LoadDataLocal._validate_and_save]. *)
Definition _validate_and_save (E : Ext) (df : option DataFrame)
    (filepath data_type : string) : M unit :=
  let reject : M unit :=
    logger_error (data_type ++ " data is None or empty") ;;;
    raise (ValueError ("No " ++ data_type ++ " data to save")) in
  match df with
  | None => reject
  | Some d =>
      if empty d then reject
      else
        os_makedirs E (if String.eqb (dirname filepath) "" then "." else dirname filepath) ;;;
        try_except
          (write_file E filepath (to_csv (pandas E) d false) ;;;
           logger_info (data_type ++ " data saved to " ++ filepath ++
                        " with shape " ++ shape_str d))
          (fun e =>
             logger_error ("Failed to save " ++ data_type ++ " data to " ++
                           filepath ++ ": " ++ exn_str e) ;;;
             raise e)
  end.

Definition load_album_data (E : Ext) (self : LoadDataLocal) (filepath : string) : M unit :=
  _validate_and_save E (album_df self) filepath "Album".

Definition load_artist_data (E : Ext) (self : LoadDataLocal) (filepath : string) : M unit :=
  _validate_and_save E (artist_df self) filepath "Artist".

Definition load_song_data (E : Ext) (self : LoadDataLocal) (filepath : string) : M unit :=
  _validate_and_save E (song_df self) filepath "Song".

Definition load_all (E : Ext) (self : LoadDataLocal) (base_dir : string) : M unit :=
  load_album_data E self (path_join base_dir "albums.csv") ;;;
  load_artist_data E self (path_join base_dir "artists.csv") ;;;
  load_song_data E self (path_join base_dir "songs.csv") ;;;
  logger_info ("All data saved to " ++ base_dir).

Record LoadDataS3 : Type := {
  s3_album_df : option DataFrame;
  s3_artist_df : option DataFrame;
  s3_song_df : option DataFrame;
  s3_client : option nat;
  bucket_name : string
}.

(** [LoadDataS3.__init__]: reading [s3_connector.s3_client] fails on the
    default [s3_connector=None]. *)
Definition LoadDataS3_init (album artist song : option DataFrame)
    (s3_connector : option Connection) (bucket : string) : result LoadDataS3 :=
  match s3_connector with
  | None => Raise (AttributeError "'NoneType' object has no attribute 's3_client'")
  | Some conn =>
      Ok {| s3_album_df := album; s3_artist_df := artist; s3_song_df := song;
            s3_client := client conn; bucket_name := bucket |}
  end.

(** [s3_client.put_object(Bucket=, Key=, Body=, ContentType=)]. *)
Definition put_object (E : Ext) (cl : option nat) (o : S3Object) : M unit :=
  fun w =>
    match cl with
    | None => (Raise (AttributeError "'NoneType' object has no attribute 'put_object'"), w)
    | Some c =>
        match put_object_error E c (Bucket o) (Key o) with
        | Some e => (Raise e, w)
        | None => (Ok tt, set_s3_objects (s3_objects w ++ [o]) w)
        end
    end.

(** [LoadDataS3._validate_and_upload]. *)
Definition _validate_and_upload (E : Ext) (self : LoadDataS3)
    (df : option DataFrame) (s3_key data_type : string) : M string :=
  let reject : M string :=
    logger_error (data_type ++ " data is None or empty") ;;;
    raise (ValueError ("No " ++ data_type ++ " data to upload")) in
  match df with
  | None => reject
  | Some d =>
      if empty d then reject
      else
        let csv_buffer := to_csv (pandas E) d false in
        try_except
          (put_object E (s3_client self)
             {| Bucket := bucket_name self; Key := s3_key;
                Body := csv_buffer; ContentType := "text/csv" |} ;;;
           let s3_uri := "s3://" ++ bucket_name self ++ "/" ++ s3_key in
           logger_info (data_type ++ " data uploaded to " ++ s3_uri ++
                        " with shape " ++ shape_str d) ;;;
           ret s3_uri)
          (fun e =>
             logger_error ("Failed to upload " ++ data_type ++ " data to S3: " ++
                           exn_str e) ;;;
             raise e)
  end.

(** [datetime.now().strftime('%Y-%m-%d_%H-%M-%S')]. *)
Definition timestamp_now (E : Ext) : M string :=
  fun w => (Ok (strftime_now E (clock w)), set_clock (S (clock w)) w).

Definition load_album_data_to_s3 (E : Ext) (self : LoadDataS3) (s3_prefix : string)
    : M string :=
  timestamp <~ timestamp_now E ;;
  let s3_key := s3_prefix ++ "/albums/albums_" ++ timestamp ++ ".csv" in
  _validate_and_upload E self (s3_album_df self) s3_key "Album".

Definition load_artist_data_to_s3 (E : Ext) (self : LoadDataS3) (s3_prefix : string)
    : M string :=
  timestamp <~ timestamp_now E ;;
  let s3_key := s3_prefix ++ "/artists/artists_" ++ timestamp ++ ".csv" in
  _validate_and_upload E self (s3_artist_df self) s3_key "Artist".

Definition load_song_data_to_s3 (E : Ext) (self : LoadDataS3) (s3_prefix : string)
    : M string :=
  timestamp <~ timestamp_now E ;;
  let s3_key := s3_prefix ++ "/songs/songs_" ++ timestamp ++ ".csv" in
  _validate_and_upload E self (s3_song_df self) s3_key "Song".

Definition default_prefix : string := "processed-data/spotify".

Definition load_all_to_s3 (E : Ext) (self : LoadDataS3) (s3_prefix : string)
    : M (list (string * string)) :=
  albums <~ load_album_data_to_s3 E self s3_prefix ;;
  artists <~ load_artist_data_to_s3 E self s3_prefix ;;
  songs <~ load_song_data_to_s3 E self s3_prefix ;;
  logger_info ("All data uploaded to S3 under " ++ s3_prefix) ;;;
  ret [("albums", albums); ("artists", artists); ("songs", songs)].

End Loaders.

(* ================================================================== *)
(** ** main.py *)
(* ================================================================== *)

Module Pipeline.
Import Pandas Runtime Connectors Extractor Transformer Loaders.

(** A method call whose callee returns its log lines: the call may fail
    on its argument count, otherwise the lines are logged. *)
Definition invoke {A} (r : result (A * list log_entry)) : M A :=
  c <~ lift r ;;
  logged c.

(** [len(x) if x else 0]. *)
Definition count_of (x : pyval) : nat := if truthy x then len x else 0.

(** Lines 35-52 of [main]: transform, pick the sink, write. *)
Definition transform_and_load (E : Ext) (cfg : option Config) (playlist_id : string)
    (album_data artist_data song_data : pyval) (data_load : pyval) : M unit :=
  let transformer :=
    {| album_data := album_data; artist_data := artist_data; song_data := song_data |} in
  album_df <~ logged (transform_album_data (pandas E) transformer) ;;
  artist_df <~ logged (transform_artist_data (pandas E) transformer) ;;
  song_df <~ logged (transform_song_data (pandas E) transformer) ;;
  logger_info "Data transformation completed." ;;;
  (if eq_str data_load "s3" then
     s3_conn <~ get_instance E S3 cfg ;;
     bucket <~ lift (config_get cfg "aws-bucket" "bucket_name") ;;
     s3_loader <~ lift (LoadDataS3_init (Some album_df) (Some artist_df) (Some song_df)
                          (Some s3_conn) bucket) ;;
     load_all_to_s3 E s3_loader default_prefix ;;;
     logger_info "Data uploaded to S3 successfully."
   else
     let local_loader :=
       {| album_df := Some album_df; artist_df := Some artist_df;
          song_df := Some song_df |} in
     load_album_data E local_loader ("data/album_data_" ++ playlist_id ++ ".csv") ;;;
     load_artist_data E local_loader ("data/artist_data_" ++ playlist_id ++ ".csv") ;;;
     load_song_data E local_loader ("data/song_data_" ++ playlist_id ++ ".csv") ;;;
     logger_info "Data saved locally.") ;;;
  logger_info "ETL process completed successfully.".

(** Lines 11-23 of [main]: read the configuration, connect, fetch the
    playlist document. *)
Definition fetch (E : Ext) : M (option Config * string * pyval) :=
  logger_info "Starting ETL process..." ;;;
  let cfg := Some (config_file E) in
  api_conn <~ get_instance E Spotify cfg ;;
  logger_info "API connection successful: True" ;;;
  playlist_id <~ lift (config_get cfg "playlist-id" "PLAYLIST_ID") ;;
  playlist_data <~ get_playlist_track E api_conn playlist_id ;;
  ret (cfg, playlist_id, playlist_data).

(** Lines 25-32 of [main]: the three extraction calls.  Line 31 calls
    [extract_song_data()] with no argument although the method declares
    the parameter [playlist_data]. *)
Definition extract (playlist_data : pyval) : M (pyval * pyval * pyval) :=
  let data_extractor := {| playlist_data := playlist_data |} in
  album_data <~ invoke (py_call "DataExtract.extract_album_data" []
                          (fun _ => extract_album_data data_extractor) []) ;;
  logger_info ("Extracted album data: " ++ nat_str (count_of album_data) ++ " albums") ;;;
  artist_data <~ invoke (py_call "DataExtract.extract_artist_data" []
                           (fun _ => extract_artist_data data_extractor) []) ;;
  logger_info ("Extracted artist data: " ++ nat_str (count_of artist_data) ++ " artists") ;;;
  song_data <~ invoke (py_call "DataExtract.extract_song_data" ["playlist_data"]
                         (fun args => extract_song_data data_extractor (nth 0 args PNone))
                         []) ;;
  logger_info ("Extracted song data: " ++ nat_str (count_of song_data) ++ " songs") ;;;
  ret (album_data, artist_data, song_data).

(** [main(data_load)]. *)
Definition main (E : Ext) (data_load : pyval) : M unit :=
  fetched <~ fetch E ;;
  let '(cfg, playlist_id, playlist_data) := fetched in
  extracted <~ extract playlist_data ;;
  let '(album_data, artist_data, song_data) := extracted in
  transform_and_load E cfg playlist_id album_data artist_data song_data data_load.

End Pipeline.

(* ================================================================== *)
(** ** Sample documents and collaborators used in the examples *)
(* ================================================================== *)

Module Samples.
Import Pandas Runtime.

Definition urls (u : string) : pyval := PDict [("spotify", PStr u)].

Definition artist (id name : string) : pyval :=
  PDict [("id", PStr id); ("name", PStr name); ("external_urls", urls ("artist/" ++ id))].

Definition album (id name date : string) (album_artists : list pyval) : pyval :=
  PDict [("id", PStr id); ("name", PStr name); ("release_date", PStr date);
         ("total_tracks", PInt 10); ("external_urls", urls ("album/" ++ id));
         ("artists", PList album_artists)].

Definition track (id name : string) (alb : pyval) (track_artists : list pyval) : pyval :=
  PDict [("id", PStr id); ("name", PStr name); ("duration_ms", PInt 200000);
         ("popularity", PInt 50); ("external_urls", urls ("track/" ++ id));
         ("album", alb); ("artists", PList track_artists)].

Definition item (added_at : string) (trk : pyval) : pyval :=
  PDict [("added_at", PStr added_at); ("track", trk)].

Definition document (items : list pyval) : pyval := PDict [("items", PList items)].

Definition ann : pyval := artist "a1" "Ann".
Definition bob : pyval := artist "a2" "Bob".
Definition album_x : pyval := album "X" "First" "2020-01-02" [ann].

(** A well-formed item, an item without track, a second item of album X. *)
Definition item_a : pyval := item "2021-05-01T10:00:00Z" (track "t1" "One" album_x [ann]).
Definition item_b : pyval := item "2021-05-02T10:00:00Z" PNone.
Definition item_c : pyval := item "2021-05-03T10:00:00Z" (track "t2" "Two" album_x [ann; bob]).

(** A track whose dict has no ['album'] (and no ['artists']) key. *)
Definition item_no_album : pyval :=
  item "2021-05-04T10:00:00Z"
       (PDict [("id", PStr "t3"); ("name", PStr "Three"); ("duration_ms", PInt 1);
               ("popularity", PInt 2); ("external_urls", urls "track/t3")]).

(** A track whose album lists no artist. *)
Definition item_no_album_artist : pyval :=
  item "2021-05-05T10:00:00Z" (track "t4" "Four" (album "Y" "Second" "2019" []) [ann]).

Fixpoint digits_value (s : string) (acc : Z) : option Z :=
  match s with
  | EmptyString => Some acc
  | String c s' =>
      let n := nat_of_ascii c in
      if (48 <=? n)%nat && (n <=? 57)%nat
      then digits_value s' (acc * 10 + Z.of_nat (n - 48))
      else None
  end.

(** A stand-in for the date parser: [YYYY-MM-DD] reads as the number
    [YYYYMMDD], anything else as [NaT]. *)
Definition parse_day (c : cell) : cell :=
  match c with
  | CVal (PStr s) =>
      if Nat.eqb (String.length s) 10
      then match digits_value (substring 0 4 s ++ substring 5 2 s ++ substring 8 2 s) 0 with
           | Some z => CTime z
           | None => CNaT
           end
      else CNaT
  | _ => CNaT
  end.

Definition show_cell (c : cell) : string :=
  match c with
  | CVal (PStr s) => s
  | CVal (PInt z) => NilZero.string_of_int (Z.to_int z)
  | CTime z => NilZero.string_of_int (Z.to_int z)
  | _ => ""
  end.

(** A stand-in for the library: columns are stored as they are given,
    which is what the library does with the columns of the examples below
    (text, or integers that fit 64 bits, with no missing entry). *)
Definition lib : Lib :=
  {| DataFrame_other := fun _ => Raise (ValueError "unsupported data");
     stored := fun col n => nth n col CNaN;
     to_datetime := fun col => Ok (map parse_day col);
     render_cell := show_cell |}.

Definition config_ini : Config :=
  [("spotify-auth", [("CLIENT_ID", "id"); ("CLIENT_SECRET_KEY", "secret")]);
   ("playlist-id", [("PLAYLIST_ID", "PL1")]);
   ("aws-auth", [("aws_access_key_id", "k"); ("aws_secret_access_key", "s");
                 ("region_name", "eu")]);
   ("aws-bucket", [("bucket_name", "bkt")]);
   ("mysql-auth", [("HOST", "h"); ("USER", "u"); ("PASSWORD", "p"); ("DATABASE", "d")])].

(** Collaborators that always succeed and serve [doc] for every playlist. *)
Definition ext (doc : pyval) : Ext :=
  {| pandas := lib;
     config_file := config_ini;
     spotipy_Spotify := fun _ _ => Ok 1;
     playlist_tracks := fun _ _ => Ok doc;
     boto3_client := fun _ _ _ => Ok 2;
     mysql_connect := fun _ _ _ _ => Ok 3;
     makedirs_error := fun _ => None;
     makedirs_partial := fun _ => [];
     write_error := fun _ => None;
     write_partial := fun _ => None;
     put_object_error := fun _ _ _ => None;
     strftime_now := fun n => "2025-01-01_00-00-0" ++ nat_str n |}.


(** Raw album records: the second repeats the identifier of the first with
    other field values. *)
Definition album_first : list (string * pyval) :=
  [("id", PStr "X"); ("name", PStr "First"); ("release_date", PStr "2020-01-02");
   ("total_tracks", PInt 10); ("url", PStr "album/X")].

Definition album_again : list (string * pyval) :=
  [("id", PStr "X"); ("name", PStr "Other"); ("release_date", PStr "1999-09-09");
   ("total_tracks", PInt 3); ("url", PStr "album/other")].

Definition album_y : list (string * pyval) :=
  [("id", PStr "Y"); ("name", PStr "Second"); ("release_date", PStr "2019");
   ("total_tracks", PInt 8); ("url", PStr "album/Y")].

Definition conflicting_albums : list (list (string * pyval)) :=
  [album_first; album_again; album_y; album_again].


(** A small non-empty table. *)
Definition album_table : DataFrame :=
  {| columns := ["id"; "name"];
     rows := [[CVal (PStr "X"); CVal (PStr "First")]] |}.

(** Collaborators as in [ext], except that the file [denied] cannot be
    opened for writing and that no object can be put under a key of bucket
    [closed]. *)
Definition failing_ext (denied closed : string) : Ext :=
  {| pandas := lib;
     config_file := config_ini;
     spotipy_Spotify := fun _ _ => Raise (LibraryError "spotipy unavailable");
     playlist_tracks := fun _ _ => Raise (LibraryError "HTTP 404");
     boto3_client := fun _ _ _ => Raise (LibraryError "NoCredentialsError");
     mysql_connect := fun _ _ _ _ => Raise (LibraryError "2003: cannot connect");
     makedirs_error := fun _ => None;
     makedirs_partial := fun _ => [];
     write_error := fun p => if String.eqb p denied
                             then Some (OSError "Permission denied") else None;
     write_partial := fun _ => None;
     put_object_error := fun _ b _ => if String.eqb b closed
                                      then Some (LibraryError "NoSuchBucket") else None;
     strftime_now := fun n => "2025-01-01_00-00-0" ++ nat_str n |}.

(** Collaborators as in [ext], except that the disk is full once [n]
    characters of a file have been written. *)
Definition full_disk_ext (n : nat) : Ext :=
  {| pandas := lib;
     config_file := config_ini;
     spotipy_Spotify := fun _ _ => Ok 1;
     playlist_tracks := fun _ _ => Ok PNone;
     boto3_client := fun _ _ _ => Ok 2;
     mysql_connect := fun _ _ _ _ => Ok 3;
     makedirs_error := fun _ => None;
     makedirs_partial := fun _ => [];
     write_error := fun _ => Some (OSError "No space left on device");
     write_partial := fun _ => Some n;
     put_object_error := fun _ _ _ => None;
     strftime_now := fun n => "2025-01-01_00-00-0" ++ nat_str n |}.

End Samples.

(* ================================================================== *)
(** ** Notions used to state the properties *)
(* ================================================================== *)

Module Spec.
Import Pandas Runtime.

(** What a run has written: directories, files and stored objects. *)
Definition same_outputs (w w' : Runtime.World) : Prop :=
  Runtime.files w' = Runtime.files w /\
  Runtime.dirs w' = Runtime.dirs w /\
  Runtime.s3_objects w' = Runtime.s3_objects w.

(** The exception raised by the call [data_extractor.extract_song_data()]. *)
Definition song_call_error : exn :=
  TypeError "DataExtract.extract_song_data() missing 1 required positional argument: 'playlist_data'".

(** The three record kinds and, for each, the input, the [try] block and
    the method of [TransformData]. *)
Inductive entity : Type := Album | Artist | Song.

Definition raw (e : entity) (self : Transformer.TransformData) : pyval :=
  match e with
  | Album => Transformer.album_data self
  | Artist => Transformer.artist_data self
  | Song => Transformer.song_data self
  end.

Definition attempt (e : entity) (L : Lib) (self : Transformer.TransformData)
    : result DataFrame :=
  match e with
  | Album => Transformer.album_try L self
  | Artist => Transformer.artist_try L self
  | Song => Transformer.song_try L self
  end.

Definition transform (e : entity) (L : Lib) (self : Transformer.TransformData)
    : DataFrame * list log_entry :=
  match e with
  | Album => Transformer.transform_album_data L self
  | Artist => Transformer.transform_artist_data L self
  | Song => Transformer.transform_song_data L self
  end.

(** The column a transform converts to date-times, if it converts one. *)
Definition date_column (e : entity) : option string :=
  match e with
  | Album => Some "release_date"
  | Artist => None
  | Song => Some "added_at"
  end.

(** [df is None or df.empty]. *)
Definition missing (df : option DataFrame) : bool :=
  match df with
  | None => true
  | Some d => empty d
  end.

(** A client of the connector classes calls [get_instance] or the
    constructor; [run_calls] is the process state after a sequence of such
    calls, whatever they returned. *)
Inductive call : Type :=
| GetInstance (b : backend) (cfg : option Config)
| Construct (b : backend) (cfg : option Config).

Definition run_call (E : Ext) (c : call) (w : World) : World :=
  match c with
  | GetInstance b cfg => snd (Connectors.get_instance E b cfg w)
  | Construct b cfg => snd (Connectors.construct E b cfg w)
  end.

Definition run_calls (E : Ext) (cs : list call) (w : World) : World :=
  fold_left (fun w c => run_call E c w) cs w.

Definition constructor_refusal : exn :=
  PlainException "Use get_instance() instead of creating a new object".

(** The cell a record contributes to column [c]. *)
Definition field (c : string) (d : list (string * pyval)) : cell :=
  match dict_get c d with
  | Some v => CVal v
  | None => CNaN
  end.

(** The key of the identifier a record gives. *)
Definition id_key (d : list (string * pyval)) : result key :=
  key_of_cell (field "id" d).


(** The key a table row is deduplicated by, column [i] holding the
    identifiers. *)
Definition row_id (i : nat) (r : list cell) : result key :=
  key_of_cell (cell_at i r).

(** Row [n] of [rs] is the first row with its identifier: no row before it
    has the same key. *)
Definition first_occurrence (i : nat) (rs : list (list cell)) (n : nat) : Prop :=
  n < List.length rs /\
  forall m, m < n -> row_id i (nth m rs []) <> row_id i (nth n rs []).

(** Row [r] holds the cells of row [r'] in every column but [skip]. *)
Definition agrees (cols : list string) (skip : option string)
    (r r' : list cell) : Prop :=
  List.length r = List.length r' /\
  forall c j, col_index c cols = Some j -> skip <> Some c ->
              cell_at j r = cell_at j r'.


(** The positions of the rows [keep_first] keeps. *)
Fixpoint kept_positions (seen : list (list key)) (krs : list (list key * list cell))
    : list nat :=
  match krs with
  | [] => []
  | (k, r) :: krs' =>
      if mem_keys k seen then map S (kept_positions seen krs')
      else 0 :: map S (kept_positions (k :: seen) krs')
  end.

(** The raw record list each extraction method hands to its transform. *)
Definition extracted (e : entity) (de : Extractor.DataExtract) (pd : pyval) : pyval :=
  match e with
  | Album => fst (Extractor.extract_album_data de)
  | Artist => fst (Extractor.extract_artist_data de)
  | Song => fst (Extractor.extract_song_data de pd)
  end.

(** The keys of the dict each extraction method builds, in source order. *)
Definition entity_columns (e : entity) : list string :=
  match e with
  | Album => ["id"; "name"; "release_date"; "total_tracks"; "url"]
  | Artist => ["id"; "name"; "url"]
  | Song => ["id"; "name"; "added_at"; "duration_ms"; "popularity"; "url";
             "album_id"; "artist_ids"]
  end.

Definition csv_header (e : entity) : string :=
  match e with
  | Album => "id,name,release_date,total_tracks,url"
  | Artist => "id,name,url"
  | Song => "id,name,added_at,duration_ms,popularity,url,album_id,artist_ids"
  end.

(** The header the specification lists for the song file. *)
Definition spec_song_header : string :=
  "id,name,added_at,duration_ms,popularity,url,album_id,artist_id".

Definition is_record (e : entity) (v : pyval) : Prop :=
  exists d, v = PDict d /\ map fst d = entity_columns e.

(** [l] is [l'] with some elements removed, the others in place. *)
Inductive subseq {A : Type} : list A -> list A -> Prop :=
| subseq_nil : subseq [] []
| subseq_skip (x : A) (l l' : list A) : subseq l l' -> subseq l (x :: l')
| subseq_take (x : A) (l l' : list A) : subseq l l' -> subseq (x :: l) (x :: l').

(** The loop body of each extraction method. *)
Definition body_of (e : entity) : pyval -> result (list pyval) :=
  match e with
  | Album => Extractor.album_body
  | Artist => Extractor.artist_body
  | Song => Extractor.song_body
  end.

(** The item has a ['track'] entry that is not [None]. *)
Definition has_track (it : pyval) : bool :=
  match getitem it "track" with
  | Ok t => negb (is_none t)
  | Raise _ => false
  end.

(** The number of entries of [it['track']['artists']] when the item has a
    track, and 0 otherwise. *)
Definition track_artist_count (it : pyval) : nat :=
  if has_track it then
    match path it ["track"; "artists"] with
    | Ok artists =>
        match iterate artists with
        | Ok arts => List.length arts
        | Raise _ => 0
        end
    | Raise _ => 0
    end
  else 0.

(** The directory [_validate_and_save] creates for [filepath]. *)
Definition target_dir (filepath : string) : string :=
  if String.eqb (Loaders.dirname filepath) "" then "." else Loaders.dirname filepath.

(** The files of [fs] after [content] has been written to [filepath]. *)
Definition with_file (filepath content : string) (fs : list (string * string))
    : list (string * string) :=
  (filepath, content) :: filter (fun f => negb (String.eqb (fst f) filepath)) fs.

(** The object [_validate_and_upload] puts for a table. *)
Definition csv_object (E : Ext) (bucket s3_key : string) (df : DataFrame) : S3Object :=
  {| Bucket := bucket; Key := s3_key; Body := to_csv (pandas E) df false;
     ContentType := "text/csv" |}.

(** The key [load_*_to_s3] builds at clock tick [n]. *)
Definition stamped_key (E : Ext) (prefix kind : string) (n : nat) : string :=
  prefix ++ "/" ++ kind ++ "/" ++ kind ++ "_" ++ strftime_now E n ++ ".csv".

(** What holds of every registered connector instance in a process that
    only ever called [get_instance] and the constructors: it is an instance
    of the class it is registered for, its identity has been allocated, and
    for the storage and database classes it holds a client. *)
Definition registry_ok (w : World) : Prop :=
  forall b inst,
    instance_of b w = Some inst ->
    cls inst = b /\ obj_id inst < next_obj w /\
    (b <> Spotify -> client inst <> None).

(** The credentials lookup and client construction of [connectAPI]. *)
Definition spotify_login (E : Ext) (cfg : option Config) : result nat :=
  match config_get cfg "spotify-auth" "CLIENT_ID" with
  | Ok client_id =>
      match config_get cfg "spotify-auth" "CLIENT_SECRET_KEY" with
      | Ok client_secret => spotipy_Spotify E client_id client_secret
      | Raise x => Raise x
      end
  | Raise x => Raise x
  end.

(** What the local sink and what the cloud side can change. *)
Definition local_state (w : World) : list (string * string) * list string :=
  (files w, dirs w).

Definition cloud_state (w : World) : list S3Object * option Connection :=
  (s3_objects w, s3_instance w).

(** Computation [c] never changes observation [f] of the state, whatever
    it returns. *)
Definition keeps {A B : Type} (f : World -> A) (c : M B) : Prop :=
  forall w, f (snd (c w)) = f w.

End Spec.
Export Spec.

(* ================================================================== *)
(** * Properties *)
(* ================================================================== *)

(** ** Extraction *)

Section ForEach.
Variable body : pyval -> result (list pyval).

Lemma for_each_app (l1 l2 acc : list pyval) :
  Extractor.for_each body (l1 ++ l2) acc =
  match Extractor.for_each body l1 acc with
  | Ok acc' => Extractor.for_each body l2 acc'
  | Raise e => Raise e
  end.
Proof.
  revert acc. induction l1 as [|x l1 IH]; intros acc; simpl.
  - reflexivity.
  - destruct (body x) as [rs|e]; [apply IH | reflexivity].
Qed.

(** An iteration that appends nothing can be dropped from the loop. *)
Lemma for_each_skip (l1 l2 acc : list pyval) (x : pyval) :
  body x = Ok [] ->
  Extractor.for_each body (l1 ++ x :: l2) acc = Extractor.for_each body (l1 ++ l2) acc.
Proof.
  intros Hx. rewrite !for_each_app.
  destruct (Extractor.for_each body l1 acc) as [acc'|e]; [|reflexivity].
  simpl. rewrite Hx, app_nil_r. reflexivity.
Qed.

(** One raising iteration makes the whole loop raise, whatever the other
    iterations would have appended. *)
Lemma for_each_raises (xs acc : list pyval) (x : pyval) (e : exn) :
  In x xs -> body x = Raise e ->
  exists e', Extractor.for_each body xs acc = Raise e'.
Proof.
  revert acc. induction xs as [|y xs IH]; intros acc Hin Hx; [destruct Hin|].
  simpl. destruct (body y) as [rs|e'] eqn:Hy.
  - destruct Hin as [->|Hin]; [congruence | now apply IH].
  - now exists e'.
Qed.
End ForEach.

Lemma track_present (data v : pyval) (k : string) (ks : list string) :
  path data ("track" :: k :: ks) = Ok v ->
  exists t, getitem data "track" = Ok t /\ is_none t = false.
Proof.
  simpl. destruct (getitem data "track") as [t|e] eqn:Ht; [|discriminate].
  intros H. exists t. split; [reflexivity|].
  destruct t; simpl in H; try discriminate; reflexivity.
Qed.

(** An album without album-artists makes the loop body of
    [extract_song_data] raise: [artists[0]] has nothing to return. *)
Lemma song_body_no_album_artist (data : pyval) :
  path data ["track"; "album"; "artists"] = Ok (PList []) ->
  exists e, Extractor.song_body data = Raise e.
Proof.
  intros H. destruct (track_present _ _ _ _ H) as (t & Ht & Hn).
  unfold Extractor.song_body. rewrite Ht. cbn [rbind]. rewrite Hn.
  repeat match goal with
         | |- context [rbind ?c _] =>
             lazymatch c with
             | path data ["track"; "album"; "artists"] => fail
             | _ => destruct c; cbn [rbind]; [|eexists; reflexivity]
             end
         end.
  rewrite H. cbn. eexists; reflexivity.
Qed.

(** C1 (as the code behaves): when the loop body raises on one item of the
    document, the extraction method returns [None] for the whole batch, so
    the records of the well-formed items are lost with it. *)
Theorem malformed_item_aborts_batch
    (self : Extractor.DataExtract) (its : list pyval) (bad pd : pyval) :
  Extractor.playlist_items self = Ok its ->
  In bad its ->
  (forall e, Extractor.album_body bad = Raise e ->
             fst (Extractor.extract_album_data self) = PNone) /\
  (forall e, Extractor.artist_body bad = Raise e ->
             fst (Extractor.extract_artist_data self) = PNone) /\
  (forall e, Extractor.song_body bad = Raise e ->
             fst (Extractor.extract_song_data self pd) = PNone).
Proof.
  intros Hits Hin.
  unfold Extractor.extract_album_data, Extractor.extract_artist_data,
    Extractor.extract_song_data, Extractor.album_try, Extractor.artist_try,
    Extractor.song_try.
  rewrite Hits. cbn [rbind].
  repeat split; intros e He;
    destruct (for_each_raises _ its [] bad e Hin He) as [e' ->]; reflexivity.
Qed.

Lemma malformed_item_aborts_batch_witness :
  let self := {| Extractor.playlist_data :=
                   Samples.document [Samples.item_a; Samples.item_no_album; Samples.item_c] |} in
  fst (Extractor.extract_album_data self) = PNone /\
  fst (Extractor.extract_artist_data self) = PNone /\
  fst (Extractor.extract_song_data self PNone) = PNone.
Proof.
  intros self.
  destruct (malformed_item_aborts_batch self
              [Samples.item_a; Samples.item_no_album; Samples.item_c]
              Samples.item_no_album PNone eq_refl (or_intror (or_introl eq_refl)))
    as (Ha & Hr & Hs).
  split; [|split].
  - apply (Ha (KeyError "album")). reflexivity.
  - apply (Hr (KeyError "artists")). reflexivity.
  - apply (Hs (KeyError "album")). reflexivity.
Defined.

(** Without the malformed item the same two items yield their records. *)
Example well_formed_items_extract :
  let self := {| Extractor.playlist_data :=
                   Samples.document [Samples.item_a; Samples.item_c] |} in
  exists a1 a2 r1 r2 r3 s1 s2,
    fst (Extractor.extract_album_data self) = PList [a1; a2] /\
    fst (Extractor.extract_artist_data self) = PList [r1; r2; r3] /\
    fst (Extractor.extract_song_data self PNone) = PList [s1; s2].
Proof. cbv zeta. repeat eexists; reflexivity. Qed.

(** C2 (as the code behaves): an item whose album lists no artist makes
    [extract_song_data] return [None]; no song record is produced for that
    item nor for any other item of the document. *)
Theorem song_extraction_lost_on_empty_album_artists
    (self : Extractor.DataExtract) (its : list pyval) (data pd : pyval) :
  Extractor.playlist_items self = Ok its ->
  In data its ->
  path data ["track"; "album"; "artists"] = Ok (PList []) ->
  fst (Extractor.extract_song_data self pd) = PNone.
Proof.
  intros Hits Hin Hempty.
  destruct (song_body_no_album_artist data Hempty) as [e He].
  unfold Extractor.extract_song_data, Extractor.song_try.
  rewrite Hits. cbn [rbind].
  destruct (for_each_raises _ its [] data e Hin He) as [e' ->].
  reflexivity.
Qed.

Lemma song_extraction_lost_on_empty_album_artists_witness :
  fst (Extractor.extract_song_data
         {| Extractor.playlist_data :=
              Samples.document [Samples.item_a; Samples.item_no_album_artist;
                                Samples.item_c] |}
         PNone) = PNone.
Proof.
  apply (song_extraction_lost_on_empty_album_artists _
           [Samples.item_a; Samples.item_no_album_artist; Samples.item_c]
           Samples.item_no_album_artist PNone).
  - reflexivity.
  - simpl; auto.
  - reflexivity.
Defined.

(** The exception that ends the batch is the [IndexError] of [artists[0]]. *)
Example empty_album_artists_log :
  snd (Extractor.extract_song_data
         {| Extractor.playlist_data :=
              Samples.document [Samples.item_a; Samples.item_no_album_artist;
                                Samples.item_c] |}
         PNone)
  = [Info "Got some Error with exception list index out of range"].
Proof. reflexivity. Qed.

(** C5: an item whose track is [None] makes each loop body [continue]
    without appending, so each extraction method returns exactly what it
    returns on the document without that item, log lines included. *)
Theorem absent_track_contributes_nothing
    (self self' : Extractor.DataExtract) (l1 l2 : list pyval) (it pd pd' : pyval) :
  getitem it "track" = Ok PNone ->
  Extractor.playlist_items self = Ok (l1 ++ it :: l2)%list ->
  Extractor.playlist_items self' = Ok (l1 ++ l2)%list ->
  (Extractor.album_body it = Ok [] /\
   Extractor.artist_body it = Ok [] /\
   Extractor.song_body it = Ok []) /\
  Extractor.extract_album_data self = Extractor.extract_album_data self' /\
  Extractor.extract_artist_data self = Extractor.extract_artist_data self' /\
  Extractor.extract_song_data self pd = Extractor.extract_song_data self' pd'.
Proof.
  intros Ht Hs Hs'.
  assert (Ha : Extractor.album_body it = Ok [])
    by (unfold Extractor.album_body; rewrite Ht; reflexivity).
  assert (Hr : Extractor.artist_body it = Ok [])
    by (unfold Extractor.artist_body; rewrite Ht; reflexivity).
  assert (Hg : Extractor.song_body it = Ok [])
    by (unfold Extractor.song_body; rewrite Ht; reflexivity).
  split; [auto|].
  unfold Extractor.extract_album_data, Extractor.extract_artist_data,
    Extractor.extract_song_data, Extractor.album_try, Extractor.artist_try,
    Extractor.song_try.
  rewrite Hs, Hs'. cbn [rbind].
  rewrite (for_each_skip _ l1 l2 [] it Ha), (for_each_skip _ l1 l2 [] it Hr),
    (for_each_skip _ l1 l2 [] it Hg).
  repeat split.
Qed.

Lemma absent_track_contributes_nothing_witness :
  Extractor.extract_song_data
    {| Extractor.playlist_data :=
         Samples.document [Samples.item_a; Samples.item_b; Samples.item_c] |} PNone
  = Extractor.extract_song_data
      {| Extractor.playlist_data := Samples.document [Samples.item_a; Samples.item_c] |}
      PNone.
Proof.
  apply (absent_track_contributes_nothing
           {| Extractor.playlist_data :=
                Samples.document [Samples.item_a; Samples.item_b; Samples.item_c] |}
           {| Extractor.playlist_data := Samples.document [Samples.item_a; Samples.item_c] |}
           [Samples.item_a] [Samples.item_c] Samples.item_b PNone PNone);
    reflexivity.
Defined.

(** ** Orchestration *)

(** The extraction block of [main] runs two methods and fails on the call
    of the third. *)
Lemma extract_stops_at_song_call (doc : pyval) (w1 : Runtime.World) :
  let de := {| Extractor.playlist_data := doc |} in
  let albums := Extractor.extract_album_data de in
  let artists := Extractor.extract_artist_data de in
  exists w2,
    Pipeline.extract doc w1 = (Raise song_call_error, w2) /\
    Runtime.log w2 =
      (Runtime.log w1 ++ snd albums ++
       [Info ("Extracted album data: " ++ nat_str (Pipeline.count_of (fst albums)) ++ " albums")] ++
       snd artists ++
       [Info ("Extracted artist data: " ++ nat_str (Pipeline.count_of (fst artists)) ++ " artists")])%list /\
    same_outputs w1 w2.
Proof.
  intros de albums artists.
  unfold Pipeline.extract, Pipeline.invoke, py_call.
  cbn. eexists. split; [reflexivity|].
  cbn. rewrite <- !app_assoc. repeat split.
Qed.

(** C3 (as the code behaves): once the document is fetched, [main] runs the
    album and artist extraction and then fails on the call of
    [extract_song_data], which lacks its argument; no transform, no routing
    and no write follows, whatever the document and the run mode. *)
Theorem main_stops_at_song_extraction
    (E : Runtime.Ext) (data_load : pyval) (w w1 : Runtime.World)
    (cfg : option Runtime.Config) (playlist_id : string) (doc : pyval) :
  Pipeline.fetch E w = (Ok (cfg, playlist_id, doc), w1) ->
  let de := {| Extractor.playlist_data := doc |} in
  let albums := Extractor.extract_album_data de in
  let artists := Extractor.extract_artist_data de in
  exists w2,
    Pipeline.main E data_load w = (Raise song_call_error, w2) /\
    Runtime.log w2 =
      (Runtime.log w1 ++ snd albums ++
       [Info ("Extracted album data: " ++ nat_str (Pipeline.count_of (fst albums)) ++ " albums")] ++
       snd artists ++
       [Info ("Extracted artist data: " ++ nat_str (Pipeline.count_of (fst artists)) ++ " artists")])%list /\
    same_outputs w1 w2.
Proof.
  intros Hfetch de albums artists.
  destruct (extract_stops_at_song_call doc w1) as (w2 & Hex & Hlog & Hout).
  exists w2. split; [|split; assumption].
  unfold Pipeline.main, Runtime.bind. rewrite Hfetch, Hex. reflexivity.
Qed.

Lemma main_stops_at_song_extraction_witness :
  exists w2,
    Pipeline.main
      (Samples.ext (Samples.document [Samples.item_a; Samples.item_b; Samples.item_c]))
      (PStr "local") Runtime.initial_world = (Raise song_call_error, w2) /\
    Runtime.files w2 = [] /\ Runtime.s3_objects w2 = [].
Proof.
  destruct (main_stops_at_song_extraction
              (Samples.ext (Samples.document [Samples.item_a; Samples.item_b; Samples.item_c]))
              (PStr "local") Runtime.initial_world _ _ _ _ eq_refl)
    as (w2 & Hmain & _ & Hfiles & _ & Hs3).
  exists w2. split; [exact Hmain|]. split; [exact Hfiles | exact Hs3].
Defined.

Lemma same_outputs_refl (w : Runtime.World) : same_outputs w w.
Proof. repeat split. Qed.

Lemma same_outputs_trans (w1 w2 w3 : Runtime.World) :
  same_outputs w1 w2 -> same_outputs w2 w3 -> same_outputs w1 w3.
Proof.
  unfold same_outputs. intros (?&?&?) (?&?&?). repeat split; congruence.
Qed.

Ltac run_step :=
  match goal with
  | |- context [match ?c with _ => _ end] =>
      lazymatch c with
      | context [match _ with _ => _ end] => fail
      | _ => destruct c eqn:?
      end
  end.

(** Connecting and registering a connector writes nothing. *)
Lemma get_instance_same_outputs (E : Runtime.Ext) (b : Runtime.backend)
    (cfg : option Runtime.Config) (w : Runtime.World) :
  same_outputs w (snd (Connectors.get_instance E b cfg w)).
Proof.
  unfold Connectors.get_instance, Connectors.construct, Connectors.connect,
    Connectors.connectAPI, Connectors.connect_to_s3, Connectors.connect_to_database,
    Connectors.new_object, Runtime.bind, Runtime.try_except, Runtime.lift,
    Runtime.ret, Runtime.raise, Runtime.logger_info, Runtime.logger_error,
    Runtime.logger.
  destruct b; cbn; repeat (run_step; cbn); repeat split.
Qed.

Lemma fetch_same_outputs (E : Runtime.Ext) (w : Runtime.World) :
  same_outputs w (snd (Pipeline.fetch E w)).
Proof.
  unfold Pipeline.fetch, Runtime.bind at 1. cbn.
  unfold Runtime.bind at 1.
  match goal with
  | |- context [Connectors.get_instance E ?b ?c ?w0] =>
      pose proof (get_instance_same_outputs E b c w0) as Hg;
      destruct (Connectors.get_instance E b c w0) as [[conn|e] w1]
  end; cbn in *; [|exact Hg].
  unfold Connectors.get_playlist_track, Runtime.bind, Runtime.try_except,
    Runtime.lift, Runtime.ret, Runtime.raise, Runtime.logger_info,
    Runtime.logger_error, Runtime.logger.
  cbn. repeat (run_step; cbn); exact Hg.
Qed.

(** Whatever the collaborators do, [main] never returns normally and never
    writes: it fails during the fetch or at the call on line 31. *)
Lemma main_never_completes (E : Runtime.Ext) (data_load : pyval) (w : Runtime.World) :
  exists e w', Pipeline.main E data_load w = (Raise e, w') /\ same_outputs w w'.
Proof.
  pose proof (fetch_same_outputs E w) as Hf.
  unfold Pipeline.main, Runtime.bind.
  destruct (Pipeline.fetch E w) as [[[[cfg pid] doc]|e] w1] eqn:Hfetch.
  - destruct (extract_stops_at_song_call doc w1) as (w2 & Hex & _ & Hout).
    rewrite Hex. eexists _, w2. split; [reflexivity|].
    exact (same_outputs_trans w w1 w2 Hf Hout).
  - exists e, w1. split; [reflexivity | exact Hf].
Qed.

(** ** Sinks *)

Lemma validate_and_save_rejects (E : Runtime.Ext) (df : option Pandas.DataFrame)
    (filepath data_type : string) (w : Runtime.World) :
  missing df = true ->
  Loaders._validate_and_save E df filepath data_type w =
    (Raise (ValueError ("No " ++ data_type ++ " data to save")),
     Runtime.set_log (Runtime.log w ++ [Error (data_type ++ " data is None or empty")]) w).
Proof.
  unfold missing, Loaders._validate_and_save. intros H.
  destruct df as [d|]; [rewrite H|]; reflexivity.
Qed.

Lemma validate_and_upload_rejects (E : Runtime.Ext) (self : Loaders.LoadDataS3)
    (df : option Pandas.DataFrame) (s3_key data_type : string) (w : Runtime.World) :
  missing df = true ->
  Loaders._validate_and_upload E self df s3_key data_type w =
    (Raise (ValueError ("No " ++ data_type ++ " data to upload")),
     Runtime.set_log (Runtime.log w ++ [Error (data_type ++ " data is None or empty")]) w).
Proof.
  unfold missing, Loaders._validate_and_upload. intros H.
  destruct df as [d|]; [rewrite H|]; reflexivity.
Qed.

(** C6: handed [None] or an empty table, the local sink and the cloud sink
    both raise [ValueError]; the only effect is the logged error: no
    directory is created, no file written, no object uploaded. *)
Theorem sinks_reject_missing_data
    (E : Runtime.Ext) (self : Loaders.LoadDataS3) (df : option Pandas.DataFrame)
    (filepath s3_key data_type : string) (w : Runtime.World) :
  missing df = true ->
  (exists w',
     Loaders._validate_and_save E df filepath data_type w =
       (Raise (ValueError ("No " ++ data_type ++ " data to save")), w') /\
     same_outputs w w') /\
  (exists w',
     Loaders._validate_and_upload E self df s3_key data_type w =
       (Raise (ValueError ("No " ++ data_type ++ " data to upload")), w') /\
     same_outputs w w').
Proof.
  intros H. split; eexists; split.
  - apply validate_and_save_rejects, H.
  - repeat split.
  - apply validate_and_upload_rejects, H.
  - repeat split.
Qed.

Lemma sinks_reject_missing_data_witness :
  (exists w',
     Loaders._validate_and_save (Samples.ext PNone) (Some Pandas.empty_frame)
       "data/album_data_PL1.csv" "Album" Runtime.initial_world =
       (Raise (ValueError "No Album data to save"), w') /\
     same_outputs Runtime.initial_world w') /\
  (exists w',
     Loaders._validate_and_upload (Samples.ext PNone)
       {| Loaders.s3_album_df := None; Loaders.s3_artist_df := None;
          Loaders.s3_song_df := None; Loaders.s3_client := Some 2;
          Loaders.bucket_name := "bkt" |}
       (Some Pandas.empty_frame) "processed-data/spotify/albums/albums_t.csv" "Album"
       Runtime.initial_world =
       (Raise (ValueError "No Album data to upload"), w') /\
     same_outputs Runtime.initial_world w').
Proof.
  apply (sinks_reject_missing_data (Samples.ext PNone) _ (Some Pandas.empty_frame)).
  reflexivity.
Defined.

(** The public methods of both loaders inherit the rejection. *)
Lemma load_methods_reject_missing_data (E : Runtime.Ext)
    (local : Loaders.LoadDataLocal) (cloud : Loaders.LoadDataS3)
    (filepath prefix : string) (w : Runtime.World) :
  missing (Loaders.album_df local) = true ->
  missing (Loaders.s3_album_df cloud) = true ->
  (exists w', Loaders.load_album_data E local filepath w =
                (Raise (ValueError "No Album data to save"), w') /\ same_outputs w w') /\
  (exists w', Loaders.load_all E local filepath w =
                (Raise (ValueError "No Album data to save"), w') /\ same_outputs w w') /\
  (exists w', Loaders.load_album_data_to_s3 E cloud prefix w =
                (Raise (ValueError "No Album data to upload"), w') /\ same_outputs w w') /\
  (exists w', Loaders.load_all_to_s3 E cloud prefix w =
                (Raise (ValueError "No Album data to upload"), w') /\ same_outputs w w').
Proof.
  intros Hl Hc.
  unfold Loaders.load_all, Loaders.load_all_to_s3, Loaders.load_album_data_to_s3,
    Loaders.load_album_data, Loaders.timestamp_now, Runtime.bind.
  rewrite !validate_and_save_rejects by exact Hl.
  rewrite !validate_and_upload_rejects by exact Hc.
  repeat split; eexists; (split; [reflexivity | repeat split]).
Qed.

(** ** Transformation: the fallback to an empty table *)

Lemma transform_of_attempt (e : entity) (L : Pandas.Lib)
    (self : Transformer.TransformData) :
  fst (transform e L self) =
  match attempt e L self with
  | Ok df => df
  | Raise _ => Pandas.empty_frame
  end.
Proof.
  destruct e; cbn;
    unfold Transformer.transform_album_data, Transformer.transform_artist_data,
      Transformer.transform_song_data;
    match goal with |- context [match ?c with _ => _ end] => destruct c end;
    reflexivity.
Qed.

(** A failure of the table construction is a failure of the [try] block. *)
Lemma attempt_construction_fails (e : entity) (L : Pandas.Lib)
    (self : Transformer.TransformData) (x : exn) :
  Pandas.mk_DataFrame L (raw e self) = Raise x -> attempt e L self = Raise x.
Proof.
  destruct e; cbn;
    unfold Transformer.album_try, Transformer.artist_try, Transformer.song_try;
    intros ->; reflexivity.
Qed.

(** So is a failure of the date conversion: the column is missing, or the
    parser raises. *)
Lemma attempt_conversion_fails (e : entity) (L : Pandas.Lib)
    (self : Transformer.TransformData) (df0 df1 : Pandas.DataFrame)
    (c : string) (x : exn) :
  date_column e = Some c ->
  Pandas.mk_DataFrame L (raw e self) = Ok df0 ->
  Pandas.drop_duplicates df0 ["id"] = Ok df1 ->
  (Pandas.get_column df1 c = Raise x \/
   exists col, Pandas.get_column df1 c = Ok col /\ Pandas.to_datetime L col = Raise x) ->
  attempt e L self = Raise x.
Proof.
  destruct e; cbn; intros [= <-] H0 H1 H;
    unfold Transformer.album_try, Transformer.song_try; rewrite H0; cbn [rbind];
    rewrite H1; cbn [rbind];
    (destruct H as [->|(col & -> & H)]; cbn [rbind]; [|rewrite H]; reflexivity).
Qed.

Lemma attempt_on_empty_list (e : entity) (L : Pandas.Lib)
    (self : Transformer.TransformData) :
  raw e self = PList [] \/ raw e self = PNone ->
  attempt e L self = Ok Pandas.empty_frame \/
  exists x, attempt e L self = Raise x.
Proof.
  destruct e; cbn; unfold Transformer.album_try, Transformer.artist_try,
    Transformer.song_try; intros [-> | ->]; cbn; eauto.
Qed.

(** C7: a transform method never raises.  When the table construction or
    any later step of its [try] block fails, and when the input list is
    empty, it returns the empty table [pd.DataFrame()]. *)
Theorem transform_falls_back_to_empty_table
    (e : entity) (L : Pandas.Lib) (self : Transformer.TransformData) :
  (forall x, Pandas.mk_DataFrame L (raw e self) = Raise x ->
             fst (transform e L self) = Pandas.empty_frame) /\
  (forall x, attempt e L self = Raise x ->
             fst (transform e L self) = Pandas.empty_frame) /\
  (raw e self = PList [] ->
   fst (transform e L self) = Pandas.empty_frame /\
   Pandas.empty (fst (transform e L self)) = true).
Proof.
  rewrite transform_of_attempt. split; [|split].
  - intros x Hx. rewrite (attempt_construction_fails e L self x Hx). reflexivity.
  - intros x ->. reflexivity.
  - intros Hraw.
    destruct (attempt_on_empty_list e L self (or_introl Hraw)) as [-> | [x ->]];
      split; reflexivity.
Qed.

Lemma transform_falls_back_to_empty_table_witness :
  fst (Transformer.transform_album_data Samples.lib
         {| Transformer.album_data := PInt 3; Transformer.artist_data := PNone;
            Transformer.song_data := PNone |}) = Pandas.empty_frame /\
  fst (Transformer.transform_song_data Samples.lib
         {| Transformer.album_data := PNone; Transformer.artist_data := PNone;
            Transformer.song_data := PList [PDict [("id", PStr "t1")]] |})
  = Pandas.empty_frame /\
  Pandas.empty
    (fst (Transformer.transform_artist_data Samples.lib
            {| Transformer.album_data := PNone; Transformer.artist_data := PList [];
               Transformer.song_data := PNone |})) = true.
Proof.
  split; [|split].
  - apply (proj1 (transform_falls_back_to_empty_table Album Samples.lib
                    {| Transformer.album_data := PInt 3; Transformer.artist_data := PNone;
                       Transformer.song_data := PNone |})
             (ValueError "DataFrame constructor not properly called!")).
    reflexivity.
  - apply (proj1 (proj2 (transform_falls_back_to_empty_table Song Samples.lib
                    {| Transformer.album_data := PNone; Transformer.artist_data := PNone;
                       Transformer.song_data := PList [PDict [("id", PStr "t1")]] |}))
             (KeyError "added_at")).
    reflexivity.
  - apply (proj2 (proj2 (transform_falls_back_to_empty_table Artist Samples.lib
                    {| Transformer.album_data := PNone; Transformer.artist_data := PList [];
                       Transformer.song_data := PNone |}))).
    reflexivity.
Defined.

(** ** Transformation of a missing extraction result *)

Lemma transform_of_none (e : entity) (L : Pandas.Lib)
    (self : Transformer.TransformData) :
  raw e self = PNone -> fst (transform e L self) = Pandas.empty_frame.
Proof.
  intros H. rewrite transform_of_attempt.
  destruct (attempt_on_empty_list e L self (or_intror H)) as [-> | [x ->]];
    reflexivity.
Qed.

Lemma logged_run {A} (c : A * list log_entry) (w : Runtime.World) :
  Runtime.logged c w = (Ok (fst c), Runtime.set_log (Runtime.log w ++ snd c) w).
Proof. reflexivity. Qed.

(** C10: a transform method given [None] returns the empty table, without
    raising.  Both sinks then refuse that table with [ValueError], and in
    [main]'s transform-and-write block a missing album list lets the three
    transforms complete and surfaces as that error of the local sink, with
    nothing written. *)
Theorem none_input_surfaces_at_sink
    (e : entity) (E : Runtime.Ext) (self : Transformer.TransformData)
    (cloud : Loaders.LoadDataS3) (w : Runtime.World) :
  raw e self = PNone ->
  let df := fst (transform e (Runtime.pandas E) self) in
  df = Pandas.empty_frame /\
  (forall filepath data_type,
      fst (Loaders._validate_and_save E (Some df) filepath data_type w) =
      Raise (ValueError ("No " ++ data_type ++ " data to save"))) /\
  (forall s3_key data_type,
      fst (Loaders._validate_and_upload E cloud (Some df) s3_key data_type w) =
      Raise (ValueError ("No " ++ data_type ++ " data to upload"))) /\
  (forall cfg playlist_id data_load,
      eq_str data_load "s3" = false ->
      exists w',
        Pipeline.transform_and_load E cfg playlist_id PNone
          (Transformer.artist_data self) (Transformer.song_data self) data_load w =
          (Raise (ValueError "No Album data to save"), w') /\
        In (Info "Data transformation completed.") (Runtime.log w') /\
        same_outputs w w').
Proof.
  intros Hraw df.
  assert (Hdf : df = Pandas.empty_frame) by (apply transform_of_none, Hraw).
  split; [exact Hdf|]. rewrite Hdf. split; [|split].
  - intros. rewrite validate_and_save_rejects; reflexivity.
  - intros. rewrite validate_and_upload_rejects; reflexivity.
  - intros cfg pid dl Hdl.
    unfold Pipeline.transform_and_load, Runtime.bind. rewrite !logged_run, Hdl.
    cbn [fst snd]. unfold Loaders.load_album_data. cbn.
    eexists. split; [reflexivity|]. split; [|repeat split].
    cbn. rewrite !in_app_iff. cbn. tauto.
Qed.

Lemma none_input_surfaces_at_sink_witness :
  fst (Transformer.transform_song_data Samples.lib
         {| Transformer.album_data := PNone; Transformer.artist_data := PNone;
            Transformer.song_data := PNone |}) = Pandas.empty_frame.
Proof.
  apply (none_input_surfaces_at_sink Song (Samples.ext PNone)
           {| Transformer.album_data := PNone; Transformer.artist_data := PNone;
              Transformer.song_data := PNone |}
           {| Loaders.s3_album_df := None; Loaders.s3_artist_df := None;
              Loaders.s3_song_df := None; Loaders.s3_client := Some 2;
              Loaders.bucket_name := "bkt" |}
           Runtime.initial_world eq_refl).
Defined.

(** On the cloud route the same missing album list surfaces as the
    precondition error of the cloud sink once the storage connector is
    available; nothing is uploaded. *)
Lemma none_input_surfaces_at_cloud_sink
    (E : Runtime.Ext) (cfg : option Runtime.Config) (playlist_id bucket : string)
    (artist_data song_data : pyval) (conn : Runtime.Connection) (w : Runtime.World) :
  Runtime.instance_of Runtime.S3 w = Some conn ->
  Runtime.config_get cfg "aws-bucket" "bucket_name" = Ok bucket ->
  exists w',
    Pipeline.transform_and_load E cfg playlist_id PNone artist_data song_data
      (PStr "s3") w = (Raise (ValueError "No Album data to upload"), w') /\
    Runtime.s3_objects w' = Runtime.s3_objects w /\
    Runtime.files w' = Runtime.files w.
Proof.
  intros Hconn Hbucket.
  unfold Pipeline.transform_and_load, Runtime.bind. rewrite !logged_run.
  cbn [fst snd eq_str String.eqb Ascii.eqb Bool.eqb].
  unfold Connectors.get_instance, Runtime.bind. cbn in Hconn |- *.
  rewrite Hconn. cbn. rewrite Hbucket. cbn.
  eexists. split; [reflexivity|]. split; reflexivity.
Qed.

(** ** Connectors *)

Lemma connect_keeps_registry (E : Runtime.Ext) (b b' : Runtime.backend)
    (self : Runtime.Connection) (w : Runtime.World) :
  Runtime.instance_of b (snd (Connectors.connect E b' self w)) = Runtime.instance_of b w.
Proof.
  unfold Connectors.connect, Connectors.connectAPI, Connectors.connect_to_s3,
    Connectors.connect_to_database, Runtime.bind, Runtime.try_except, Runtime.lift,
    Runtime.ret, Runtime.raise, Runtime.logger_info, Runtime.logger_error,
    Runtime.logger.
  destruct b'; cbn; repeat (run_step; cbn); destruct b; reflexivity.
Qed.

Lemma construct_keeps_registry (E : Runtime.Ext) (b b' : Runtime.backend)
    (cfg : option Runtime.Config) (w : Runtime.World) :
  Runtime.instance_of b (snd (Connectors.construct E b' cfg w)) = Runtime.instance_of b w.
Proof.
  unfold Connectors.construct, Connectors.new_object, Runtime.bind. cbn.
  destruct (Runtime.instance_of b' (Runtime.set_next_obj _ w)).
  - destruct b; reflexivity.
  - rewrite connect_keeps_registry. destruct b; reflexivity.
Qed.

Lemma set_instance_other (b b' : Runtime.backend) (i : option Runtime.Connection)
    (w : Runtime.World) :
  b <> b' ->
  Runtime.instance_of b (Runtime.set_instance b' i w) = Runtime.instance_of b w.
Proof. destruct b, b'; intros H; try reflexivity; congruence. Qed.

Lemma get_instance_registered (E : Runtime.Ext) (b : Runtime.backend)
    (cfg : option Runtime.Config) (w : Runtime.World) (inst : Runtime.Connection) :
  Runtime.instance_of b w = Some inst ->
  Connectors.get_instance E b cfg w = (Ok inst, w).
Proof.
  intros H. unfold Connectors.get_instance, Runtime.bind. rewrite H. reflexivity.
Qed.

Lemma construct_registered (E : Runtime.Ext) (b : Runtime.backend)
    (cfg : option Runtime.Config) (w : Runtime.World) (inst : Runtime.Connection) :
  Runtime.instance_of b w = Some inst ->
  Connectors.construct E b cfg w =
    (Raise constructor_refusal, Runtime.set_next_obj (S (Runtime.next_obj w)) w).
Proof.
  intros H. unfold Connectors.construct, Connectors.new_object, Runtime.bind.
  replace (Runtime.instance_of b (Runtime.set_next_obj (S (Runtime.next_obj w)) w))
    with (Some inst) by (rewrite <- H; destruct b; reflexivity).
  reflexivity.
Qed.

(** A successful [get_instance] leaves its result in [cls._instance]. *)
Lemma get_instance_registers (E : Runtime.Ext) (b : Runtime.backend)
    (cfg : option Runtime.Config) (w w' : Runtime.World) (inst : Runtime.Connection) :
  Connectors.get_instance E b cfg w = (Ok inst, w') ->
  Runtime.instance_of b w' = Some inst.
Proof.
  unfold Connectors.get_instance, Runtime.bind.
  destruct (Runtime.instance_of b w) as [i|] eqn:Hi; cbn -[Connectors.construct].
  - intros [= <- <-]. exact Hi.
  - destruct (Connectors.construct E b cfg w) as [[c|e] w1]; cbn; [|discriminate].
    intros [= <- <-]. destruct b; reflexivity.
Qed.

(** No call on any connector class replaces a registered instance. *)
Lemma run_call_keeps_registered (E : Runtime.Ext) (b : Runtime.backend) (c : call)
    (w : Runtime.World) (inst : Runtime.Connection) :
  Runtime.instance_of b w = Some inst ->
  Runtime.instance_of b (run_call E c w) = Some inst.
Proof.
  intros H.
  destruct c as [b' cfg | b' cfg]; cbn -[Connectors.construct Connectors.get_instance].
  - unfold Connectors.get_instance, Runtime.bind.
    destruct (Runtime.instance_of b' w) as [i|] eqn:Hi;
      cbn -[Connectors.construct]; [exact H|].
    pose proof (construct_keeps_registry E b b' cfg w) as Hk.
    destruct (Connectors.construct E b' cfg w) as [[c|e] w1]; cbn in *.
    + rewrite set_instance_other; [congruence|].
      intros ->. congruence.
    + congruence.
  - rewrite construct_keeps_registry. exact H.
Qed.

Lemma run_calls_keep_registered (E : Runtime.Ext) (b : Runtime.backend)
    (cs : list call) (w : Runtime.World) (inst : Runtime.Connection) :
  Runtime.instance_of b w = Some inst ->
  Runtime.instance_of b (run_calls E cs w) = Some inst.
Proof.
  revert w. induction cs as [|c cs IH]; intros w H; cbn; [exact H|].
  apply IH, run_call_keeps_registered, H.
Qed.

(** X29: once [get_instance] has returned an instance of a connector
    class, then after any further calls on the connector classes every
    [get_instance] of that class returns this same instance and leaves the
    state alone, and every direct constructor call of that class raises. *)
Theorem registered_instance_is_unique
    (E : Runtime.Ext) (b : Runtime.backend) (cfg cfg' : option Runtime.Config)
    (w w1 : Runtime.World) (inst : Runtime.Connection) (later : list call) :
  Connectors.get_instance E b cfg w = (Ok inst, w1) ->
  let w2 := run_calls E later w1 in
  Connectors.get_instance E b cfg' w2 = (Ok inst, w2) /\
  fst (Connectors.construct E b cfg' w2) = Raise constructor_refusal.
Proof.
  intros Hget w2.
  assert (Hreg : Runtime.instance_of b w2 = Some inst)
    by (apply run_calls_keep_registered, (get_instance_registers E b cfg w w1), Hget).
  split.
  - apply get_instance_registered, Hreg.
  - rewrite (construct_registered E b cfg' w2 inst Hreg). reflexivity.
Qed.

Lemma registered_instance_is_unique_witness :
  let E := Samples.ext PNone in
  let cfg := Some Samples.config_ini in
  exists inst w1,
    Connectors.get_instance E Runtime.S3 cfg Runtime.initial_world = (Ok inst, w1) /\
    let w2 := run_calls E [Construct Runtime.S3 cfg; GetInstance Runtime.Spotify cfg;
                           GetInstance Runtime.S3 None] w1 in
    Connectors.get_instance E Runtime.S3 None w2 = (Ok inst, w2) /\
    fst (Connectors.construct E Runtime.S3 None w2) = Raise constructor_refusal.
Proof.
  intros E cfg. eexists _, _. split; [reflexivity|].
  apply (registered_instance_is_unique E Runtime.S3 cfg None Runtime.initial_world).
  reflexivity.
Defined.

(** Before the first [get_instance], the constructor of each connector
    class can be called directly any number of times: each call returns a
    new connected object, none is registered and nothing is raised; the
    [get_instance] that follows then makes one more. *)
Example direct_construction_three_objects :
  let E := Samples.ext PNone in
  let cfg := Some Samples.config_ini in
  exists a w1 b w2 c w3,
    Connectors.construct E Runtime.S3 cfg Runtime.initial_world = (Ok a, w1) /\
    Connectors.construct E Runtime.S3 cfg w1 = (Ok b, w2) /\
    Connectors.get_instance E Runtime.S3 cfg w2 = (Ok c, w3) /\
    Runtime.instance_of Runtime.S3 w2 = None /\
    Runtime.client a = Some 2 /\ Runtime.client b = Some 2 /\ Runtime.client c = Some 2 /\
    Runtime.obj_id a = 0 /\ Runtime.obj_id b = 1 /\ Runtime.obj_id c = 2 /\
    a <> b /\ a <> c /\ b <> c.
Proof.
  intros E cfg. do 6 eexists.
  repeat (split; [reflexivity|]).
  repeat split; discriminate.
Qed.

(** ** Tables: columns, keys, duplicates *)

Lemma pyval_eqb_eq : forall a b : pyval, pyval_eqb a b = true <-> a = b.
Proof.
  fix IH 1. intros a b. destruct a as [| x | x | x | x | x], b as [| y | y | y | y | y];
    cbn; try (split; [discriminate | discriminate]); try (split; reflexivity).
  - rewrite Bool.eqb_true_iff. split; congruence.
  - rewrite Z.eqb_eq. split; congruence.
  - rewrite String.eqb_eq. split; congruence.
  - enough (H : forall y,
               (fix go (x y : list pyval) : bool :=
                  match x, y with
                  | [], [] => true
                  | u :: x', v :: y' => pyval_eqb u v && go x' y'
                  | _, _ => false
                  end) x y = true <-> x = y).
    { rewrite H. split; congruence. }
    induction x as [|u x IHx]; intros [|v y']; try (split; [discriminate | discriminate]);
      try (split; reflexivity).
    rewrite andb_true_iff, IH, IHx. split; [intros [-> ->]; reflexivity|].
    intros [= -> ->]. split; reflexivity.
  - enough (H : forall y,
               (fix go (x y : list (string * pyval)) : bool :=
                  match x, y with
                  | [], [] => true
                  | (k, u) :: x', (k', v) :: y' =>
                      String.eqb k k' && pyval_eqb u v && go x' y'
                  | _, _ => false
                  end) x y = true <-> x = y).
    { rewrite H. split; congruence. }
    induction x as [|[k u] x IHx]; intros [|[k' v] y'];
      try (split; [discriminate | discriminate]); try (split; reflexivity).
    rewrite !andb_true_iff, String.eqb_eq, IH, IHx.
    split; [intros [[-> ->] ->]; reflexivity|].
    intros [= -> -> ->]. repeat split; reflexivity.
Qed.

Lemma key_eqb_eq (a b : Pandas.key) : Pandas.key_eqb a b = true <-> a = b.
Proof.
  destruct a, b; cbn; try (split; [discriminate | discriminate]);
    try (split; reflexivity).
  - rewrite Z.eqb_eq. split; congruence.
  - rewrite Z.eqb_eq. split; congruence.
  - rewrite String.eqb_eq. split; congruence.
  - rewrite Z.eqb_eq. split; congruence.
  - rewrite pyval_eqb_eq. split; congruence.
Qed.

(** Looking for duplicates never fails on a cell. *)
Lemma key_of_cell_total (c : Pandas.cell) : exists k, Pandas.key_of_cell c = Ok k.
Proof. destruct c as [[]| | | |]; cbn; eexists; reflexivity. Qed.

Lemma keys_eqb_eq (a b : list Pandas.key) : Pandas.keys_eqb a b = true <-> a = b.
Proof.
  revert b. induction a as [|x a IH]; destruct b as [|y b]; cbn;
    split; intros H; try discriminate; try reflexivity.
  - apply andb_true_iff in H as [Hx Ha].
    apply key_eqb_eq in Hx. apply IH in Ha. now subst.
  - injection H as -> ->. apply andb_true_iff. split.
    + now apply key_eqb_eq.
    + now apply IH.
Qed.

Lemma mem_keys_cons_false (k k0 : list Pandas.key) (seen : list (list Pandas.key)) :
  Pandas.mem_keys k (k0 :: seen) = false -> k <> k0 /\ Pandas.mem_keys k seen = false.
Proof.
  cbn. intros H. apply orb_false_iff in H as [H1 H2]. split; [|exact H2].
  intros ->. rewrite (proj2 (keys_eqb_eq k0 k0) eq_refl) in H1. discriminate.
Qed.

Lemma col_index_inj (c1 c2 : string) (cols : list string) (i : nat) :
  Pandas.col_index c1 cols = Some i -> Pandas.col_index c2 cols = Some i -> c1 = c2.
Proof.
  revert i. induction cols as [|x cols IH]; intros i; cbn; [discriminate|].
  destruct (String.eqb c1 x) eqn:E1, (String.eqb c2 x) eqn:E2.
  - apply String.eqb_eq in E1, E2. congruence.
  - intros [= <-]. destruct (Pandas.col_index c2 cols); discriminate.
  - destruct (Pandas.col_index c1 cols); [intros [= <-]|]; discriminate.
  - destruct (Pandas.col_index c1 cols) as [n1|]; [|discriminate].
    destruct (Pandas.col_index c2 cols) as [n2|]; [|discriminate].
    intros [= <-] [= ->]. now apply (IH n1).
Qed.

Lemma cell_at_set_nth_other (i j : nat) (v : Pandas.cell) (r : list Pandas.cell) :
  i <> j -> Pandas.cell_at i (Pandas.set_nth j v r) = Pandas.cell_at i r.
Proof.
  unfold Pandas.cell_at. revert i j.
  induction r as [|x r IH]; intros i j H; destruct j, i; cbn; try reflexivity.
  - congruence.
  - apply IH. congruence.
Qed.



Lemma keep_first_kept_positions (seen : list (list Pandas.key))
    (krs : list (list Pandas.key * list Pandas.cell)) :
  Pandas.keep_first seen krs =
  map (fun n => nth n (map snd krs) []) (kept_positions seen krs).
Proof.
  revert seen. induction krs as [|[k r] krs IH]; intros seen; cbn; [reflexivity|].
  destruct (Pandas.mem_keys k seen); cbn; rewrite IH, map_map; reflexivity.
Qed.

Lemma StronglySorted_map_S (l : list nat) :
  StronglySorted lt l -> StronglySorted lt (map S l).
Proof.
  induction 1 as [|n l Hs IH Hall]; cbn; constructor; [exact IH|].
  apply Forall_map. eapply Forall_impl; [|exact Hall]. cbn. intros m Hm. lia.
Qed.

(** The kept positions come in increasing order. *)
Lemma kept_positions_sorted (seen : list (list Pandas.key))
    (krs : list (list Pandas.key * list Pandas.cell)) :
  StronglySorted lt (kept_positions seen krs).
Proof.
  revert seen. induction krs as [|[k r] krs IH]; intros seen; cbn; [constructor|].
  destruct (Pandas.mem_keys k seen); [apply StronglySorted_map_S, IH|].
  constructor; [apply StronglySorted_map_S, IH|].
  apply Forall_map, Forall_forall. intros m _. lia.
Qed.

(** A position is kept exactly when its key was not seen before the rows
    and no earlier row has it. *)
Lemma kept_positions_spec (seen : list (list Pandas.key))
    (krs : list (list Pandas.key * list Pandas.cell)) (n : nat) :
  In n (kept_positions seen krs) <->
  n < List.length krs /\
  Pandas.mem_keys (nth n (map fst krs) []) seen = false /\
  forall m, m < n -> nth m (map fst krs) [] <> nth n (map fst krs) [].
Proof.
  revert seen n. induction krs as [|[k r] krs IH]; intros seen n.
  - cbn. split; [contradiction | intros [H _]; lia].
  - cbn [kept_positions List.length map fst].
    destruct (Pandas.mem_keys k seen) eqn:Hmem.
    + rewrite in_map_iff. split.
      * intros (n' & <- & Hin). apply IH in Hin as (Hlt & Hnm & Hb).
        cbn [nth]. split; [lia|]. split; [exact Hnm|].
        intros [|m] Hm; cbn [nth]; [intros Heq; congruence | apply Hb; lia].
      * intros (Hlt & Hnm & Hb). destruct n as [|n']; cbn [nth] in *; [congruence|].
        exists n'. split; [reflexivity|]. apply IH.
        split; [lia|]. split; [exact Hnm|].
        intros m Hm. apply (Hb (S m)). lia.
    + cbn [In]. rewrite in_map_iff. split.
      * intros [<- | (n' & <- & Hin)].
        -- cbn [nth]. split; [lia|]. split; [exact Hmem|]. intros m Hm; lia.
        -- apply IH in Hin as (Hlt & Hnm & Hb).
           apply mem_keys_cons_false in Hnm as [Hne Hnm].
           cbn [nth]. split; [lia|]. split; [exact Hnm|].
           intros [|m] Hm; cbn [nth]; [congruence | apply Hb; lia].
      * intros (Hlt & Hnm & Hb). destruct n as [|n']; [now left|]. right.
        exists n'. split; [reflexivity|]. apply IH. cbn [nth] in *.
        split; [lia|]. split.
        -- cbn [Pandas.mem_keys]. apply orb_false_iff. split; [|exact Hnm].
           destruct (Pandas.keys_eqb (nth n' (map fst krs) []) k) eqn:E; [|reflexivity].
           apply keys_eqb_eq in E. specialize (Hb 0 (Nat.lt_0_succ n')).
           cbn [nth] in Hb. congruence.
        -- intros m Hm. apply (Hb (S m)). lia.
Qed.

Lemma keyed_spec (idx : list nat) (rs : list (list Pandas.cell))
    (krs : list (list Pandas.key * list Pandas.cell)) :
  Pandas.keyed idx rs = Ok krs ->
  map snd krs = rs /\
  forall k r, In (k, r) krs -> Pandas.row_key idx r = Ok k.
Proof.
  revert krs. induction rs as [|r0 rs IH]; intros krs; cbn.
  - intros [= <-]. split; [reflexivity | contradiction].
  - destruct (Pandas.row_key idx r0) as [k0|e] eqn:Hk0; cbn; [|discriminate].
    destruct (Pandas.keyed idx rs) as [krs'|e]; cbn; [|discriminate].
    intros [= <-]. destruct (IH krs' eq_refl) as [Hsnd Hkeys].
    split; [cbn; now rewrite Hsnd|].
    intros k r [[= <- <-] | Hin]; [exact Hk0 | now apply Hkeys].
Qed.

Lemma row_key_single (i : nat) (r : list Pandas.cell) (k : list Pandas.key) :
  Pandas.row_key [i] r = Ok k ->
  exists k0, Pandas.key_of_cell (Pandas.cell_at i r) = Ok k0 /\ k = [k0].
Proof.
  cbn. destruct (Pandas.key_of_cell (Pandas.cell_at i r)) as [k0|e]; cbn; [|discriminate].
  intros [= <-]. now exists k0.
Qed.

(** What a successful [drop_duplicates(subset=['id'])] returns. *)
Lemma drop_duplicates_spec (df0 df1 : Pandas.DataFrame) :
  Pandas.drop_duplicates df0 ["id"] = Ok df1 ->
  Pandas.columns df1 = Pandas.columns df0 /\
  ((Pandas.empty df0 = true /\ df1 = df0) \/
   (Pandas.empty df0 = false /\
    exists i krs,
      Pandas.col_index "id" (Pandas.columns df0) = Some i /\
      Pandas.keyed [i] (Pandas.rows df0) = Ok krs /\
      Pandas.rows df1 = Pandas.keep_first [] krs)).
Proof.
  unfold Pandas.drop_duplicates.
  destruct (Pandas.empty df0) eqn:Hempty.
  - intros [= <-]. split; [reflexivity|]. now left.
  - cbn. destruct (Pandas.col_index "id" (Pandas.columns df0)) as [i|] eqn:Hi;
      cbn; [|discriminate].
    destruct (Pandas.keyed [i] (Pandas.rows df0)) as [krs|e] eqn:Hk; cbn; [|discriminate].
    intros [= <-]. cbn. split; [reflexivity|]. right. split; [reflexivity|].
    now exists i, krs.
Qed.

Lemma zip_with_length {A B C} (f : A -> B -> C) (xs : list A) (ys : list B) :
  List.length xs = List.length ys ->
  List.length (Pandas.zip_with f xs ys) = List.length xs.
Proof.
  revert ys. induction xs as [|x xs IH]; destruct ys as [|y ys]; cbn;
    intros H; try reflexivity; try discriminate.
  f_equal. apply IH. now injection H.
Qed.


(** What a successful assignment to an existing column returns. *)
Lemma set_column_spec (df df' : Pandas.DataFrame) (c : string) (j : nat)
    (values : list Pandas.cell) :
  Pandas.col_index c (Pandas.columns df) = Some j ->
  Pandas.set_column df c values = Ok df' ->
  List.length (Pandas.rows df) = List.length values /\
  Pandas.columns df' = Pandas.columns df /\
  Pandas.rows df' =
    Pandas.zip_with (fun r v => Pandas.set_nth j v r) (Pandas.rows df) values.
Proof.
  unfold Pandas.set_column. intros Hj.
  destruct (Nat.eqb (List.length values) (List.length (Pandas.rows df))) eqn:Hlen;
    cbn; [|discriminate].
  rewrite Hj. intros [= <-]. cbn. apply Nat.eqb_eq in Hlen. auto.
Qed.

Lemma get_column_index (df : Pandas.DataFrame) (c : string) (col : list Pandas.cell) :
  Pandas.get_column df c = Ok col ->
  exists j, Pandas.col_index c (Pandas.columns df) = Some j /\
            col = map (Pandas.cell_at j) (Pandas.rows df).
Proof.
  unfold Pandas.get_column.
  destruct (Pandas.col_index c (Pandas.columns df)) as [j|]; [|discriminate].
  intros [= <-]. now exists j.
Qed.

(** The steps a successful [try] block went through. *)
Lemma attempt_ok_inv (e : entity) (L : Pandas.Lib) (self : Transformer.TransformData)
    (out : Pandas.DataFrame) :
  attempt e L self = Ok out ->
  exists df0 df1,
    Pandas.mk_DataFrame L (raw e self) = Ok df0 /\
    Pandas.drop_duplicates df0 ["id"] = Ok df1 /\
    match date_column e with
    | None => out = df1
    | Some c =>
        exists col conv,
          Pandas.get_column df1 c = Ok col /\
          Pandas.to_datetime L col = Ok conv /\
          Pandas.set_column df1 c conv = Ok out
    end.
Proof.
  destruct e; cbn;
    unfold Transformer.album_try, Transformer.artist_try, Transformer.song_try;
    destruct (Pandas.mk_DataFrame L _) as [df0|x] eqn:H0; cbn [rbind];
    try discriminate;
    destruct (Pandas.drop_duplicates df0 ["id"]) as [df1|x] eqn:H1; cbn [rbind];
    try discriminate.
  - destruct (Pandas.get_column df1 "release_date") as [col|x] eqn:H2; cbn [rbind];
      [|discriminate].
    destruct (Pandas.to_datetime L col) as [conv|x] eqn:H3; cbn [rbind]; [|discriminate].
    destruct (Pandas.set_column df1 "release_date" conv) as [df2|x] eqn:H4;
      cbn [rbind]; [|discriminate].
    intros [= <-]. exists df0, df1. split; [reflexivity|]. split; [exact H1|].
    now exists col, conv.
  - intros [= <-]. exists df0, df1. split; [reflexivity|]. split; [exact H1|reflexivity].
  - destruct (Pandas.get_column df1 "added_at") as [col|x] eqn:H2; cbn [rbind];
      [|discriminate].
    destruct (Pandas.to_datetime L col) as [conv|x] eqn:H3; cbn [rbind]; [|discriminate].
    destruct (Pandas.set_column df1 "added_at" conv) as [df2|x] eqn:H4;
      cbn [rbind]; [|discriminate].
    intros [= <-]. exists df0, df1. split; [reflexivity|]. split; [exact H1|].
    now exists col, conv.
Qed.


Lemma keyed_nth (idx : list nat) (rs : list (list Pandas.cell))
    (krs : list (list Pandas.key * list Pandas.cell)) (m : nat) (r : list Pandas.cell) :
  Pandas.keyed idx rs = Ok krs ->
  nth_error rs m = Some r ->
  exists k, nth_error krs m = Some (k, r) /\ Pandas.row_key idx r = Ok k.
Proof.
  revert krs m. induction rs as [|r0 rs IH]; intros krs m; cbn.
  - destruct m; discriminate.
  - destruct (Pandas.row_key idx r0) as [k0|x] eqn:Hk0; cbn; [|discriminate].
    destruct (Pandas.keyed idx rs) as [krs'|x]; cbn; [|discriminate].
    intros [= <-]. destruct m as [|m]; cbn.
    + intros [= <-]. now exists k0.
    + now apply IH.
Qed.

(** The key [keyed] pairs row [n] with is the key of its identifier. *)
Lemma keyed_key (i : nat) (rs : list (list Pandas.cell))
    (krs : list (list Pandas.key * list Pandas.cell)) (n : nat) :
  Pandas.keyed [i] rs = Ok krs ->
  n < List.length rs ->
  exists k0, nth n (map fst krs) [] = [k0] /\ row_id i (nth n rs []) = Ok k0.
Proof.
  intros Hk Hn.
  destruct (nth_error rs n) as [r|] eqn:Hr; [|apply nth_error_None in Hr; lia].
  destruct (keyed_nth _ _ _ _ _ Hk Hr) as (k & Hkn & Hrk).
  apply row_key_single in Hrk as (k0 & Hk0 & ->).
  exists k0. split.
  - apply nth_error_nth. rewrite nth_error_map, Hkn. reflexivity.
  - unfold row_id. rewrite (nth_error_nth _ _ [] Hr). exact Hk0.
Qed.

(** [keep_first] returns the rows that are the first with their
    identifier, all of them, in their order. *)
Lemma keep_first_first_occurrences (i : nat) (rs : list (list Pandas.cell))
    (krs : list (list Pandas.key * list Pandas.cell)) :
  Pandas.keyed [i] rs = Ok krs ->
  StronglySorted lt (kept_positions [] krs) /\
  (forall n, In n (kept_positions [] krs) <-> first_occurrence i rs n) /\
  Pandas.keep_first [] krs = map (fun n => nth n rs []) (kept_positions [] krs).
Proof.
  intros Hk. destruct (keyed_spec _ _ _ Hk) as [Hsnd _].
  assert (Hlen : List.length krs = List.length rs).
  { rewrite <- Hsnd. symmetry. apply length_map. }
  split; [apply kept_positions_sorted|]. split.
  - intros n. rewrite kept_positions_spec. unfold first_occurrence. rewrite Hlen.
    split.
    + intros (Hn & _ & Hb). split; [exact Hn|]. intros m Hm Heq.
      destruct (keyed_key i rs krs n Hk Hn) as (kn & Hkn & Hrn).
      destruct (keyed_key i rs krs m Hk (Nat.lt_trans _ _ _ Hm Hn)) as (km & Hkm & Hrm).
      apply (Hb m Hm). rewrite Hkn, Hkm. congruence.
    + intros (Hn & Hb). split; [exact Hn|]. split; [reflexivity|]. intros m Hm Heq.
      destruct (keyed_key i rs krs n Hk Hn) as (kn & Hkn & Hrn).
      destruct (keyed_key i rs krs m Hk (Nat.lt_trans _ _ _ Hm Hn)) as (km & Hkm & Hrm).
      apply (Hb m Hm). rewrite Hrn, Hrm. congruence.
  - rewrite keep_first_kept_positions, Hsnd. reflexivity.
Qed.

(** What [drop_duplicates(subset=['id'])] returns on a table with an
    identifier column: the rows that are the first with their identifier,
    all of them, in their order. *)
Lemma drop_duplicates_first_occurrences (df0 df1 : Pandas.DataFrame) (i : nat) :
  Pandas.drop_duplicates df0 ["id"] = Ok df1 ->
  Pandas.col_index "id" (Pandas.columns df0) = Some i ->
  exists ns,
    StronglySorted lt ns /\
    (forall n, In n ns <-> first_occurrence i (Pandas.rows df0) n) /\
    Pandas.rows df1 = map (fun n => nth n (Pandas.rows df0) []) ns.
Proof.
  intros Hdd Hi.
  destruct (drop_duplicates_spec _ _ Hdd)
    as [_ [[Hempty ->] | (_ & i0 & krs & Hi0 & Hkeyed & Hrows)]].
  - unfold Pandas.empty in Hempty. apply orb_true_iff in Hempty as [Hc | Hr].
    + destruct (Pandas.columns df0); [discriminate Hi | discriminate Hc].
    + destruct (Pandas.rows df0) as [|r rs]; [|discriminate Hr].
      exists []. split; [constructor|]. split; [|reflexivity].
      intros n. split; [contradiction | intros [Hn _]; cbn in Hn; lia].
  - assert (i0 = i) by congruence. subst i0.
    destruct (keep_first_first_occurrences i _ krs Hkeyed) as (Hs & Hns & Hkeep).
    exists (kept_positions [] krs). split; [exact Hs|]. split; [exact Hns|].
    now rewrite Hrows.
Qed.


(** Positions in increasing order that are exactly those below [N] are
    [N] positions. *)
Lemma sorted_positions_length (ns : list nat) (N : nat) :
  StronglySorted lt ns ->
  (forall n, In n ns <-> n < N) ->
  List.length ns = N.
Proof.
  intros Hs Hns.
  assert (Hnd : NoDup ns).
  { clear Hns. induction Hs as [|n ns Hs IH Hall]; constructor; [|exact IH].
    intros Hin. rewrite Forall_forall in Hall. specialize (Hall n Hin). lia. }
  transitivity (List.length (seq 0 N)); [|apply length_seq]. apply Nat.le_antisymm.
  - apply NoDup_incl_length; [exact Hnd|]. intros n Hn. apply in_seq.
    apply Hns in Hn. lia.
  - apply NoDup_incl_length; [apply seq_NoDup|]. intros n Hn. apply in_seq in Hn.
    apply Hns. lia.
Qed.

Lemma Forall2_same {A} (l : list A) : Forall2 eq l l.
Proof. induction l; constructor; auto. Qed.

Lemma Forall2_zip_with {A B C} (f : A -> C -> A) (P Q : A -> B -> Prop)
    (xs : list A) (ys : list B) (vs : list C) :
  List.length xs = List.length vs ->
  (forall x y v, P x y -> Q (f x v) y) ->
  Forall2 P xs ys -> Forall2 Q (Pandas.zip_with f xs vs) ys.
Proof.
  intros Hlen HPQ HF. revert vs Hlen.
  induction HF as [|x y xs ys Hxy HF IH]; intros [|v vs]; cbn; intros Hlen;
    try discriminate; constructor.
  - now apply HPQ.
  - apply IH. now injection Hlen.
Qed.

Lemma as_dicts_map (ds : list (list (string * pyval))) :
  Pandas.as_dicts (map PDict ds) = Some ds.
Proof.
  induction ds as [|d ds IH]; cbn; [reflexivity|]. now rewrite IH.
Qed.

Lemma mk_DataFrame_records (L : Pandas.Lib) (ds : list (list (string * pyval))) :
  Pandas.mk_DataFrame L (PList (map PDict ds)) = Ok (Pandas.from_records L ds).
Proof. cbn. now rewrite as_dicts_map. Qed.

(** The table built from a list of records has one row per record, each
    with one cell per column. *)
Lemma from_records_rows_length (L : Pandas.Lib) (ds : list (list (string * pyval))) :
  List.length (Pandas.rows (Pandas.from_records L ds)) = List.length ds.
Proof. cbn. now rewrite length_map, length_seq. Qed.





Lemma set_nth_length (j : nat) (v : Pandas.cell) (r : list Pandas.cell) :
  List.length (Pandas.set_nth j v r) = List.length r.
Proof.
  revert j. induction r as [|x r IH]; intros [|j]; cbn; try reflexivity.
  now rewrite IH.
Qed.





(** The table the sample with conflicting albums gives: one row per
    identifier, with the fields of its first record and the converted
    date. *)
Example conflicting_albums_table :
  fst (Transformer.transform_album_data Samples.lib
         {| Transformer.album_data := PList (map PDict Samples.conflicting_albums);
            Transformer.artist_data := PNone; Transformer.song_data := PNone |})
  = {| Pandas.columns := ["id"; "name"; "release_date"; "total_tracks"; "url"];
       Pandas.rows :=
         [[Pandas.CVal (PStr "X"); Pandas.CVal (PStr "First"); Pandas.CTime 20200102;
           Pandas.CVal (PInt 10); Pandas.CVal (PStr "album/X")];
          [Pandas.CVal (PStr "Y"); Pandas.CVal (PStr "Second"); Pandas.CNaT;
           Pandas.CVal (PInt 8); Pandas.CVal (PStr "album/Y")]] |}.
Proof. reflexivity. Qed.

Lemma subseq_refl {A} (l : list A) : subseq l l.
Proof. induction l; constructor; assumption. Qed.

Lemma keep_first_subseq (seen : list (list Pandas.key))
    (krs : list (list Pandas.key * list Pandas.cell)) :
  subseq (Pandas.keep_first seen krs) (map snd krs).
Proof.
  revert seen. induction krs as [|[k r] krs IH]; intros seen; cbn; [constructor|].
  destruct (Pandas.mem_keys k seen); constructor; apply IH.
Qed.

(** Deduplication keeps the surviving rows in their original order. *)
Lemma drop_duplicates_keeps_order (df0 df1 : Pandas.DataFrame) :
  Pandas.drop_duplicates df0 ["id"] = Ok df1 ->
  subseq (Pandas.rows df1) (Pandas.rows df0).
Proof.
  intros Hdd.
  destruct (drop_duplicates_spec df0 df1 Hdd)
    as [_ [[_ ->] | (_ & i & krs & _ & Hkeyed & ->)]].
  - apply subseq_refl.
  - destruct (keyed_spec _ _ _ Hkeyed) as [<- _]. apply keep_first_subseq.
Qed.

(** ** Column names of the extracted records and of the written files *)

Lemma for_each_Forall (P : pyval -> Prop) (body : pyval -> result (list pyval))
    (xs acc out : list pyval) :
  (forall x rs, body x = Ok rs -> Forall P rs) ->
  Forall P acc ->
  Extractor.for_each body xs acc = Ok out ->
  Forall P out.
Proof.
  intros Hbody. revert acc. induction xs as [|x xs IH]; intros acc Hacc; cbn.
  - now intros [= <-].
  - destruct (body x) as [rs|e] eqn:Hx; [|discriminate].
    apply IH. apply Forall_app. split; [exact Hacc | eapply Hbody, Hx].
Qed.

Ltac step_lookups :=
  repeat match goal with
         | |- context [rbind ?c _] => destruct c; cbn [rbind]; [|discriminate]
         end.

Lemma album_body_records (x : pyval) (rs : list pyval) :
  Extractor.album_body x = Ok rs -> Forall (is_record Album) rs.
Proof.
  unfold Extractor.album_body.
  destruct (getitem x "track") as [t|e]; cbn [rbind]; [|discriminate].
  destruct (is_none t); [now intros [= <-]|].
  step_lookups. intros [= <-]. repeat constructor. eexists. split; reflexivity.
Qed.

Lemma artist_inner_records (x : pyval) (rs : list pyval) :
  Extractor.artist_inner x = Ok rs -> Forall (is_record Artist) rs.
Proof.
  unfold Extractor.artist_inner. step_lookups.
  intros [= <-]. repeat constructor. eexists. split; reflexivity.
Qed.

Lemma artist_body_records (x : pyval) (rs : list pyval) :
  Extractor.artist_body x = Ok rs -> Forall (is_record Artist) rs.
Proof.
  unfold Extractor.artist_body.
  destruct (getitem x "track") as [t|e]; cbn [rbind]; [|discriminate].
  destruct (is_none t); [now intros [= <-]|].
  destruct (path x ["track"; "artists"]) as [a|e]; cbn [rbind]; [|discriminate].
  destruct (iterate a) as [arts|e]; cbn [rbind]; [|discriminate].
  apply for_each_Forall; [exact artist_inner_records | constructor].
Qed.

Lemma song_body_records (x : pyval) (rs : list pyval) :
  Extractor.song_body x = Ok rs -> Forall (is_record Song) rs.
Proof.
  unfold Extractor.song_body.
  destruct (getitem x "track") as [t|e]; cbn [rbind]; [|discriminate].
  destruct (is_none t); [now intros [= <-]|].
  step_lookups. intros [= <-]. repeat constructor. eexists. split; reflexivity.
Qed.

(** An extraction method returns [None] or a list of dicts that all have
    the keys of its record kind, in the same order. *)
Lemma extracted_records (e : entity) (de : Extractor.DataExtract) (pd : pyval) :
  extracted e de pd = PNone \/
  exists recs, extracted e de pd = PList recs /\ Forall (is_record e) recs.
Proof.
  destruct e; cbn;
    unfold Extractor.extract_album_data, Extractor.extract_artist_data,
      Extractor.extract_song_data, Extractor.album_try, Extractor.artist_try,
      Extractor.song_try;
    destruct (Extractor.playlist_items de) as [its|x]; cbn [rbind]; auto.
  - destruct (Extractor.for_each Extractor.album_body its []) as [out|x] eqn:H; auto.
    right. exists out. split; [reflexivity|].
    eapply for_each_Forall; [exact album_body_records | constructor | exact H].
  - destruct (Extractor.for_each Extractor.artist_body its []) as [out|x] eqn:H; auto.
    right. exists out. split; [reflexivity|].
    eapply for_each_Forall; [exact artist_body_records | constructor | exact H].
  - destruct (Extractor.for_each Extractor.song_body its []) as [out|x] eqn:H; auto.
    right. exists out. split; [reflexivity|].
    eapply for_each_Forall; [exact song_body_records | constructor | exact H].
Qed.

Lemma mem_str_In (s : string) (l : list string) :
  Pandas.mem_str s l = true <-> In s l.
Proof.
  induction l as [|x l IH]; cbn.
  - split; [discriminate | contradiction].
  - rewrite orb_true_iff, String.eqb_eq, IH. split; intros [H|H]; auto.
Qed.

Lemma uniq_covered (seen l : list string) :
  (forall x, In x l -> In x seen) -> Pandas.uniq seen l = [].
Proof.
  induction l as [|y l IH]; intros H; cbn; [reflexivity|].
  rewrite (proj2 (mem_str_In y seen)) by (apply H; now left).
  apply IH. intros x Hx. apply H. now right.
Qed.

(** Names that already occurred add no column. *)
Lemma uniq_app_covered (seen l1 l2 : list string) :
  (forall x, In x l2 -> In x l1 \/ In x seen) ->
  Pandas.uniq seen (l1 ++ l2) = Pandas.uniq seen l1.
Proof.
  revert seen. induction l1 as [|y l1 IH]; intros seen H; cbn.
  - apply uniq_covered. intros x Hx. destruct (H x Hx) as [[]|]; assumption.
  - destruct (Pandas.mem_str y seen) eqn:Hy.
    + apply IH. intros x Hx. destruct (H x Hx) as [[<-|]|]; auto.
      right. now apply mem_str_In.
    + f_equal. apply IH. intros x Hx. destruct (H x Hx) as [[<-|]|]; cbn; auto.
Qed.

(** Records with the same keys make a table with exactly those columns. *)
Lemma from_records_columns (L : Pandas.Lib) (K : list string)
    (ds : list (list (string * pyval))) :
  ds <> [] ->
  Forall (fun d => map fst d = K) ds ->
  Pandas.columns (Pandas.from_records L ds) = Pandas.uniq [] K.
Proof.
  intros Hne HF. cbn. destruct HF as [|d ds Hd HF]; [congruence|].
  cbn. rewrite Hd. apply uniq_app_covered. intros x Hx. left.
  apply in_flat_map in Hx as (d' & Hd' & Hx).
  rewrite Forall_forall in HF. now rewrite (HF d' Hd') in Hx.
Qed.

Lemma records_as_dicts (e : entity) (recs : list pyval) :
  Forall (is_record e) recs ->
  exists ds, recs = map PDict ds /\ Forall (fun d => map fst d = entity_columns e) ds.
Proof.
  induction 1 as [|v recs (d & -> & Hd) _ (ds & -> & Hds)].
  - exists []. split; [reflexivity | constructor].
  - exists (d :: ds). split; [reflexivity | now constructor].
Qed.

Lemma string_app_assoc (a b c : string) : ((a ++ b) ++ c = a ++ (b ++ c))%string.
Proof. induction a as [|x a IH]; cbn; [reflexivity | now rewrite IH]. Qed.

Lemma string_app_nil_r (a : string) : (a ++ "" = a)%string.
Proof. induction a as [|x a IH]; cbn; [reflexivity | now rewrite IH]. Qed.

Lemma to_csv_header (L : Pandas.Lib) (df : Pandas.DataFrame) :
  exists lines,
    Pandas.to_csv_lines L df false = Pandas.csv_row (Pandas.columns df) :: lines /\
    List.length lines = List.length (Pandas.rows df) /\
    Pandas.to_csv L df false =
      Pandas.csv_row (Pandas.columns df) ++ Pandas.newline ++
      concat "" (map (fun l => l ++ Pandas.newline) lines).
Proof.
  unfold Pandas.to_csv, Pandas.to_csv_lines. eexists. split; [reflexivity|]. split.
  - rewrite length_map. generalize 0.
    induction (Pandas.rows df) as [|r rs IH]; intros n; cbn; [reflexivity|].
    now rewrite IH.
  - cbn [map concat]. destruct (map _ (map _ _)); cbn [concat].
    + now rewrite string_app_nil_r.
    + rewrite string_app_assoc. reflexivity.
Qed.

Lemma entity_columns_uniq (e : entity) :
  Pandas.uniq [] (entity_columns e) = entity_columns e.
Proof. destruct e; reflexivity. Qed.

Lemma entity_columns_header (e : entity) :
  Pandas.csv_row (entity_columns e) = csv_header e.
Proof. destruct e; reflexivity. Qed.

(** A non-empty table made from extracted records has the columns of its
    record kind. *)
Lemma transform_columns (e : entity) (L : Pandas.Lib) (self : Transformer.TransformData)
    (de : Extractor.DataExtract) (pd : pyval) :
  raw e self = extracted e de pd ->
  Pandas.empty (fst (transform e L self)) = false ->
  Pandas.columns (fst (transform e L self)) = entity_columns e.
Proof.
  intros Hraw. rewrite transform_of_attempt.
  destruct (attempt e L self) as [out|x] eqn:Hatt; [|cbn; discriminate].
  intros Hne.
  destruct (attempt_ok_inv e L self out Hatt) as (df0 & df1 & Hmk & Hdd & Hout).
  destruct (drop_duplicates_spec df0 df1 Hdd) as [Hcols _].
  assert (Hout_cols : Pandas.columns out = Pandas.columns df0).
  { destruct (date_column e) as [c|].
    - destruct Hout as (col & conv & Hget & _ & Hset).
      destruct (get_column_index _ _ _ Hget) as (j & Hj & _).
      destruct (set_column_spec _ _ _ _ _ Hj Hset) as (_ & Hc & _). congruence.
    - congruence. }
  rewrite Hout_cols.
  assert (Hnonempty : Pandas.columns df0 <> []).
  { intros H0. unfold Pandas.empty in Hne. rewrite Hout_cols, H0 in Hne.
    discriminate Hne. }
  rewrite Hraw in Hmk.
  destruct (extracted_records e de pd) as [Hnone | (recs & Hrecs & HF)].
  - rewrite Hnone in Hmk. injection Hmk as <-. now destruct Hnonempty.
  - rewrite Hrecs in Hmk. destruct (records_as_dicts e recs HF) as (ds & -> & Hds).
    rewrite mk_DataFrame_records in Hmk. injection Hmk as <-.
    destruct ds as [|d ds]; [now destruct Hnonempty|].
    rewrite (from_records_columns L (entity_columns e)); [apply entity_columns_uniq | | exact Hds].
    discriminate.
Qed.

(** What the local sink leaves in the file it wrote. *)
Lemma validate_and_save_writes (E : Runtime.Ext) (df : Pandas.DataFrame)
    (filepath data_type : string) (w w' : Runtime.World) :
  Loaders._validate_and_save E (Some df) filepath data_type w = (Ok tt, w') ->
  Runtime.assoc filepath (Runtime.files w') = Some (Pandas.to_csv (Runtime.pandas E) df false).
Proof.
  unfold Loaders._validate_and_save, Loaders.os_makedirs, Loaders.write_file,
    Runtime.bind, Runtime.try_except, Runtime.logger_error, Runtime.logger_info,
    Runtime.logger, Runtime.raise.
  destruct (Pandas.empty df); [discriminate|].
  destruct (Runtime.makedirs_error E _); [discriminate|].
  destruct (Runtime.write_error E filepath); [discriminate|].
  intros [= <-].
  destruct (Pandas.mem_str _ (Runtime.dirs w)); cbn; now rewrite String.eqb_refl.
Qed.

(** What the cloud sink uploads. *)
Lemma validate_and_upload_puts (E : Runtime.Ext) (self : Loaders.LoadDataS3)
    (df : Pandas.DataFrame) (s3_key data_type uri : string) (w w' : Runtime.World) :
  Loaders._validate_and_upload E self (Some df) s3_key data_type w = (Ok uri, w') ->
  Runtime.s3_objects w' =
    (Runtime.s3_objects w ++
     [{| Runtime.Bucket := Loaders.bucket_name self; Runtime.Key := s3_key;
         Runtime.Body := Pandas.to_csv (Runtime.pandas E) df false;
         Runtime.ContentType := "text/csv" |}])%list.
Proof.
  unfold Loaders._validate_and_upload, Loaders.put_object,
    Runtime.bind, Runtime.try_except, Runtime.logger_error, Runtime.logger_info,
    Runtime.logger, Runtime.raise, Runtime.ret.
  destruct (Pandas.empty df); [discriminate|].
  destruct (Loaders.s3_client self) as [c|]; [|discriminate].
  destruct (Runtime.put_object_error E c _ _); [discriminate|].
  intros [= _ <-]. reflexivity.
Qed.

(** C8 (as the code behaves): a non-empty table made by a transform method
    from the records of its extraction method has the columns of that
    record kind, and the CSV both sinks write for it starts with the header
    line of these names, without index column.  For songs the last name is
    [artist_ids]. *)
Theorem written_csv_header
    (e : entity) (E : Runtime.Ext) (self : Transformer.TransformData)
    (de : Extractor.DataExtract) (pd : pyval) :
  raw e self = extracted e de pd ->
  let df := fst (transform e (Runtime.pandas E) self) in
  Pandas.empty df = false ->
  Pandas.columns df = entity_columns e /\
  (exists lines,
      Pandas.to_csv_lines (Runtime.pandas E) df false = csv_header e :: lines /\
      List.length lines = List.length (Pandas.rows df)) /\
  (forall filepath data_type w w',
      Loaders._validate_and_save E (Some df) filepath data_type w = (Ok tt, w') ->
      exists body,
        Runtime.assoc filepath (Runtime.files w') =
        Some (csv_header e ++ Pandas.newline ++ body)) /\
  (forall cloud s3_key data_type uri w w',
      Loaders._validate_and_upload E cloud (Some df) s3_key data_type w = (Ok uri, w') ->
      exists body o,
        Runtime.s3_objects w' = (Runtime.s3_objects w ++ [o])%list /\
        Runtime.Body o = csv_header e ++ Pandas.newline ++ body).
Proof.
  intros Hraw df Hne.
  pose proof (transform_columns e (Runtime.pandas E) self de pd Hraw Hne) as Hcols.
  fold df in Hcols.
  destruct (to_csv_header (Runtime.pandas E) df) as (lines & Hlines & Hlen & Hcsv).
  rewrite Hcols, entity_columns_header in Hlines, Hcsv.
  split; [exact Hcols|]. split; [now exists lines|]. split.
  - intros filepath data_type w w' Hsave. eexists.
    rewrite (validate_and_save_writes _ _ _ _ _ _ Hsave), Hcsv. reflexivity.
  - intros cloud s3_key data_type uri w w' Hup. eexists. eexists.
    split; [exact (validate_and_upload_puts _ _ _ _ _ _ _ _ Hup)|].
    cbn. exact Hcsv.
Qed.

Lemma written_csv_header_witness :
  let de := {| Extractor.playlist_data :=
                 Samples.document [Samples.item_a; Samples.item_b; Samples.item_c] |} in
  let self := {| Transformer.album_data := PNone; Transformer.artist_data := PNone;
                 Transformer.song_data := fst (Extractor.extract_song_data de PNone) |} in
  Pandas.columns (fst (Transformer.transform_song_data Samples.lib self)) =
  ["id"; "name"; "added_at"; "duration_ms"; "popularity"; "url"; "album_id"; "artist_ids"].
Proof.
  intros de self.
  apply (written_csv_header Song (Samples.ext PNone) self de PNone eq_refl eq_refl).
Defined.

(** On the sample document the song file's header ends in [artist_ids]; it
    is not the header the specification lists. *)
Lemma song_header_counterexample :
  let de := {| Extractor.playlist_data :=
                 Samples.document [Samples.item_a; Samples.item_b; Samples.item_c] |} in
  let self := {| Transformer.album_data := PNone; Transformer.artist_data := PNone;
                 Transformer.song_data := fst (Extractor.extract_song_data de PNone) |} in
  let df := fst (Transformer.transform_song_data Samples.lib self) in
  Pandas.empty df = false /\
  hd "" (Pandas.to_csv_lines Samples.lib df false) =
    "id,name,added_at,duration_ms,popularity,url,album_id,artist_ids" /\
  hd "" (Pandas.to_csv_lines Samples.lib df false) <> spec_song_header /\
  exists w' body,
    Loaders._validate_and_save (Samples.ext PNone) (Some df) "data/song_data_PL1.csv"
      "Song" Runtime.initial_world = (Ok tt, w') /\
    Runtime.files w' =
      [("data/song_data_PL1.csv",
        "id,name,added_at,duration_ms,popularity,url,album_id,artist_ids"
          ++ Pandas.newline ++ body)].
Proof.
  cbv zeta. split; [reflexivity|]. split; [reflexivity|]. split; [discriminate|].
  eexists. eexists. split; reflexivity.
Qed.

(* ================================================================== *)
(** * Further properties of the modelled code *)
(* ================================================================== *)

(** ** Extraction: what a successful batch contains *)

(** The loop succeeds exactly when every iteration does, and then it has
    appended the iterations' records in order. *)
Lemma for_each_ok_iff (body : pyval -> result (list pyval))
    (xs acc out : list pyval) :
  Extractor.for_each body xs acc = Ok out <->
  exists rss, Forall2 (fun x rs => body x = Ok rs) xs rss /\
              out = (acc ++ List.concat rss)%list.
Proof.
  revert acc. induction xs as [|x xs IH]; intros acc; cbn.
  - split.
    + intros [= <-]. exists []. split; [constructor | now rewrite app_nil_r].
    + intros (rss & HF & ->). inversion HF. cbn. now rewrite app_nil_r.
  - destruct (body x) as [rs|e] eqn:Hx.
    + rewrite IH. split.
      * intros (rss & HF & ->). exists (rs :: rss). split; [now constructor|].
        cbn. now rewrite app_assoc.
      * intros (rss & HF & ->). inversion HF as [|? rs' ? rss' Hrs HF']; subst.
        assert (rs' = rs) by congruence. subst rs'.
        exists rss'. split; [exact HF'|]. cbn. now rewrite app_assoc.
    + split; [discriminate|].
      intros (rss & HF & _). inversion HF; subst. congruence.
Qed.

Lemma for_each_raise_iff (body : pyval -> result (list pyval)) (xs acc : list pyval) :
  (exists e, Extractor.for_each body xs acc = Raise e) <->
  exists x e, In x xs /\ body x = Raise e.
Proof.
  split.
  - revert acc. induction xs as [|x xs IH]; intros acc [e H]; cbn in H; [discriminate|].
    destruct (body x) as [rs|e'] eqn:Hx.
    + destruct (IH _ (ex_intro _ e H)) as (y & e' & Hy & He'). exists y, e'. auto using in_cons.
    + exists x, e'. split; [now left | exact Hx].
  - intros (x & e & Hin & Hx). eapply for_each_raises; eassumption.
Qed.

Lemma extracted_unfold (e : entity) (de : Extractor.DataExtract) (pd : pyval) :
  extracted e de pd =
  match Extractor.playlist_items de with
  | Ok its =>
      match Extractor.for_each (body_of e) its [] with
      | Ok out => PList out
      | Raise _ => PNone
      end
  | Raise _ => PNone
  end.
Proof.
  destruct e; cbn;
    unfold Extractor.extract_album_data, Extractor.extract_artist_data,
      Extractor.extract_song_data, Extractor.album_try, Extractor.artist_try,
      Extractor.song_try;
    destruct (Extractor.playlist_items de) as [its|x]; cbn [rbind]; try reflexivity;
    match goal with |- context [Extractor.for_each ?b its []] =>
      destruct (Extractor.for_each b its []) end; reflexivity.
Qed.

Lemma extracted_list_iff
    (e : entity) (de : Extractor.DataExtract) (pd : pyval) (out : list pyval) :
  extracted e de pd = PList out <->
  exists its rss,
    Extractor.playlist_items de = Ok its /\
    Forall2 (fun it rs => body_of e it = Ok rs) its rss /\
    out = List.concat rss.
Proof.
  rewrite extracted_unfold. split.
  - destruct (Extractor.playlist_items de) as [its|x]; [|discriminate].
    destruct (Extractor.for_each (body_of e) its []) as [o|x] eqn:H; [|discriminate].
    intros [= <-]. apply for_each_ok_iff in H as (rss & HF & ->).
    now exists its, rss.
  - intros (its & rss & -> & HF & ->).
    rewrite (proj2 (for_each_ok_iff (body_of e) its [] (List.concat rss)));
      [reflexivity|]. now exists rss.
Qed.

(** X1: an extraction method returns a list exactly when the items can be
    read and the loop body succeeds on every item; the list is then the
    concatenation, in playlist order, of what each item contributed. *)
Theorem extraction_returns_records_in_order
    (e : entity) (de : Extractor.DataExtract) (pd : pyval) (out : list pyval) :
  extracted e de pd = PList out <->
  exists its rss,
    Extractor.playlist_items de = Ok its /\
    Forall2 (fun it rs => body_of e it = Ok rs) its rss /\
    out = List.concat rss.
Proof. apply extracted_list_iff. Qed.

(** X2: an extraction method returns [None] exactly when the items cannot
    be read or the loop body raises on at least one item. *)
Theorem extraction_returns_none_iff
    (e : entity) (de : Extractor.DataExtract) (pd : pyval) :
  extracted e de pd = PNone <->
  (exists x, Extractor.playlist_items de = Raise x) \/
  (exists its it x, Extractor.playlist_items de = Ok its /\ In it its /\
                    body_of e it = Raise x).
Proof.
  rewrite extracted_unfold. split.
  - destruct (Extractor.playlist_items de) as [its|x]; [|intros _; left; now exists x].
    destruct (Extractor.for_each (body_of e) its []) as [o|x] eqn:H; [discriminate|].
    intros _. right.
    destruct (proj1 (for_each_raise_iff (body_of e) its []) (ex_intro _ x H))
      as (it & x' & Hin & Hit).
    now exists its, it, x'.
  - intros [[x ->] | (its & it & x & -> & Hin & Hit)]; [reflexivity|].
    destruct (for_each_raises (body_of e) its [] it x Hin Hit) as [x' ->].
    reflexivity.
Qed.

Ltac step_lookups_in H :=
  repeat match type of H with
         | context [rbind ?c _] => destruct c eqn:?; cbn [rbind] in H; [|discriminate H]
         end.

(** An item contributes one album record when it has a track and none
    otherwise. *)
Lemma album_body_count (it : pyval) (rs : list pyval) :
  Extractor.album_body it = Ok rs ->
  List.length rs = if has_track it then 1 else 0.
Proof.
  unfold Extractor.album_body, has_track.
  destruct (getitem it "track") as [t|x]; cbn [rbind]; [|discriminate].
  destruct (is_none t); cbn [negb]; [now intros [= <-]|].
  intros H. step_lookups_in H. now injection H as <-.
Qed.

Lemma song_body_count (it : pyval) (rs : list pyval) :
  Extractor.song_body it = Ok rs ->
  List.length rs = if has_track it then 1 else 0.
Proof.
  unfold Extractor.song_body, has_track.
  destruct (getitem it "track") as [t|x]; cbn [rbind]; [|discriminate].
  destruct (is_none t); cbn [negb]; [now intros [= <-]|].
  intros H. step_lookups_in H. now injection H as <-.
Qed.

Lemma artist_inner_count (arts acc out : list pyval) :
  Extractor.for_each Extractor.artist_inner arts acc = Ok out ->
  List.length out = List.length acc + List.length arts.
Proof.
  revert acc. induction arts as [|a arts IH]; intros acc; cbn.
  - intros [= <-]. lia.
  - destruct (Extractor.artist_inner a) as [rs|x] eqn:Ha; [|discriminate].
    intros H. apply IH in H. rewrite H, length_app.
    unfold Extractor.artist_inner in Ha. step_lookups_in Ha.
    injection Ha as <-. cbn. lia.
Qed.

Lemma artist_body_count (it : pyval) (rs : list pyval) :
  Extractor.artist_body it = Ok rs ->
  List.length rs = track_artist_count it.
Proof.
  unfold Extractor.artist_body, track_artist_count, has_track.
  destruct (getitem it "track") as [t|x]; cbn [rbind]; [|discriminate].
  destruct (is_none t); cbn [negb]; [now intros [= <-]|].
  destruct (path it ["track"; "artists"]) as [a|x]; cbn [rbind]; [|discriminate].
  destruct (iterate a) as [arts|x]; cbn [rbind]; [|discriminate].
  intros H. apply artist_inner_count in H. exact H.
Qed.

Lemma concat_length_sum (f : pyval -> nat) (body : pyval -> result (list pyval))
    (its : list pyval) (rss : list (list pyval)) :
  (forall it rs, body it = Ok rs -> List.length rs = f it) ->
  Forall2 (fun it rs => body it = Ok rs) its rss ->
  List.length (List.concat rss) = list_sum (map f its).
Proof.
  intros Hf HF. unfold list_sum.
  induction HF as [|it rs its rss Hit _ IH]; cbn [map fold_right List.concat];
    [reflexivity|].
  rewrite length_app, IH, (Hf it rs Hit). reflexivity.
Qed.

Lemma list_sum_indicator (p : pyval -> bool) (its : list pyval) :
  list_sum (map (fun it => if p it then 1 else 0) its) = List.length (filter p its).
Proof.
  unfold list_sum in *.
  induction its as [|it its IH]; cbn [map filter fold_right]; [reflexivity|].
  rewrite IH. destruct (p it); reflexivity.
Qed.

(** X3: when an extraction succeeds, the album list and the song list have
    one record per item with a track, and the artist list has one record
    per artist listed on those items' tracks. *)
Theorem extraction_record_counts
    (e : entity) (de : Extractor.DataExtract) (pd : pyval)
    (its out : list pyval) :
  Extractor.playlist_items de = Ok its ->
  extracted e de pd = PList out ->
  List.length out =
  match e with
  | Album | Song => List.length (filter has_track its)
  | Artist => list_sum (map track_artist_count its)
  end.
Proof.
  intros Hits Hout.
  apply extracted_list_iff in Hout as (its' & rss & Hits' & HF & ->).
  assert (its' = its) by congruence. subst its'.
  destruct e; cbn [body_of] in HF; cbv iota.
  - rewrite <- list_sum_indicator.
    apply (concat_length_sum _ Extractor.album_body); [exact album_body_count | exact HF].
  - apply (concat_length_sum _ Extractor.artist_body); [exact artist_body_count | exact HF].
  - rewrite <- list_sum_indicator.
    apply (concat_length_sum _ Extractor.song_body); [exact song_body_count | exact HF].
Qed.

Lemma extraction_record_counts_witness :
  exists out,
    extracted Artist
      {| Extractor.playlist_data :=
           Samples.document [Samples.item_a; Samples.item_b; Samples.item_c] |}
      PNone = PList out /\
    List.length out = 3.
Proof.
  eexists. split; [reflexivity|].
  exact (extraction_record_counts Artist
           {| Extractor.playlist_data :=
                Samples.document [Samples.item_a; Samples.item_b; Samples.item_c] |}
           PNone [Samples.item_a; Samples.item_b; Samples.item_c] _ eq_refl eq_refl).
Defined.

(** The album a song record names is the album record of the same item. *)
Lemma song_names_album_of_item (it : pyval) (ra rs : list pyval) (s : pyval) :
  Extractor.album_body it = Ok ra ->
  Extractor.song_body it = Ok rs ->
  In s rs ->
  exists a ds da v,
    In a ra /\ s = PDict ds /\ a = PDict da /\
    dict_get "album_id" ds = Some v /\ dict_get "id" da = Some v.
Proof.
  unfold Extractor.album_body, Extractor.song_body.
  destruct (getitem it "track") as [t|x]; cbn [rbind]; [|discriminate].
  destruct (is_none t).
  - intros _ [= <-] [].
  - intros Ha Hs. step_lookups_in Ha. step_lookups_in Hs.
    injection Ha as <-. injection Hs as <-.
    intros [<- | []].
    repeat match goal with
           | H1 : ?c = Ok ?x, H2 : ?c = Ok ?y |- _ =>
               assert (x = y) by congruence; subst y; clear H2
           end.
    eexists _, _, _, _. split; [now left|]. repeat split.
Qed.

(** X4: when the album and the song extraction of one document both
    succeed, every song record's [album_id] is the [id] of an album record
    of the same batch. *)
Theorem song_album_id_is_extracted
    (de : Extractor.DataExtract) (pd : pyval) (albums songs : list pyval) (s : pyval) :
  extracted Album de pd = PList albums ->
  extracted Song de pd = PList songs ->
  In s songs ->
  exists a ds da v,
    In a albums /\ s = PDict ds /\ a = PDict da /\
    dict_get "album_id" ds = Some v /\ dict_get "id" da = Some v.
Proof.
  intros Ha Hs Hin.
  apply extracted_list_iff in Ha as (its & rsa & Hits & HFa & ->).
  apply extracted_list_iff in Hs as (its' & rss & Hits' & HFs & ->).
  assert (its' = its) by congruence. subst its'. clear Hits Hits'.
  cbn [body_of] in HFa, HFs. revert rss HFs Hin.
  induction HFa as [|it ra its rsa Hit _ IH]; intros rss HFs Hin.
  - inversion HFs; subst. destruct Hin.
  - inversion HFs as [|? rs ? rss' Hrs HFs']; subst.
    cbn in Hin. apply in_app_or in Hin as [Hin | Hin].
    + destruct (song_names_album_of_item it ra rs s Hit Hrs Hin)
        as (a & ds & da & v & Ha & H).
      exists a, ds, da, v. split; [|exact H]. cbn. apply in_or_app. now left.
    + destruct (IH rss' HFs' Hin) as (a & ds & da & v & Ha & H).
      exists a, ds, da, v. split; [|exact H]. cbn. apply in_or_app. now right.
Qed.

Lemma song_album_id_is_extracted_witness :
  let de := {| Extractor.playlist_data :=
                 Samples.document [Samples.item_a; Samples.item_b; Samples.item_c] |} in
  exists albums songs s,
    extracted Album de PNone = PList albums /\
    extracted Song de PNone = PList songs /\
    In s songs /\
    exists a ds da v,
      In a albums /\ s = PDict ds /\ a = PDict da /\
      dict_get "album_id" ds = Some v /\ dict_get "id" da = Some v.
Proof.
  intros de. eexists _, _, _.
  split; [reflexivity|]. split; [reflexivity|]. split; [left; reflexivity|].
  exact (song_album_id_is_extracted de PNone _ _ _ eq_refl eq_refl
           (or_introl eq_refl)).
Defined.

(** ** Transformation: order, cardinality, success and failure *)

Lemma subseq_nil_l {A} (l : list A) : subseq [] l.
Proof. induction l; constructor; assumption. Qed.

Lemma subseq_length {A} (l l' : list A) :
  subseq l l' -> List.length l <= List.length l'.
Proof. induction 1; cbn; lia. Qed.

Lemma Forall2_length_eq {A B} (P : A -> B -> Prop) (l : list A) (l' : list B) :
  Forall2 P l l' -> List.length l = List.length l'.
Proof. induction 1; cbn; congruence. Qed.

(** X5: on a list of records, the rows a transform method returns are
    rows of the table built from the records, taken in their original
    order (the other rows are dropped), each with its cells in every
    column the method does not convert; so there are never more rows than
    records. *)
Theorem transform_rows_follow_input_order
    (e : entity) (L : Pandas.Lib) (self : Transformer.TransformData)
    (ds : list (list (string * pyval))) :
  raw e self = PList (map PDict ds) ->
  let out := fst (transform e L self) in
  (exists kept,
      subseq kept (Pandas.rows (Pandas.from_records L ds)) /\
      Forall2 (agrees (Pandas.columns out) (date_column e)) (Pandas.rows out) kept) /\
  List.length (Pandas.rows out) <= List.length ds.
Proof.
  intros Hraw out.
  assert (H : exists kept,
             subseq kept (Pandas.rows (Pandas.from_records L ds)) /\
             Forall2 (agrees (Pandas.columns out) (date_column e))
                     (Pandas.rows out) kept).
  { subst out. rewrite transform_of_attempt.
    destruct (attempt e L self) as [out|x] eqn:Hatt.
    2:{ exists []. split; [apply subseq_nil_l | constructor]. }
    destruct (attempt_ok_inv e L self out Hatt) as (df0 & df1 & Hmk & Hdd & Hout).
    rewrite Hraw, mk_DataFrame_records in Hmk. injection Hmk as <-.
    pose proof (drop_duplicates_keeps_order _ _ Hdd) as Hsub.
    exists (Pandas.rows df1). split; [exact Hsub|].
    destruct (date_column e) as [cd|] eqn:Hdate.
    - destruct Hout as (col & conv & Hget & _ & Hset).
      destruct (get_column_index _ _ _ Hget) as (jd & Hjd & _).
      destruct (set_column_spec _ _ _ _ _ Hjd Hset) as (Hlen & Hcols' & Hrows').
      rewrite Hcols', Hrows'.
      eapply Forall2_zip_with; [exact Hlen | | apply Forall2_same].
      cbn beta. intros r r' v <-. split; [apply set_nth_length|].
      intros c j Hj Hskip. apply cell_at_set_nth_other. intros ->.
      apply Hskip. f_equal. symmetry. exact (col_index_inj _ _ _ _ Hj Hjd).
    - subst out. eapply Forall2_impl; [|apply Forall2_same].
      cbn beta. intros r r' <-. split; [reflexivity|]. intros c j _ _. reflexivity. }
  split; [exact H|].
  destruct H as (kept & Hsub & HF).
  rewrite (Forall2_length_eq _ _ _ HF), <- (from_records_rows_length L ds).
  now apply subseq_length.
Qed.

Lemma transform_rows_follow_input_order_witness :
  List.length
    (Pandas.rows
       (fst (Transformer.transform_album_data Samples.lib
               {| Transformer.album_data := PList (map PDict Samples.conflicting_albums);
                  Transformer.artist_data := PNone; Transformer.song_data := PNone |})))
  <= 4.
Proof.
  apply (transform_rows_follow_input_order Album Samples.lib
           {| Transformer.album_data := PList (map PDict Samples.conflicting_albums);
              Transformer.artist_data := PNone; Transformer.song_data := PNone |}
           Samples.conflicting_albums eq_refl).
Defined.

(** X7: when the identifiers of the table built from the records are
    already pairwise distinct and the [try] block succeeds, no row is
    dropped: the table has as many rows as there were records. *)
Theorem distinct_ids_lose_no_row
    (e : entity) (L : Pandas.Lib) (self : Transformer.TransformData)
    (ds : list (list (string * pyval))) (out : Pandas.DataFrame) (i : nat) :
  raw e self = PList (map PDict ds) ->
  attempt e L self = Ok out ->
  Pandas.col_index "id" (Pandas.columns (Pandas.from_records L ds)) = Some i ->
  NoDup (map (row_id i) (Pandas.rows (Pandas.from_records L ds))) ->
  List.length (Pandas.rows out) = List.length ds.
Proof.
  intros Hraw Hatt Hi Hnd.
  destruct (attempt_ok_inv e L self out Hatt) as (df0 & df1 & Hmk & Hdd & Hout).
  rewrite Hraw, mk_DataFrame_records in Hmk. injection Hmk as <-.
  assert (H1 : List.length (Pandas.rows df1) = List.length ds).
  { destruct (drop_duplicates_first_occurrences _ df1 i Hdd Hi)
      as (ns & Hsorted & Hns & ->).
    rewrite length_map, <- (from_records_rows_length L ds).
    apply sorted_positions_length; [exact Hsorted|].
    intros n. rewrite Hns. unfold first_occurrence. split; [now intros [Hn _]|].
    intros Hn. split; [exact Hn|]. intros m Hm Heq.
    set (rs := Pandas.rows (Pandas.from_records L ds)) in *.
    assert (Hm' : m < List.length rs) by lia.
    pose proof (proj1 (NoDup_nth (map (row_id i) rs) (row_id i [])) Hnd m n) as Hinj.
    rewrite !length_map, !(map_nth (row_id i)) in Hinj.
    specialize (Hinj Hm' Hn Heq). lia. }
  destruct (date_column e) as [c|].
  - destruct Hout as (col & conv & Hget & _ & Hset).
    destruct (get_column_index _ _ _ Hget) as (j & Hj & _).
    destruct (set_column_spec _ _ _ _ _ Hj Hset) as (Hlen & _ & Hrows).
    rewrite Hrows, zip_with_length; assumption.
  - now subst out.
Qed.

Lemma distinct_ids_lose_no_row_witness :
  List.length
    (Pandas.rows
       (fst (Transformer.transform_album_data Samples.lib
               {| Transformer.album_data :=
                    PList (map PDict [Samples.album_first; Samples.album_y]);
                  Transformer.artist_data := PNone; Transformer.song_data := PNone |})))
  = 2.
Proof.
  apply (distinct_ids_lose_no_row Album Samples.lib
           {| Transformer.album_data :=
                PList (map PDict [Samples.album_first; Samples.album_y]);
              Transformer.artist_data := PNone; Transformer.song_data := PNone |}
           [Samples.album_first; Samples.album_y] _ 0 eq_refl eq_refl eq_refl).
  repeat constructor; cbn; intuition discriminate.
Defined.

Lemma uniq_In (x : string) (seen l : list string) :
  In x (Pandas.uniq seen l) <-> In x l /\ Pandas.mem_str x seen = false.
Proof.
  revert seen. induction l as [|y l IH]; intros seen; cbn.
  - tauto.
  - destruct (Pandas.mem_str y seen) eqn:Hy.
    + rewrite IH. split; [tauto|]. intros [[<- | H] Hx]; [congruence | tauto].
    + cbn. rewrite IH. cbn. rewrite orb_false_iff. split.
      * intros [<- | (H & Hxy & Hx)]; [tauto | tauto].
      * intros [[<- | H] Hx]; [tauto|].
        destruct (String.eqb x y) eqn:E; [apply String.eqb_eq in E; subst; tauto | tauto].
Qed.

Lemma col_index_In (c : string) (cols : list string) :
  In c cols <-> exists j, Pandas.col_index c cols = Some j.
Proof.
  induction cols as [|x cols IH]; cbn.
  - split; [contradiction | intros [j H]; discriminate].
  - destruct (String.eqb c x) eqn:E.
    + apply String.eqb_eq in E. subst. split; [now exists 0 | now left].
    + apply String.eqb_neq in E. rewrite IH. split.
      * intros [H | [j Hj]]; [congruence|]. rewrite Hj. now exists (S j).
      * intros [j Hj]. right. destruct (Pandas.col_index c cols) as [n|]; [now exists n | discriminate].
Qed.

Lemma dict_get_In (c : string) (d : list (string * pyval)) :
  dict_get c d <> None <-> In c (map fst d).
Proof.
  induction d as [|[k v] d IH]; cbn.
  - tauto.
  - destruct (String.eqb c k) eqn:E.
    + apply String.eqb_eq in E. subst. split; [now left | discriminate].
    + apply String.eqb_neq in E. rewrite IH. split; [tauto | intros [H|H]; congruence].
Qed.

(** A key of some record is a column of the table made from the records. *)
Lemma from_records_has_column (L : Pandas.Lib) (c : string)
    (ds : list (list (string * pyval))) :
  (exists d, In d ds /\ dict_get c d <> None) <->
  exists j, Pandas.col_index c (Pandas.columns (Pandas.from_records L ds)) = Some j.
Proof.
  rewrite <- col_index_In. cbn. rewrite uniq_In, in_flat_map. cbn. split.
  - intros (d & Hd & Hc). split; [|reflexivity]. exists d. split; [exact Hd|].
    now apply dict_get_In.
  - intros [(d & Hd & Hc) _]. exists d. split; [exact Hd|]. now apply dict_get_In.
Qed.

(** X8: a list of records none of which has an ['id'] key gives the empty
    fallback or an otherwise empty table, whatever else the records hold. *)
Theorem records_without_id_give_empty_table
    (e : entity) (L : Pandas.Lib) (self : Transformer.TransformData)
    (ds : list (list (string * pyval))) :
  raw e self = PList (map PDict ds) ->
  (forall d, In d ds -> dict_get "id" d = None) ->
  Pandas.empty (fst (transform e L self)) = true.
Proof.
  intros Hraw Hnoid. rewrite transform_of_attempt.
  destruct (attempt e L self) as [out|x] eqn:Hatt; [|reflexivity].
  destruct (attempt_ok_inv e L self out Hatt) as (df0 & df1 & Hmk & Hdd & Hout).
  rewrite Hraw, mk_DataFrame_records in Hmk. injection Hmk as <-.
  destruct (drop_duplicates_spec _ _ Hdd)
    as [Hcols [[Hempty ->] | (_ & i & krs & Hi & _)]].
  - destruct (date_column e) as [c|].
    + destruct Hout as (col & conv & Hget & _ & Hset).
      destruct (get_column_index _ _ _ Hget) as (j & Hj & _).
      destruct (set_column_spec _ _ _ _ _ Hj Hset) as (Hlen & Hc & Hr).
      unfold Pandas.empty in *. rewrite Hc, Hr, zip_with_length by exact Hlen.
      exact Hempty.
    + now subst out.
  - destruct (proj2 (from_records_has_column L "id" ds) (ex_intro _ i Hi))
      as (d & Hd & Hsome).
    destruct (Hsome (Hnoid d Hd)).
Qed.

Lemma records_without_id_give_empty_table_witness :
  Pandas.empty
    (fst (Transformer.transform_artist_data Samples.lib
            {| Transformer.album_data := PNone;
               Transformer.artist_data := PList (map PDict [[("name", PStr "Ann")]]);
               Transformer.song_data := PNone |})) = true.
Proof.
  apply (records_without_id_give_empty_table Artist Samples.lib
           {| Transformer.album_data := PNone;
              Transformer.artist_data := PList (map PDict [[("name", PStr "Ann")]]);
              Transformer.song_data := PNone |}
           [[("name", PStr "Ann")]] eq_refl).
  intros d [<- | []]. reflexivity.
Defined.

Lemma keyed_total (idx : list nat) (rs : list (list Pandas.cell)) :
  (forall r, In r rs -> exists k, Pandas.row_key idx r = Ok k) ->
  exists krs, Pandas.keyed idx rs = Ok krs /\ List.length krs = List.length rs.
Proof.
  induction rs as [|r rs IH]; intros H; cbn.
  - now exists [].
  - destruct (H r (or_introl eq_refl)) as [k ->]. cbn [rbind].
    destruct IH as (krs & -> & Hlen); [intros r' Hr'; apply H; now right|].
    cbn [rbind]. eexists. split; [reflexivity|]. cbn. now rewrite Hlen.
Qed.

Lemma keep_first_nonempty (krs : list (list Pandas.key * list Pandas.cell)) :
  krs <> [] -> Pandas.keep_first [] krs <> [].
Proof. destruct krs as [|[k r] krs]; [congruence|]. cbn. discriminate. Qed.

(** Converting an existing column with a parser that returns one value
    per value given succeeds and changes neither the columns nor the
    number of rows. *)
Lemma date_step_ok (L : Pandas.Lib) (df1 : Pandas.DataFrame) (c : string) (j : nat) :
  Pandas.col_index c (Pandas.columns df1) = Some j ->
  (forall col, exists conv, Pandas.to_datetime L col = Ok conv /\
                            List.length conv = List.length col) ->
  exists out,
    (col <- Pandas.get_column df1 c ;;
     conv <- Pandas.to_datetime L col ;;
     df <- Pandas.set_column df1 c conv ;;
     Ok df) = Ok out /\
    Pandas.empty out = Pandas.empty df1.
Proof.
  intros Hj Hparse. unfold Pandas.get_column. rewrite Hj. cbn [rbind].
  destruct (Hparse (map (Pandas.cell_at j) (Pandas.rows df1))) as (conv & -> & Hconv).
  cbn [rbind]. rewrite length_map in Hconv.
  unfold Pandas.set_column. rewrite Hconv, Nat.eqb_refl. cbn [negb]. rewrite Hj.
  cbn [rbind]. eexists. split; [reflexivity|].
  unfold Pandas.empty. cbn [Pandas.columns Pandas.rows].
  rewrite zip_with_length by (symmetry; exact Hconv). reflexivity.
Qed.

(** X9: on a non-empty list of records that each carry a hashable ['id']
    and of which one carries the date key, with a date parser that
    returns one value per value given, the [try] block succeeds and the
    method returns a non-empty table. *)
Theorem well_formed_records_give_table
    (e : entity) (L : Pandas.Lib) (self : Transformer.TransformData)
    (ds : list (list (string * pyval))) :
  raw e self = PList (map PDict ds) ->
  ds <> [] ->
  (forall d, In d ds -> dict_get "id" d <> None /\ exists k, id_key d = Ok k) ->
  (forall c, date_column e = Some c ->
             (exists d, In d ds /\ dict_get c d <> None) /\
             forall col, exists conv, Pandas.to_datetime L col = Ok conv /\
                                      List.length conv = List.length col) ->
  exists out,
    attempt e L self = Ok out /\
    fst (transform e L self) = out /\
    Pandas.empty out = false.
Proof.
  intros Hraw Hne Hids Hdate.
  set (table := Pandas.from_records L ds).
  assert (Hid : exists i, Pandas.col_index "id" (Pandas.columns table) = Some i).
  { apply from_records_has_column. destruct ds as [|d ds']; [congruence|].
    exists d. split; [now left | apply Hids; now left]. }
  destruct Hid as [i Hi].
  assert (Hcols_ne : Pandas.columns table <> []).
  { intros H0. rewrite H0 in Hi. discriminate Hi. }
  assert (Hrows_ne : Pandas.rows table <> []).
  { intros H0. apply (f_equal (@List.length _)) in H0.
    unfold table in H0. rewrite from_records_rows_length in H0.
    destruct ds; [congruence | discriminate]. }
  assert (Hempty0 : Pandas.empty table = false).
  { unfold Pandas.empty.
    destruct (Pandas.columns table); [congruence|].
    destruct (Pandas.rows table); [congruence | reflexivity]. }
  destruct (keyed_total [i] (Pandas.rows table)) as (krs & Hkeyed & Hlen).
  { intros r _. cbn. destruct (key_of_cell_total (Pandas.cell_at i r)) as [k ->].
    now exists [k]. }
  set (df1 := {| Pandas.columns := Pandas.columns table;
                 Pandas.rows := Pandas.keep_first [] krs |}).
  assert (Hdd : Pandas.drop_duplicates table ["id"] = Ok df1).
  { unfold Pandas.drop_duplicates. rewrite Hempty0. cbn [Pandas.subset_indices].
    rewrite Hi. cbn [rbind]. rewrite Hkeyed. reflexivity. }
  assert (Hrows1 : Pandas.rows df1 <> []).
  { apply keep_first_nonempty. intros ->. apply Hrows_ne.
    destruct (Pandas.rows table); [reflexivity | discriminate Hlen]. }
  assert (Hempty1 : Pandas.empty df1 = false).
  { unfold Pandas.empty, df1. cbn [Pandas.columns Pandas.rows].
    destruct (Pandas.columns table); [congruence|].
    destruct (Pandas.keep_first [] krs) eqn:Hk; [|reflexivity].
    unfold df1 in Hrows1. cbn [Pandas.rows] in Hrows1. congruence. }
  assert (Hatt : exists out, attempt e L self = Ok out /\ Pandas.empty out = false).
  { destruct e; cbn [attempt raw date_column] in *;
      unfold Transformer.album_try, Transformer.artist_try, Transformer.song_try;
      rewrite Hraw, mk_DataFrame_records; cbn [rbind]; fold table; rewrite Hdd;
      cbn [rbind].
    2:{ now exists df1. }
    all: match goal with
         | |- context [Pandas.get_column _ ?c] =>
             destruct (Hdate c eq_refl) as [Hhas Hparse];
             apply (from_records_has_column L) in Hhas as [j Hj];
             destruct (date_step_ok L df1 c j Hj Hparse) as (out & Hout & He);
             exists out; split; [exact Hout | congruence]
         end. }
  destruct Hatt as (out & Hout & Hempty).
  exists out. split; [exact Hout|]. split; [|exact Hempty].
  rewrite transform_of_attempt, Hout. reflexivity.
Qed.

Lemma well_formed_records_give_table_witness :
  exists out,
    fst (Transformer.transform_album_data Samples.lib
           {| Transformer.album_data := PList (map PDict Samples.conflicting_albums);
              Transformer.artist_data := PNone; Transformer.song_data := PNone |}) = out /\
    Pandas.empty out = false.
Proof.
  destruct (well_formed_records_give_table Album Samples.lib
              {| Transformer.album_data := PList (map PDict Samples.conflicting_albums);
                 Transformer.artist_data := PNone; Transformer.song_data := PNone |}
              Samples.conflicting_albums eq_refl)
    as (out & _ & Hout & Hempty).
  - discriminate.
  - intros d [<- | [<- | [<- | [<- | []]]]]; (split; [discriminate | eexists; reflexivity]).
  - intros c [= <-]. split.
    + exists Samples.album_first. split; [now left | discriminate].
    + intros col. exists (map Samples.parse_day col). split; [reflexivity | apply length_map].
  - now exists out.
Defined.

(** ** Local sink *)

Lemma assoc_with_file_same (filepath content : string) (fs : list (string * string)) :
  Runtime.assoc filepath (with_file filepath content fs) = Some content.
Proof. unfold with_file. cbn. now rewrite String.eqb_refl. Qed.

Lemma assoc_with_file_other (p filepath content : string) (fs : list (string * string)) :
  p <> filepath ->
  Runtime.assoc p (with_file filepath content fs) = Runtime.assoc p fs.
Proof.
  intros Hne. unfold with_file. cbn.
  rewrite (proj2 (String.eqb_neq p filepath) Hne).
  induction fs as [|[k v] fs IH]; cbn; [reflexivity|].
  destruct (String.eqb k filepath) eqn:Ek; cbn.
  - apply String.eqb_eq in Ek. subst k.
    rewrite (proj2 (String.eqb_neq p filepath) Hne). exact IH.
  - destruct (String.eqb p k); [reflexivity | exact IH].
Qed.

(** The state a successful local save leaves. *)
Lemma validate_and_save_ok (E : Runtime.Ext) (df : Pandas.DataFrame)
    (filepath data_type : string) (w : Runtime.World) :
  Pandas.empty df = false ->
  Runtime.makedirs_error E (target_dir filepath) = None ->
  Runtime.write_error E filepath = None ->
  exists w',
    Loaders._validate_and_save E (Some df) filepath data_type w = (Ok tt, w') /\
    Runtime.files w' =
      with_file filepath (Pandas.to_csv (Runtime.pandas E) df false) (Runtime.files w) /\
    Runtime.dirs w' =
      (if Pandas.mem_str (target_dir filepath) (Runtime.dirs w) then Runtime.dirs w
       else Runtime.dirs w ++ [target_dir filepath])%list /\
    Runtime.s3_objects w' = Runtime.s3_objects w /\
    Runtime.log w' =
      (Runtime.log w ++
       [Info (data_type ++ " data saved to " ++ filepath ++ " with shape " ++
              Pandas.shape_str df)])%list.
Proof.
  intros Hne Hmk Hwr.
  unfold Loaders._validate_and_save, Loaders.os_makedirs, Loaders.write_file,
    Runtime.bind, Runtime.try_except, Runtime.logger_info, Runtime.logger.
  rewrite Hne. fold (target_dir filepath). rewrite Hmk, Hwr.
  eexists. split; [reflexivity|].
  destruct (Pandas.mem_str (target_dir filepath) (Runtime.dirs w)); repeat split.
Qed.

(** X10: saving a non-empty table succeeds when the directory can be made
    and the file written: afterwards the file holds the table's CSV, every
    other file is as before, the file's directory exists, nothing was
    uploaded and one line was logged. *)
Theorem local_save_writes_one_file
    (E : Runtime.Ext) (df : Pandas.DataFrame) (filepath data_type : string)
    (w : Runtime.World) :
  Pandas.empty df = false ->
  Runtime.makedirs_error E (target_dir filepath) = None ->
  Runtime.write_error E filepath = None ->
  exists w',
    Loaders._validate_and_save E (Some df) filepath data_type w = (Ok tt, w') /\
    Runtime.assoc filepath (Runtime.files w') =
      Some (Pandas.to_csv (Runtime.pandas E) df false) /\
    (forall p, p <> filepath ->
               Runtime.assoc p (Runtime.files w') = Runtime.assoc p (Runtime.files w)) /\
    In (target_dir filepath) (Runtime.dirs w') /\
    (forall d, In d (Runtime.dirs w) -> In d (Runtime.dirs w')) /\
    Runtime.s3_objects w' = Runtime.s3_objects w /\
    Runtime.log w' =
      (Runtime.log w ++
       [Info (data_type ++ " data saved to " ++ filepath ++ " with shape " ++
              Pandas.shape_str df)])%list.
Proof.
  intros Hne Hmk Hwr.
  destruct (validate_and_save_ok E df filepath data_type w Hne Hmk Hwr)
    as (w' & Hrun & Hfiles & Hdirs & Hs3 & Hlog).
  exists w'. split; [exact Hrun|]. rewrite Hfiles, Hdirs.
  split; [apply assoc_with_file_same|].
  split; [intros p Hp; now apply assoc_with_file_other|].
  destruct (Pandas.mem_str (target_dir filepath) (Runtime.dirs w)) eqn:Hmem.
  - split; [now apply mem_str_In|]. auto.
  - split; [apply in_or_app; right; now left|].
    split; [intros d Hd; apply in_or_app; now left|]. auto.
Qed.

Lemma local_save_writes_one_file_witness :
  exists w',
    Loaders._validate_and_save (Samples.ext PNone) (Some Samples.album_table)
      "data/album_data_PL1.csv" "Album" Runtime.initial_world = (Ok tt, w') /\
    Runtime.assoc "data/album_data_PL1.csv" (Runtime.files w') =
      Some (Pandas.to_csv Samples.lib Samples.album_table false) /\
    In "data" (Runtime.dirs w').
Proof.
  destruct (local_save_writes_one_file (Samples.ext PNone) Samples.album_table
              "data/album_data_PL1.csv" "Album" Runtime.initial_world
              eq_refl eq_refl eq_refl)
    as (w' & Hrun & Hfile & _ & Hdir & _).
  exists w'. split; [exact Hrun|]. split; [exact Hfile | exact Hdir].
Defined.

Lemma add_dirs_incl (made ds : list string) (d : string) :
  In d ds -> In d (Loaders.add_dirs made ds).
Proof.
  unfold Loaders.add_dirs. revert ds.
  induction made as [|x made IH]; intros ds Hd; cbn; [exact Hd|].
  apply IH. destruct (Pandas.mem_str x ds); [exact Hd|].
  apply in_or_app. now left.
Qed.

Lemma assoc_put_file_same (filepath content : string) (fs : list (string * string)) :
  Runtime.assoc filepath (Loaders.put_file filepath content fs) = Some content.
Proof. exact (assoc_with_file_same filepath content fs). Qed.

Lemma assoc_put_file_other (p filepath content : string) (fs : list (string * string)) :
  p <> filepath ->
  Runtime.assoc p (Loaders.put_file filepath content fs) = Runtime.assoc p fs.
Proof. exact (assoc_with_file_other p filepath content fs). Qed.

(** X11: when the directory cannot be made, the exception leaves
    [_validate_and_save] unlogged; no file and no stored object has
    changed, and the only directories added are the parents the failing
    call had made.  When the file cannot be written, the exception is
    logged and raised again; every other file and every stored object is
    as before, and the file itself is as before if it could not be opened
    and holds the characters written so far if it could. *)
Theorem local_save_failures
    (E : Runtime.Ext) (df : Pandas.DataFrame) (filepath data_type : string)
    (w : Runtime.World) (x : exn) :
  Pandas.empty df = false ->
  (Runtime.makedirs_error E (target_dir filepath) = Some x ->
   exists w',
     Loaders._validate_and_save E (Some df) filepath data_type w = (Raise x, w') /\
     Runtime.files w' = Runtime.files w /\
     Runtime.s3_objects w' = Runtime.s3_objects w /\
     Runtime.log w' = Runtime.log w /\
     Runtime.dirs w' =
       Loaders.add_dirs (Runtime.makedirs_partial E (target_dir filepath))
         (Runtime.dirs w) /\
     (forall d, In d (Runtime.dirs w) -> In d (Runtime.dirs w'))) /\
  (Runtime.makedirs_error E (target_dir filepath) = None ->
   Runtime.write_error E filepath = Some x ->
   exists w',
     Loaders._validate_and_save E (Some df) filepath data_type w = (Raise x, w') /\
     (forall p, p <> filepath ->
                Runtime.assoc p (Runtime.files w') = Runtime.assoc p (Runtime.files w)) /\
     Runtime.assoc filepath (Runtime.files w') =
       match Runtime.write_partial E filepath with
       | None => Runtime.assoc filepath (Runtime.files w)
       | Some n => Some (substring 0 n (Pandas.to_csv (Runtime.pandas E) df false))
       end /\
     (Runtime.write_partial E filepath = None -> Runtime.files w' = Runtime.files w) /\
     Runtime.s3_objects w' = Runtime.s3_objects w /\
     Runtime.log w' =
       (Runtime.log w ++
        [Error ("Failed to save " ++ data_type ++ " data to " ++ filepath ++ ": " ++
                exn_str x)])%list).
Proof.
  intros Hne.
  unfold Loaders._validate_and_save, Loaders.os_makedirs, Loaders.write_file,
    Runtime.bind, Runtime.try_except, Runtime.logger_info, Runtime.logger_error,
    Runtime.logger, Runtime.raise.
  rewrite Hne. fold (target_dir filepath). split.
  - intros ->. eexists. split; [reflexivity|]. cbn.
    repeat (split; [reflexivity|]). intros d. apply add_dirs_incl.
  - intros -> ->. eexists. split; [reflexivity|].
    destruct (Runtime.write_partial E filepath) as [n|];
      destruct (Pandas.mem_str (target_dir filepath) (Runtime.dirs w)); cbn;
      repeat split; try discriminate;
      try (intros p Hp; now apply assoc_put_file_other);
      apply assoc_put_file_same.
Qed.

Lemma local_save_failures_witness :
  exists w',
    Loaders._validate_and_save (Samples.failing_ext "data/a.csv" "closed")
      (Some Samples.album_table) "data/a.csv" "Album" Runtime.initial_world =
      (Raise (OSError "Permission denied"), w') /\
    Runtime.files w' = [].
Proof.
  destruct (proj2 (local_save_failures (Samples.failing_ext "data/a.csv" "closed")
                     Samples.album_table "data/a.csv" "Album" Runtime.initial_world
                     (OSError "Permission denied") eq_refl) eq_refl eq_refl)
    as (w' & Hrun & _ & _ & Hfiles & _).
  exists w'. split; [exact Hrun | exact (Hfiles eq_refl)].
Defined.

(** A write that fails on a full disk after the header line leaves the
    file cut short, where it held another text before. *)
Example full_disk_truncates_file :
  let w := Runtime.set_files [("data/a.csv", "id,name" ++ Pandas.newline ++ "old,text"
                                               ++ Pandas.newline)]
             Runtime.initial_world in
  exists w',
    Loaders._validate_and_save (Samples.full_disk_ext 8)
      (Some Samples.album_table) "data/a.csv" "Album" w =
      (Raise (OSError "No space left on device"), w') /\
    Runtime.files w' = [("data/a.csv", "id,name" ++ Pandas.newline)].
Proof. cbv zeta. eexists. split; reflexivity. Qed.

Lemma string_app_inv_head (a b c : string) : (a ++ b = a ++ c)%string -> b = c.
Proof. induction a as [|x a IH]; cbn; [auto | intros [= H]; auto]. Qed.

Lemma path_join_inj (a b c : string) :
  Loaders.path_join a b = Loaders.path_join a c -> b = c.
Proof.
  unfold Loaders.path_join.
  destruct (String.eqb a ""); [auto|].
  destruct (Loaders.ends_with_slash a); intros H; apply string_app_inv_head in H;
    [exact H | now injection H].
Qed.

(** X12: [load_all] writes the album, artist and song tables, in that
    order, to [albums.csv], [artists.csv] and [songs.csv] under [base_dir];
    when all three are non-empty and the file system accepts the writes,
    the three files hold the three CSV texts. *)
Theorem load_all_writes_three_files
    (E : Runtime.Ext) (self : Loaders.LoadDataLocal) (base_dir : string)
    (albums artists songs : Pandas.DataFrame) (w : Runtime.World) :
  Loaders.album_df self = Some albums ->
  Loaders.artist_df self = Some artists ->
  Loaders.song_df self = Some songs ->
  Pandas.empty albums = false ->
  Pandas.empty artists = false ->
  Pandas.empty songs = false ->
  (forall d, Runtime.makedirs_error E d = None) ->
  (forall p, Runtime.write_error E p = None) ->
  exists w',
    Loaders.load_all E self base_dir w = (Ok tt, w') /\
    Runtime.assoc (Loaders.path_join base_dir "albums.csv") (Runtime.files w') =
      Some (Pandas.to_csv (Runtime.pandas E) albums false) /\
    Runtime.assoc (Loaders.path_join base_dir "artists.csv") (Runtime.files w') =
      Some (Pandas.to_csv (Runtime.pandas E) artists false) /\
    Runtime.assoc (Loaders.path_join base_dir "songs.csv") (Runtime.files w') =
      Some (Pandas.to_csv (Runtime.pandas E) songs false) /\
    Runtime.s3_objects w' = Runtime.s3_objects w.
Proof.
  intros Ha Hr Hs Hea Her Hes Hmk Hwr.
  unfold Loaders.load_all, Loaders.load_album_data, Loaders.load_artist_data,
    Loaders.load_song_data, Runtime.bind.
  rewrite Ha, Hr, Hs.
  destruct (validate_and_save_ok E albums (Loaders.path_join base_dir "albums.csv")
              "Album" w Hea (Hmk _) (Hwr _)) as (w1 & -> & Hf1 & _ & Hs1 & _).
  destruct (validate_and_save_ok E artists (Loaders.path_join base_dir "artists.csv")
              "Artist" w1 Her (Hmk _) (Hwr _)) as (w2 & -> & Hf2 & _ & Hs2 & _).
  destruct (validate_and_save_ok E songs (Loaders.path_join base_dir "songs.csv")
              "Song" w2 Hes (Hmk _) (Hwr _)) as (w3 & -> & Hf3 & _ & Hs3 & _).
  eexists. split; [reflexivity|]. cbn [Runtime.logger_info Runtime.logger snd].
  cbn. rewrite Hf3, Hf2, Hf1, Hs3, Hs2, Hs1.
  assert (Hne : forall b c, b <> c ->
                  Loaders.path_join base_dir b <> Loaders.path_join base_dir c)
    by (intros b c Hbc H; apply Hbc, (path_join_inj base_dir), H).
  repeat split.
  - rewrite !assoc_with_file_other by (apply Hne; discriminate).
    apply assoc_with_file_same.
  - rewrite assoc_with_file_other by (apply Hne; discriminate).
    apply assoc_with_file_same.
  - apply assoc_with_file_same.
Qed.

Lemma load_all_writes_three_files_witness :
  exists w',
    Loaders.load_all (Samples.ext PNone)
      {| Loaders.album_df := Some Samples.album_table;
         Loaders.artist_df := Some Samples.album_table;
         Loaders.song_df := Some Samples.album_table |} "out" Runtime.initial_world
    = (Ok tt, w') /\
    Runtime.assoc "out/songs.csv" (Runtime.files w') =
      Some (Pandas.to_csv Samples.lib Samples.album_table false).
Proof.
  destruct (load_all_writes_three_files (Samples.ext PNone)
              {| Loaders.album_df := Some Samples.album_table;
                 Loaders.artist_df := Some Samples.album_table;
                 Loaders.song_df := Some Samples.album_table |} "out"
              Samples.album_table Samples.album_table Samples.album_table
              Runtime.initial_world eq_refl eq_refl eq_refl eq_refl eq_refl eq_refl
              (fun _ => eq_refl) (fun _ => eq_refl))
    as (w' & Hrun & _ & _ & Hsongs & _).
  exists w'. split; [exact Hrun | exact Hsongs].
Defined.

(** X13: [load_all] is not atomic: when the album table is written and the
    artist table is missing or empty, the call raises the artist sink's
    [ValueError] with the album file already in place and the song file
    untouched. *)
Theorem load_all_stops_at_first_missing_table
    (E : Runtime.Ext) (self : Loaders.LoadDataLocal) (base_dir : string)
    (albums : Pandas.DataFrame) (w : Runtime.World) :
  Loaders.album_df self = Some albums ->
  Pandas.empty albums = false ->
  missing (Loaders.artist_df self) = true ->
  Runtime.makedirs_error E (target_dir (Loaders.path_join base_dir "albums.csv")) = None ->
  Runtime.write_error E (Loaders.path_join base_dir "albums.csv") = None ->
  exists w',
    Loaders.load_all E self base_dir w =
      (Raise (ValueError "No Artist data to save"), w') /\
    Runtime.assoc (Loaders.path_join base_dir "albums.csv") (Runtime.files w') =
      Some (Pandas.to_csv (Runtime.pandas E) albums false) /\
    Runtime.assoc (Loaders.path_join base_dir "songs.csv") (Runtime.files w') =
      Runtime.assoc (Loaders.path_join base_dir "songs.csv") (Runtime.files w).
Proof.
  intros Ha Hea Hmiss Hmk Hwr.
  unfold Loaders.load_all, Loaders.load_album_data, Loaders.load_artist_data,
    Runtime.bind.
  rewrite Ha.
  destruct (validate_and_save_ok E albums (Loaders.path_join base_dir "albums.csv")
              "Album" w Hea Hmk Hwr) as (w1 & -> & Hf1 & _).
  rewrite (validate_and_save_rejects E _ _ "Artist" w1 Hmiss).
  eexists. split; [reflexivity|]. cbn. rewrite Hf1. split.
  - apply assoc_with_file_same.
  - apply assoc_with_file_other. intros H. apply path_join_inj in H. discriminate.
Qed.

Lemma load_all_stops_at_first_missing_table_witness :
  exists w',
    Loaders.load_all (Samples.ext PNone)
      {| Loaders.album_df := Some Samples.album_table;
         Loaders.artist_df := Some Pandas.empty_frame;
         Loaders.song_df := Some Samples.album_table |} "out" Runtime.initial_world
    = (Raise (ValueError "No Artist data to save"), w') /\
    Runtime.assoc "out/albums.csv" (Runtime.files w') =
      Some (Pandas.to_csv Samples.lib Samples.album_table false) /\
    Runtime.assoc "out/songs.csv" (Runtime.files w') = None.
Proof.
  exact (load_all_stops_at_first_missing_table (Samples.ext PNone)
           {| Loaders.album_df := Some Samples.album_table;
              Loaders.artist_df := Some Pandas.empty_frame;
              Loaders.song_df := Some Samples.album_table |} "out"
           Samples.album_table Runtime.initial_world
           eq_refl eq_refl eq_refl eq_refl eq_refl).
Defined.

(** ** Cloud sink *)

Lemma validate_and_upload_ok (E : Runtime.Ext) (self : Loaders.LoadDataS3)
    (df : Pandas.DataFrame) (s3_key data_type : string) (c : nat) (w : Runtime.World) :
  Pandas.empty df = false ->
  Loaders.s3_client self = Some c ->
  Runtime.put_object_error E c (Loaders.bucket_name self) s3_key = None ->
  exists w',
    Loaders._validate_and_upload E self (Some df) s3_key data_type w =
      (Ok ("s3://" ++ Loaders.bucket_name self ++ "/" ++ s3_key), w') /\
    Runtime.s3_objects w' =
      (Runtime.s3_objects w ++ [csv_object E (Loaders.bucket_name self) s3_key df])%list /\
    Runtime.files w' = Runtime.files w /\
    Runtime.dirs w' = Runtime.dirs w /\
    Runtime.clock w' = Runtime.clock w /\
    Runtime.log w' =
      (Runtime.log w ++
       [Info (data_type ++ " data uploaded to " ++
              ("s3://" ++ Loaders.bucket_name self ++ "/" ++ s3_key) ++
              " with shape " ++ Pandas.shape_str df)])%list.
Proof.
  intros Hne Hc Hput.
  unfold Loaders._validate_and_upload, Loaders.put_object, Runtime.bind,
    Runtime.try_except, Runtime.logger_info, Runtime.logger, Runtime.ret.
  rewrite Hne, Hc. cbn [Runtime.Bucket Runtime.Key]. rewrite Hput.
  eexists. split; [reflexivity|]. repeat split.
Qed.

(** X14: uploading a non-empty table through a connected client stores
    exactly one more object -- the table's CSV under the given bucket and
    key, declared as [text/csv] -- and returns its [s3://bucket/key] URI;
    no local file is touched. *)
Theorem cloud_upload_stores_one_object
    (E : Runtime.Ext) (self : Loaders.LoadDataS3)
    (df : Pandas.DataFrame) (s3_key data_type : string) (c : nat) (w : Runtime.World) :
  Pandas.empty df = false ->
  Loaders.s3_client self = Some c ->
  Runtime.put_object_error E c (Loaders.bucket_name self) s3_key = None ->
  exists w',
    Loaders._validate_and_upload E self (Some df) s3_key data_type w =
      (Ok ("s3://" ++ Loaders.bucket_name self ++ "/" ++ s3_key), w') /\
    Runtime.s3_objects w' =
      (Runtime.s3_objects w ++
       [{| Runtime.Bucket := Loaders.bucket_name self; Runtime.Key := s3_key;
           Runtime.Body := Pandas.to_csv (Runtime.pandas E) df false;
           Runtime.ContentType := "text/csv" |}])%list /\
    Runtime.files w' = Runtime.files w /\
    Runtime.dirs w' = Runtime.dirs w.
Proof.
  intros Hne Hc Hput.
  destruct (validate_and_upload_ok E self df s3_key data_type c w Hne Hc Hput)
    as (w' & Hrun & Hobjs & Hfiles & Hdirs & _).
  exists w'. auto.
Qed.

Lemma cloud_upload_stores_one_object_witness :
  exists w',
    Loaders._validate_and_upload (Samples.ext PNone)
      {| Loaders.s3_album_df := None; Loaders.s3_artist_df := None;
         Loaders.s3_song_df := None; Loaders.s3_client := Some 2;
         Loaders.bucket_name := "bkt" |}
      (Some Samples.album_table) "k.csv" "Album" Runtime.initial_world =
      (Ok "s3://bkt/k.csv", w') /\
    List.length (Runtime.s3_objects w') = 1.
Proof.
  destruct (cloud_upload_stores_one_object (Samples.ext PNone)
              {| Loaders.s3_album_df := None; Loaders.s3_artist_df := None;
                 Loaders.s3_song_df := None; Loaders.s3_client := Some 2;
                 Loaders.bucket_name := "bkt" |}
              Samples.album_table "k.csv" "Album" 2 Runtime.initial_world
              eq_refl eq_refl eq_refl)
    as (w' & Hrun & Hobjs & _).
  exists w'. split; [exact Hrun|]. rewrite Hobjs. reflexivity.
Defined.

(** X15: when the client refuses the object, or the loader holds no
    client, the upload's exception is logged and raised again, and nothing
    is stored. *)
Theorem cloud_upload_failures
    (E : Runtime.Ext) (self : Loaders.LoadDataS3)
    (df : Pandas.DataFrame) (s3_key data_type : string) (w : Runtime.World) :
  Pandas.empty df = false ->
  forall x,
    (Loaders.s3_client self = None /\
     x = AttributeError "'NoneType' object has no attribute 'put_object'") \/
    (exists c, Loaders.s3_client self = Some c /\
               Runtime.put_object_error E c (Loaders.bucket_name self) s3_key = Some x) ->
    exists w',
      Loaders._validate_and_upload E self (Some df) s3_key data_type w = (Raise x, w') /\
      Runtime.s3_objects w' = Runtime.s3_objects w /\
      Runtime.files w' = Runtime.files w /\
      Runtime.log w' =
        (Runtime.log w ++
         [Error ("Failed to upload " ++ data_type ++ " data to S3: " ++ exn_str x)])%list.
Proof.
  intros Hne x Hx.
  unfold Loaders._validate_and_upload, Loaders.put_object, Runtime.bind,
    Runtime.try_except, Runtime.logger_info, Runtime.logger_error, Runtime.logger,
    Runtime.ret, Runtime.raise.
  rewrite Hne. destruct Hx as [[-> ->] | (c & -> & Hput)].
  - eexists. split; [reflexivity|]. repeat split.
  - cbn [Runtime.Bucket Runtime.Key]. rewrite Hput.
    eexists. split; [reflexivity|]. repeat split.
Qed.

Lemma cloud_upload_failures_witness :
  exists w',
    Loaders._validate_and_upload (Samples.failing_ext "" "closed")
      {| Loaders.s3_album_df := None; Loaders.s3_artist_df := None;
         Loaders.s3_song_df := None; Loaders.s3_client := Some 2;
         Loaders.bucket_name := "closed" |}
      (Some Samples.album_table) "k.csv" "Album" Runtime.initial_world =
      (Raise (LibraryError "NoSuchBucket"), w') /\
    Runtime.s3_objects w' = [].
Proof.
  destruct (cloud_upload_failures (Samples.failing_ext "" "closed")
              {| Loaders.s3_album_df := None; Loaders.s3_artist_df := None;
                 Loaders.s3_song_df := None; Loaders.s3_client := Some 2;
                 Loaders.bucket_name := "closed" |}
              Samples.album_table "k.csv" "Album" Runtime.initial_world eq_refl
              (LibraryError "NoSuchBucket")
              (or_intror (ex_intro _ 2 (conj eq_refl eq_refl))))
    as (w' & Hrun & Hobjs & _).
  exists w'. split; [exact Hrun | exact Hobjs].
Defined.

Lemma load_all_to_s3_ok
    (E : Runtime.Ext) (self : Loaders.LoadDataS3) (prefix : string)
    (albums artists songs : Pandas.DataFrame) (c : nat) (w : Runtime.World) :
  Loaders.s3_album_df self = Some albums ->
  Loaders.s3_artist_df self = Some artists ->
  Loaders.s3_song_df self = Some songs ->
  Pandas.empty albums = false ->
  Pandas.empty artists = false ->
  Pandas.empty songs = false ->
  Loaders.s3_client self = Some c ->
  (forall b k, Runtime.put_object_error E c b k = None) ->
  let n := Runtime.clock w in
  let bucket := Loaders.bucket_name self in
  let ka := stamped_key E prefix "albums" n in
  let kr := stamped_key E prefix "artists" (S n) in
  let ks := stamped_key E prefix "songs" (S (S n)) in
  exists w',
    Loaders.load_all_to_s3 E self prefix w =
      (Ok [("albums", "s3://" ++ bucket ++ "/" ++ ka);
           ("artists", "s3://" ++ bucket ++ "/" ++ kr);
           ("songs", "s3://" ++ bucket ++ "/" ++ ks)], w') /\
    Runtime.s3_objects w' =
      (Runtime.s3_objects w ++
       [csv_object E bucket ka albums; csv_object E bucket kr artists;
        csv_object E bucket ks songs])%list /\
    Runtime.files w' = Runtime.files w /\
    Runtime.clock w' = S (S (S n)).
Proof.
  intros Ha Hr Hs Hea Her Hes Hc Hput n bucket ka kr ks.
  unfold Loaders.load_all_to_s3, Loaders.load_album_data_to_s3,
    Loaders.load_artist_data_to_s3, Loaders.load_song_data_to_s3,
    Loaders.timestamp_now, Runtime.bind.
  rewrite Ha, Hr, Hs.
  destruct (validate_and_upload_ok E self albums ka "Album" c
              (Runtime.set_clock (S (Runtime.clock w)) w) Hea Hc (Hput _ _))
    as (w1 & H1 & Ho1 & Hf1 & _ & Hc1 & _).
  unfold ka, stamped_key, n in H1. cbn [String.append] in H1 |- *. rewrite H1. rewrite Hc1. cbn [Runtime.set_clock Runtime.clock].
  destruct (validate_and_upload_ok E self artists kr "Artist" c
              (Runtime.set_clock (S (S (Runtime.clock w))) w1) Her Hc (Hput _ _))
    as (w2 & H2 & Ho2 & Hf2 & _ & Hc2 & _).
  unfold kr, stamped_key, n in H2. cbn [String.append] in H2 |- *. rewrite H2. rewrite Hc2. cbn [Runtime.set_clock Runtime.clock].
  destruct (validate_and_upload_ok E self songs ks "Song" c
              (Runtime.set_clock (S (S (S (Runtime.clock w)))) w2) Hes Hc (Hput _ _))
    as (w3 & H3 & Ho3 & Hf3 & _ & Hc3 & _).
  unfold ks, stamped_key, n in H3. cbn [String.append] in H3 |- *. rewrite H3.
  eexists. split; [reflexivity|]. cbn.
  rewrite Ho3, Hf3, Hc3. cbn. rewrite Ho2, Hf2. cbn. rewrite Ho1, Hf1. cbn.
  rewrite <- !app_assoc. repeat split.
Qed.

(** X16: [load_all_to_s3] uploads the album, artist and song tables in
    that order, each under a key stamped with the time read just before
    its upload, and returns the three URIs under the names [albums],
    [artists] and [songs]. *)
Theorem load_all_to_s3_uploads_three_objects
    (E : Runtime.Ext) (self : Loaders.LoadDataS3) (prefix : string)
    (albums artists songs : Pandas.DataFrame) (c : nat) (w : Runtime.World) :
  Loaders.s3_album_df self = Some albums ->
  Loaders.s3_artist_df self = Some artists ->
  Loaders.s3_song_df self = Some songs ->
  Pandas.empty albums = false ->
  Pandas.empty artists = false ->
  Pandas.empty songs = false ->
  Loaders.s3_client self = Some c ->
  (forall b k, Runtime.put_object_error E c b k = None) ->
  let n := Runtime.clock w in
  let bucket := Loaders.bucket_name self in
  let ka := stamped_key E prefix "albums" n in
  let kr := stamped_key E prefix "artists" (S n) in
  let ks := stamped_key E prefix "songs" (S (S n)) in
  exists w',
    Loaders.load_all_to_s3 E self prefix w =
      (Ok [("albums", "s3://" ++ bucket ++ "/" ++ ka);
           ("artists", "s3://" ++ bucket ++ "/" ++ kr);
           ("songs", "s3://" ++ bucket ++ "/" ++ ks)], w') /\
    Runtime.s3_objects w' =
      (Runtime.s3_objects w ++
       [csv_object E bucket ka albums; csv_object E bucket kr artists;
        csv_object E bucket ks songs])%list /\
    Runtime.files w' = Runtime.files w /\
    Runtime.clock w' = S (S (S n)).
Proof.
  intros Ha Hr Hs Hea Her Hes Hc Hput.
  exact (load_all_to_s3_ok E self prefix albums artists songs c w
           Ha Hr Hs Hea Her Hes Hc Hput).
Qed.

Lemma load_all_to_s3_uploads_three_objects_witness :
  exists w',
    Loaders.load_all_to_s3 (Samples.ext PNone)
      {| Loaders.s3_album_df := Some Samples.album_table;
         Loaders.s3_artist_df := Some Samples.album_table;
         Loaders.s3_song_df := Some Samples.album_table;
         Loaders.s3_client := Some 2; Loaders.bucket_name := "bkt" |}
      Loaders.default_prefix Runtime.initial_world =
      (Ok [("albums", "s3://bkt/processed-data/spotify/albums/albums_2025-01-01_00-00-00.csv");
           ("artists", "s3://bkt/processed-data/spotify/artists/artists_2025-01-01_00-00-01.csv");
           ("songs", "s3://bkt/processed-data/spotify/songs/songs_2025-01-01_00-00-02.csv")],
       w') /\
    List.length (Runtime.s3_objects w') = 3.
Proof.
  destruct (load_all_to_s3_uploads_three_objects (Samples.ext PNone)
              {| Loaders.s3_album_df := Some Samples.album_table;
                 Loaders.s3_artist_df := Some Samples.album_table;
                 Loaders.s3_song_df := Some Samples.album_table;
                 Loaders.s3_client := Some 2; Loaders.bucket_name := "bkt" |}
              Loaders.default_prefix Samples.album_table Samples.album_table
              Samples.album_table 2 Runtime.initial_world
              eq_refl eq_refl eq_refl eq_refl eq_refl eq_refl eq_refl
              (fun _ _ => eq_refl))
    as (w' & Hrun & Hobjs & _).
  exists w'. split; [exact Hrun|]. rewrite Hobjs. reflexivity.
Defined.

(** X17: [load_all_to_s3] is not atomic either: with the album table
    uploaded and the artist table missing or empty it raises the artist
    sink's [ValueError], leaving exactly the album object stored. *)
Theorem load_all_to_s3_stops_at_first_missing_table
    (E : Runtime.Ext) (self : Loaders.LoadDataS3) (prefix : string)
    (albums : Pandas.DataFrame) (c : nat) (w : Runtime.World) :
  Loaders.s3_album_df self = Some albums ->
  Pandas.empty albums = false ->
  missing (Loaders.s3_artist_df self) = true ->
  Loaders.s3_client self = Some c ->
  Runtime.put_object_error E c (Loaders.bucket_name self)
    (stamped_key E prefix "albums" (Runtime.clock w)) = None ->
  exists w',
    Loaders.load_all_to_s3 E self prefix w =
      (Raise (ValueError "No Artist data to upload"), w') /\
    Runtime.s3_objects w' =
      (Runtime.s3_objects w ++
       [csv_object E (Loaders.bucket_name self)
          (stamped_key E prefix "albums" (Runtime.clock w)) albums])%list.
Proof.
  intros Ha Hea Hmiss Hc Hput.
  unfold Loaders.load_all_to_s3, Loaders.load_album_data_to_s3,
    Loaders.load_artist_data_to_s3, Loaders.timestamp_now, Runtime.bind.
  rewrite Ha.
  destruct (validate_and_upload_ok E self albums
              (stamped_key E prefix "albums" (Runtime.clock w)) "Album" c
              (Runtime.set_clock (S (Runtime.clock w)) w) Hea Hc Hput)
    as (w1 & H1 & Ho1 & _).
  unfold stamped_key in H1. cbn [String.append] in H1 |- *. rewrite H1.
  rewrite (validate_and_upload_rejects E self _ _ "Artist" _ Hmiss).
  eexists. split; [reflexivity|]. cbn. exact Ho1.
Qed.

Lemma load_all_to_s3_stops_at_first_missing_table_witness :
  exists w',
    Loaders.load_all_to_s3 (Samples.ext PNone)
      {| Loaders.s3_album_df := Some Samples.album_table;
         Loaders.s3_artist_df := None;
         Loaders.s3_song_df := Some Samples.album_table;
         Loaders.s3_client := Some 2; Loaders.bucket_name := "bkt" |}
      Loaders.default_prefix Runtime.initial_world =
      (Raise (ValueError "No Artist data to upload"), w') /\
    List.length (Runtime.s3_objects w') = 1.
Proof.
  destruct (load_all_to_s3_stops_at_first_missing_table (Samples.ext PNone)
              {| Loaders.s3_album_df := Some Samples.album_table;
                 Loaders.s3_artist_df := None;
                 Loaders.s3_song_df := Some Samples.album_table;
                 Loaders.s3_client := Some 2; Loaders.bucket_name := "bkt" |}
              Loaders.default_prefix Samples.album_table 2 Runtime.initial_world
              eq_refl eq_refl eq_refl eq_refl eq_refl)
    as (w' & Hrun & Hobjs).
  exists w'. split; [exact Hrun|]. rewrite Hobjs. reflexivity.
Defined.

(** ** Connectors: the registry *)

(** What a connect method returns when it returns: the same object with a
    client or, for the catalog class only, without one. *)
Lemma connect_result (E : Runtime.Ext) (b : Runtime.backend) (self inst : Runtime.Connection)
    (w w' : Runtime.World) :
  Connectors.connect E b self w = (Ok inst, w') ->
  Runtime.cls inst = Runtime.cls self /\
  Runtime.obj_id inst = Runtime.obj_id self /\
  Runtime.config inst = Runtime.config self /\
  Runtime.next_obj w' = Runtime.next_obj w /\
  (b <> Runtime.Spotify -> Runtime.client inst <> None).
Proof.
  unfold Connectors.connect, Connectors.connectAPI, Connectors.connect_to_s3,
    Connectors.connect_to_database, Runtime.bind, Runtime.try_except, Runtime.lift,
    Runtime.ret, Runtime.raise, Runtime.logger_info, Runtime.logger_error,
    Runtime.logger.
  destruct b; cbn; repeat (run_step; cbn); intros [= <- <-]; cbn;
    repeat split; try congruence; try discriminate.
Qed.

Lemma connect_next_obj (E : Runtime.Ext) (b : Runtime.backend) (self : Runtime.Connection)
    (w : Runtime.World) :
  Runtime.next_obj (snd (Connectors.connect E b self w)) = Runtime.next_obj w.
Proof.
  unfold Connectors.connect, Connectors.connectAPI, Connectors.connect_to_s3,
    Connectors.connect_to_database, Runtime.bind, Runtime.try_except, Runtime.lift,
    Runtime.ret, Runtime.raise, Runtime.logger_info, Runtime.logger_error,
    Runtime.logger.
  destruct b; cbn; repeat (run_step; cbn); reflexivity.
Qed.

(** X18: the first successful [get_instance] of a class returns a new
    object of that class that carries the configuration passed in, and
    registers it; for the storage and database classes the object holds a
    connected client. *)
Theorem first_get_instance_creates_and_registers
    (E : Runtime.Ext) (b : Runtime.backend) (cfg : option Runtime.Config)
    (w w' : Runtime.World) (inst : Runtime.Connection) :
  Runtime.instance_of b w = None ->
  Connectors.get_instance E b cfg w = (Ok inst, w') ->
  Runtime.cls inst = b /\
  Runtime.config inst = cfg /\
  Runtime.obj_id inst = Runtime.next_obj w /\
  Runtime.next_obj w' = S (Runtime.next_obj w) /\
  Runtime.instance_of b w' = Some inst /\
  (b <> Runtime.Spotify -> Runtime.client inst <> None).
Proof.
  intros Hnone Hget.
  pose proof (get_instance_registers E b cfg w w' inst Hget) as Hreg.
  unfold Connectors.get_instance, Connectors.construct, Connectors.new_object,
    Runtime.bind in Hget.
  rewrite Hnone in Hget. cbn in Hget.
  replace (Runtime.instance_of b (Runtime.set_next_obj (S (Runtime.next_obj w)) w))
    with (Runtime.instance_of b w) in Hget by (destruct b; reflexivity).
  rewrite Hnone in Hget.
  destruct (Connectors.connect E b _ _) as [[c|x] w1] eqn:Hconn; [|discriminate].
  cbn in Hget. injection Hget as <- <-.
  destruct (connect_result E b _ _ _ _ Hconn) as (Hcls & Hid & Hcfg & Hnext & Hcl).
  cbn in Hcls, Hid, Hcfg, Hnext.
  repeat split; assumption.
Qed.

Lemma first_get_instance_creates_and_registers_witness :
  exists inst w',
    Connectors.get_instance (Samples.ext PNone) Runtime.S3 (Some Samples.config_ini)
      Runtime.initial_world = (Ok inst, w') /\
    Runtime.config inst = Some Samples.config_ini /\
    Runtime.instance_of Runtime.S3 w' = Some inst.
Proof.
  eexists _, _. split; [reflexivity|].
  destruct (first_get_instance_creates_and_registers (Samples.ext PNone) Runtime.S3
              (Some Samples.config_ini) Runtime.initial_world _ _ eq_refl eq_refl)
    as (_ & Hcfg & _ & _ & Hreg & _).
  split; [exact Hcfg | exact Hreg].
Defined.

(** X19: [get_instance] of the catalog class never raises; when
    [get_instance] of another class raises, no class's registered instance
    has changed, so the failed connection is not cached and the next call
    connects again. *)
Theorem failed_get_instance_registers_nothing
    (E : Runtime.Ext) (b : Runtime.backend) (cfg : option Runtime.Config)
    (w w' : Runtime.World) (x : exn) :
  Connectors.get_instance E b cfg w = (Raise x, w') ->
  b <> Runtime.Spotify /\
  forall b', Runtime.instance_of b' w' = Runtime.instance_of b' w.
Proof.
  unfold Connectors.get_instance, Runtime.bind.
  destruct (Runtime.instance_of b w) as [i|] eqn:Hi; cbn -[Connectors.construct];
    [discriminate|].
  pose proof (fun b' => construct_keeps_registry E b' b cfg w) as Hk.
  destruct (Connectors.construct E b cfg w) as [[c|x'] w1] eqn:Hc;
    cbn in *; [discriminate|].
  intros [= <- <-]. split; [|exact Hk].
  intros ->. revert Hc.
  unfold Connectors.construct, Connectors.new_object, Connectors.connect,
    Connectors.connectAPI, Runtime.bind, Runtime.try_except, Runtime.lift,
    Runtime.ret, Runtime.raise, Runtime.logger_info, Runtime.logger.
  cbn in Hi |- *. rewrite Hi. repeat (run_step; cbn); discriminate.
Qed.

Lemma failed_get_instance_registers_nothing_witness :
  exists x w',
    Connectors.get_instance (Samples.failing_ext "" "") Runtime.S3
      (Some Samples.config_ini) Runtime.initial_world = (Raise x, w') /\
    Runtime.instance_of Runtime.S3 w' = None.
Proof.
  eexists _, _. split; [reflexivity|].
  apply (failed_get_instance_registers_nothing (Samples.failing_ext "" "") Runtime.S3
           (Some Samples.config_ini) Runtime.initial_world _ _ eq_refl).
Defined.

(** X20: when the credentials are missing or the catalog client cannot be
    built, [get_instance] of the catalog class still returns and registers
    an instance, one without client; every later [get_playlist_track] on it
    raises [Spotify client not initialized] without calling the API. *)
Theorem spotify_connect_failure_is_swallowed
    (E : Runtime.Ext) (cfg : option Runtime.Config) (w : Runtime.World) (x : exn) :
  Runtime.instance_of Runtime.Spotify w = None ->
  spotify_login E cfg = Raise x ->
  exists inst w',
    Connectors.get_instance E Runtime.Spotify cfg w = (Ok inst, w') /\
    Runtime.client inst = None /\
    Runtime.instance_of Runtime.Spotify w' = Some inst /\
    Runtime.log w' =
      (Runtime.log w ++ [Info ("API connection got some Error " ++ exn_str x)])%list /\
    forall playlist_id w0,
      Connectors.get_playlist_track E inst playlist_id w0 =
      (Raise (PlainException "Spotify client not initialized"), w0).
Proof.
  intros Hnone Hlogin.
  unfold Connectors.get_instance, Connectors.construct, Connectors.new_object,
    Connectors.connect, Connectors.connectAPI, Runtime.bind, Runtime.try_except,
    Runtime.lift, Runtime.ret, Runtime.raise, Runtime.logger_info, Runtime.logger.
  cbn in Hnone |- *. rewrite Hnone. cbn.
  unfold spotify_login in Hlogin.
  destruct (Runtime.config_get cfg "spotify-auth" "CLIENT_ID") as [cid|x1];
    [destruct (Runtime.config_get cfg "spotify-auth" "CLIENT_SECRET_KEY") as [sec|x2];
     [rewrite Hlogin|] |];
    cbn; rewrite ?Hnone; cbn; injection Hlogin as <- || idtac;
    eexists _, _; (split; [reflexivity|]); cbn; repeat split.
Qed.

Lemma spotify_connect_failure_is_swallowed_witness :
  exists inst w',
    Connectors.get_instance (Samples.failing_ext "" "") Runtime.Spotify
      (Some Samples.config_ini) Runtime.initial_world = (Ok inst, w') /\
    Runtime.client inst = None /\
    Runtime.instance_of Runtime.Spotify w' = Some inst.
Proof.
  destruct (spotify_connect_failure_is_swallowed (Samples.failing_ext "" "")
              (Some Samples.config_ini) Runtime.initial_world
              (LibraryError "spotipy unavailable") eq_refl eq_refl)
    as (inst & w' & Hget & Hcl & Hreg & _).
  now exists inst, w'.
Defined.

Lemma construct_next_obj (E : Runtime.Ext) (b : Runtime.backend)
    (cfg : option Runtime.Config) (w : Runtime.World) :
  Runtime.next_obj (snd (Connectors.construct E b cfg w)) = S (Runtime.next_obj w).
Proof.
  unfold Connectors.construct, Connectors.new_object, Runtime.bind. cbn.
  destruct (Runtime.instance_of b (Runtime.set_next_obj _ w)); [reflexivity|].
  rewrite connect_next_obj. reflexivity.
Qed.

Lemma construct_result (E : Runtime.Ext) (b : Runtime.backend)
    (cfg : option Runtime.Config) (w w' : Runtime.World) (inst : Runtime.Connection) :
  Connectors.construct E b cfg w = (Ok inst, w') ->
  Runtime.cls inst = b /\ Runtime.obj_id inst = Runtime.next_obj w /\
  Runtime.config inst = cfg /\
  (b <> Runtime.Spotify -> Runtime.client inst <> None).
Proof.
  unfold Connectors.construct, Connectors.new_object, Runtime.bind. cbn.
  destruct (Runtime.instance_of b (Runtime.set_next_obj _ w)); [discriminate|].
  intros H. apply connect_result in H as (H1 & H2 & H3 & _ & H5). auto.
Qed.

Lemma backend_eq_dec (b b' : Runtime.backend) : {b = b'} + {b <> b'}.
Proof. decide equality. Defined.

Lemma registry_ok_run_call (E : Runtime.Ext) (c : call) (w : Runtime.World) :
  registry_ok w -> registry_ok (run_call E c w).
Proof.
  intros Hok b inst.
  destruct c as [b' cfg | b' cfg]; cbn -[Connectors.construct Connectors.get_instance].
  - unfold Connectors.get_instance, Runtime.bind.
    destruct (Runtime.instance_of b' w) as [i|] eqn:Hi;
      cbn -[Connectors.construct]; [apply Hok|].
    pose proof (construct_keeps_registry E b b' cfg w) as Hk.
    pose proof (construct_next_obj E b' cfg w) as Hn.
    destruct (Connectors.construct E b' cfg w) as [[conn|x] w1] eqn:Hc; cbn in *.
    + destruct (construct_result E b' cfg w w1 conn Hc) as (H1 & H2 & _ & H4).
      rewrite Hn.
      destruct (backend_eq_dec b b') as [-> | Hne].
      * replace (Runtime.instance_of b' (Runtime.set_instance b' (Some conn) w1))
          with (Some conn) by (destruct b'; reflexivity).
        intros [= <-]. repeat split; [exact H1 | lia | exact H4].
      * rewrite set_instance_other by exact Hne. rewrite Hk. intros Hb.
        destruct (Hok b inst Hb) as (? & ? & ?). repeat split; auto; lia.
    + rewrite Hk, Hn. intros Hb.
      destruct (Hok b inst Hb) as (? & ? & ?). repeat split; auto; lia.
  - rewrite construct_keeps_registry, construct_next_obj. intros Hb.
    destruct (Hok b inst Hb) as (? & ? & ?). repeat split; auto; lia.
Qed.

(** X21: in a process that starts without connectors and only calls
    [get_instance] and the constructors, every registered instance is an
    instance of the class it is registered for, and a registered storage or
    database instance always holds a client. *)
Theorem registry_invariant (E : Runtime.Ext) (calls : list call) :
  registry_ok (run_calls E calls Runtime.initial_world).
Proof.
  unfold run_calls. rewrite <- fold_left_rev_right.
  induction (rev calls) as [|c cs IH]; cbn -[run_call].
  - intros b inst H. destruct b; discriminate H.
  - apply registry_ok_run_call, IH.
Qed.

(** X22: the classes' registries are independent: [get_instance] of one
    class never changes the registered instance of another, and a
    constructor call changes none at all. *)
Theorem registries_are_independent
    (E : Runtime.Ext) (c : call) (b : Runtime.backend) (w : Runtime.World) :
  match c with
  | GetInstance b' _ => b' <> b
  | Construct _ _ => True
  end ->
  Runtime.instance_of b (run_call E c w) = Runtime.instance_of b w.
Proof.
  destruct c as [b' cfg | b' cfg]; cbn -[Connectors.construct Connectors.get_instance];
    intros Hne.
  - unfold Connectors.get_instance, Runtime.bind.
    destruct (Runtime.instance_of b' w) as [i|] eqn:Hi;
      cbn -[Connectors.construct]; [reflexivity|].
    pose proof (construct_keeps_registry E b b' cfg w) as Hk.
    destruct (Connectors.construct E b' cfg w) as [[conn|x] w1]; cbn in *.
    + rewrite set_instance_other by congruence. exact Hk.
    + exact Hk.
  - apply construct_keeps_registry.
Qed.

Lemma registries_are_independent_witness :
  Runtime.instance_of Runtime.MySql
    (run_call (Samples.ext PNone) (GetInstance Runtime.S3 (Some Samples.config_ini))
       Runtime.initial_world) = None.
Proof.
  apply (registries_are_independent (Samples.ext PNone)
           (GetInstance Runtime.S3 (Some Samples.config_ini)) Runtime.MySql
           Runtime.initial_world).
  discriminate.
Defined.

(** ** Orchestration: fetch and routing *)

(** X23: when the fetch block of [main] succeeds, the playlist identifier
    is the one configured, the document is what the API returned for it
    through the registered catalog client, and nothing has been written. *)
Theorem fetch_returns_configured_playlist
    (E : Runtime.Ext) (w w1 : Runtime.World) (cfg : option Runtime.Config)
    (playlist_id : string) (doc : pyval) :
  Pipeline.fetch E w = (Ok (cfg, playlist_id, doc), w1) ->
  cfg = Some (Runtime.config_file E) /\
  Runtime.config_get cfg "playlist-id" "PLAYLIST_ID" = Ok playlist_id /\
  (exists conn sp,
      Runtime.instance_of Runtime.Spotify w1 = Some conn /\
      Runtime.client conn = Some sp /\
      Runtime.playlist_tracks E sp playlist_id = Ok doc) /\
  same_outputs w w1.
Proof.
  intros Hfetch.
  pose proof (fetch_same_outputs E w) as Hout. rewrite Hfetch in Hout. cbn in Hout.
  revert Hfetch.
  unfold Pipeline.fetch, Runtime.bind, Runtime.logger_info, Runtime.logger,
    Runtime.lift, Runtime.ret.
  cbn -[Runtime.config_get Connectors.get_instance Connectors.get_playlist_track].
  destruct (Connectors.get_instance E Runtime.Spotify _ _) as [[conn|x] w0] eqn:Hget;
    [|discriminate].
  apply get_instance_registers in Hget.
  cbn -[Runtime.config_get Connectors.get_playlist_track].
  destruct (Runtime.config_get (Some (Runtime.config_file E)) "playlist-id" "PLAYLIST_ID")
    as [pid|x] eqn:Hpid; [|discriminate].
  unfold Connectors.get_playlist_track, Runtime.try_except, Runtime.lift,
    Runtime.bind, Runtime.logger_error, Runtime.logger, Runtime.raise.
  destruct (Runtime.client conn) as [sp|] eqn:Hsp; [|discriminate].
  destruct (Runtime.playlist_tracks E sp pid) as [d|x] eqn:Hdoc; [|discriminate].
  intros [= <- <- <- <-].
  split; [reflexivity|]. split; [exact Hpid|]. split; [|exact Hout].
  exists conn, sp. repeat split; assumption.
Qed.

Lemma fetch_returns_configured_playlist_witness :
  exists w1,
    Pipeline.fetch (Samples.ext (Samples.document [Samples.item_a]))
      Runtime.initial_world =
      (Ok (Some Samples.config_ini, "PL1", Samples.document [Samples.item_a]), w1) /\
    same_outputs Runtime.initial_world w1.
Proof.
  eexists. split; [vm_compute; reflexivity|].
  apply (fetch_returns_configured_playlist
           (Samples.ext (Samples.document [Samples.item_a])) Runtime.initial_world _
           (Some Samples.config_ini) "PL1" (Samples.document [Samples.item_a]) eq_refl).
Defined.

Lemma keeps_bind {A B C} (f : Runtime.World -> A) (c : Runtime.M B)
    (k : B -> Runtime.M C) :
  keeps f c -> (forall b, keeps f (k b)) -> keeps f (Runtime.bind c k).
Proof.
  intros Hc Hk w. unfold Runtime.bind. specialize (Hc w).
  destruct (c w) as [[b|x] w1]; cbn in *; [|exact Hc].
  rewrite (Hk b w1). exact Hc.
Qed.

Lemma keeps_try_except {A B} (f : Runtime.World -> A) (c : Runtime.M B)
    (h : exn -> Runtime.M B) :
  keeps f c -> (forall x, keeps f (h x)) -> keeps f (Runtime.try_except c h).
Proof.
  intros Hc Hh w. unfold Runtime.try_except. specialize (Hc w).
  destruct (c w) as [[b|x] w1]; cbn in *; [exact Hc|].
  rewrite (Hh x w1). exact Hc.
Qed.

Lemma keeps_pure {A B} (f : Runtime.World -> A) (r : result B) :
  keeps f (Runtime.lift r).
Proof. intros w. reflexivity. Qed.

Lemma keeps_ret {A B} (f : Runtime.World -> A) (b : B) : keeps f (Runtime.ret b).
Proof. intros w. reflexivity. Qed.

Lemma keeps_raise {A B} (f : Runtime.World -> A) (x : exn) :
  keeps f (@Runtime.raise B x).
Proof. intros w. reflexivity. Qed.

Lemma keeps_logger_local (e : log_entry) : keeps local_state (Runtime.logger e).
Proof. intros w. reflexivity. Qed.

Lemma keeps_logger_cloud (e : log_entry) : keeps cloud_state (Runtime.logger e).
Proof. intros w. reflexivity. Qed.

Lemma keeps_logged_local {B} (c : B * list log_entry) :
  keeps local_state (Runtime.logged c).
Proof. intros w. reflexivity. Qed.

Lemma keeps_logged_cloud {B} (c : B * list log_entry) :
  keeps cloud_state (Runtime.logged c).
Proof. intros w. reflexivity. Qed.

Ltac keeps_steps :=
  repeat first
    [ apply keeps_bind; [|intros]
    | apply keeps_try_except; [|intros]
    | apply keeps_pure | apply keeps_ret | apply keeps_raise
    | apply keeps_logger_local | apply keeps_logger_cloud
    | apply keeps_logged_local | apply keeps_logged_cloud ].

(** The local sink never touches the object store or the storage
    connector. *)
Lemma validate_and_save_keeps_cloud (E : Runtime.Ext) (df : option Pandas.DataFrame)
    (filepath data_type : string) :
  keeps cloud_state (Loaders._validate_and_save E df filepath data_type).
Proof.
  unfold Loaders._validate_and_save, Runtime.logger_error, Runtime.logger_info.
  destruct df as [d|]; [destruct (Pandas.empty d)|]; keeps_steps.
  - intros w. unfold Loaders.os_makedirs.
    destruct (Runtime.makedirs_error E _); [reflexivity|].
    destruct (Pandas.mem_str _ _); reflexivity.
  - intros w. unfold Loaders.write_file.
    destruct (Runtime.write_error E filepath); [|reflexivity].
    destruct (Runtime.write_partial E filepath); reflexivity.
Qed.

(** The cloud sink never touches the local files. *)
Lemma validate_and_upload_keeps_local (E : Runtime.Ext) (self : Loaders.LoadDataS3)
    (df : option Pandas.DataFrame) (s3_key data_type : string) :
  keeps local_state (Loaders._validate_and_upload E self df s3_key data_type).
Proof.
  unfold Loaders._validate_and_upload, Runtime.logger_error, Runtime.logger_info.
  destruct df as [d|]; [destruct (Pandas.empty d)|]; keeps_steps.
  intros w. unfold Loaders.put_object.
  destruct (Loaders.s3_client self) as [c|]; [|reflexivity].
  destruct (Runtime.put_object_error E c _ _); reflexivity.
Qed.

Lemma timestamp_keeps_local (E : Runtime.Ext) : keeps local_state (Loaders.timestamp_now E).
Proof. intros w. reflexivity. Qed.

Lemma get_instance_keeps_local (E : Runtime.Ext) (b : Runtime.backend)
    (cfg : option Runtime.Config) :
  keeps local_state (Connectors.get_instance E b cfg).
Proof.
  intros w. destruct (get_instance_same_outputs E b cfg w) as (Hf & Hd & _).
  unfold local_state. now rewrite Hf, Hd.
Qed.

Ltac keeps_route :=
  repeat first
    [ apply get_instance_keeps_local
    | apply validate_and_upload_keeps_local
    | apply validate_and_save_keeps_cloud
    | apply timestamp_keeps_local
    | apply keeps_bind; [|intros]
    | apply keeps_pure | apply keeps_ret
    | apply keeps_logger_local | apply keeps_logger_cloud
    | apply keeps_logged_local | apply keeps_logged_cloud ].

(** X24: the run mode selects exactly one sink.  With a mode other than
    ["s3"] the transform-and-write block of [main] never touches the
    object store or the storage connector; with ["s3"] it never touches a
    local file or directory -- whatever the outcome of the run. *)
Theorem route_uses_one_sink
    (E : Runtime.Ext) (cfg : option Runtime.Config) (playlist_id : string)
    (album_data artist_data song_data data_load : pyval) (w : Runtime.World) :
  let w' := snd (Pipeline.transform_and_load E cfg playlist_id album_data artist_data
                   song_data data_load w) in
  (eq_str data_load "s3" = false -> cloud_state w' = cloud_state w) /\
  (eq_str data_load "s3" = true -> local_state w' = local_state w).
Proof.
  cbv zeta. split; intros Hdl.
  - assert (H : keeps cloud_state
                  (Pipeline.transform_and_load E cfg playlist_id album_data artist_data
                     song_data data_load)).
    { unfold Pipeline.transform_and_load. rewrite Hdl.
      unfold Loaders.load_album_data, Loaders.load_artist_data, Loaders.load_song_data,
        Runtime.logger_info.
      keeps_route. }
    apply H.
  - assert (H : keeps local_state
                  (Pipeline.transform_and_load E cfg playlist_id album_data artist_data
                     song_data data_load)).
    { unfold Pipeline.transform_and_load. rewrite Hdl.
      unfold Loaders.load_all_to_s3, Loaders.load_album_data_to_s3,
        Loaders.load_artist_data_to_s3, Loaders.load_song_data_to_s3,
        Runtime.logger_info.
      keeps_route. }
    apply H.
Qed.

Lemma route_uses_one_sink_witness :
  cloud_state
    (snd (Pipeline.transform_and_load (Samples.ext PNone) (Some Samples.config_ini) "PL1"
            (PList (map PDict Samples.conflicting_albums)) PNone PNone (PStr "local")
            Runtime.initial_world))
  = cloud_state Runtime.initial_world.
Proof.
  apply (route_uses_one_sink (Samples.ext PNone) (Some Samples.config_ini) "PL1"
           (PList (map PDict Samples.conflicting_albums)) PNone PNone (PStr "local")
           Runtime.initial_world).
  reflexivity.
Defined.

(** X25: on the local route, when the three transformed tables are
    non-empty and the file system accepts the writes, the
    transform-and-write block of [main] completes: the three files
    [data/album_data_<id>.csv], [data/artist_data_<id>.csv] and
    [data/song_data_<id>.csv] hold the CSV of the album, artist and song
    table, nothing is uploaded, and the last line logged reports success. *)
Theorem local_route_writes_three_files
    (E : Runtime.Ext) (cfg : option Runtime.Config) (playlist_id : string)
    (album_data artist_data song_data data_load : pyval) (w : Runtime.World) :
  let T := {| Transformer.album_data := album_data;
              Transformer.artist_data := artist_data;
              Transformer.song_data := song_data |} in
  let albums := fst (Transformer.transform_album_data (Runtime.pandas E) T) in
  let artists := fst (Transformer.transform_artist_data (Runtime.pandas E) T) in
  let songs := fst (Transformer.transform_song_data (Runtime.pandas E) T) in
  eq_str data_load "s3" = false ->
  Pandas.empty albums = false ->
  Pandas.empty artists = false ->
  Pandas.empty songs = false ->
  (forall d, Runtime.makedirs_error E d = None) ->
  (forall p, Runtime.write_error E p = None) ->
  exists w' l,
    Pipeline.transform_and_load E cfg playlist_id album_data artist_data song_data
      data_load w = (Ok tt, w') /\
    Runtime.assoc ("data/album_data_" ++ playlist_id ++ ".csv") (Runtime.files w') =
      Some (Pandas.to_csv (Runtime.pandas E) albums false) /\
    Runtime.assoc ("data/artist_data_" ++ playlist_id ++ ".csv") (Runtime.files w') =
      Some (Pandas.to_csv (Runtime.pandas E) artists false) /\
    Runtime.assoc ("data/song_data_" ++ playlist_id ++ ".csv") (Runtime.files w') =
      Some (Pandas.to_csv (Runtime.pandas E) songs false) /\
    Runtime.s3_objects w' = Runtime.s3_objects w /\
    Runtime.log w' =
      (l ++ [Info "Data saved locally."; Info "ETL process completed successfully."])%list.
Proof.
  intros T albums artists songs Hdl Hea Her Hes Hmk Hwr.
  unfold Pipeline.transform_and_load, Runtime.bind. rewrite !logged_run, Hdl.
  cbn [fst snd]. fold T. fold albums artists songs.
  unfold Loaders.load_album_data, Loaders.load_artist_data, Loaders.load_song_data.
  cbn [Loaders.album_df Loaders.artist_df Loaders.song_df
       Runtime.logger_info Runtime.logger].
  match goal with
  | |- context [Loaders._validate_and_save E (Some albums) ?p "Album" ?w0] =>
      destruct (validate_and_save_ok E albums p "Album" w0 Hea (Hmk _) (Hwr _))
        as (w1 & -> & Hf1 & _ & Hs1 & _)
  end.
  match goal with
  | |- context [Loaders._validate_and_save E (Some artists) ?p "Artist" ?w0] =>
      destruct (validate_and_save_ok E artists p "Artist" w0 Her (Hmk _) (Hwr _))
        as (w2 & -> & Hf2 & _ & Hs2 & _)
  end.
  match goal with
  | |- context [Loaders._validate_and_save E (Some songs) ?p "Song" ?w0] =>
      destruct (validate_and_save_ok E songs p "Song" w0 Hes (Hmk _) (Hwr _))
        as (w3 & -> & Hf3 & _ & Hs3 & _)
  end.
  eexists. exists (Runtime.log w3). split; [reflexivity|].
  cbn [snd Runtime.files Runtime.s3_objects Runtime.log Runtime.set_log].
  rewrite Hf3, Hf2, Hf1, Hs3, Hs2, Hs1.
  cbn [Runtime.files Runtime.s3_objects Runtime.set_log].
  split; [|split; [|split; [|split]]].
  - rewrite !assoc_with_file_other by (cbn; discriminate).
    apply assoc_with_file_same.
  - rewrite assoc_with_file_other by (cbn; discriminate).
    apply assoc_with_file_same.
  - apply assoc_with_file_same.
  - reflexivity.
  - rewrite <- app_assoc. reflexivity.
Qed.

Lemma local_route_writes_three_files_witness :
  let de := {| Extractor.playlist_data :=
                 Samples.document [Samples.item_a; Samples.item_b; Samples.item_c] |} in
  exists w' l,
    Pipeline.transform_and_load (Samples.ext PNone) (Some Samples.config_ini) "PL1"
      (fst (Extractor.extract_album_data de)) (fst (Extractor.extract_artist_data de))
      (fst (Extractor.extract_song_data de PNone)) (PStr "local") Runtime.initial_world
    = (Ok tt, w') /\
    Runtime.assoc "data/artist_data_PL1.csv" (Runtime.files w') <> None /\
    Runtime.log w' =
      (l ++ [Info "Data saved locally."; Info "ETL process completed successfully."])%list.
Proof.
  intros de.
  destruct (local_route_writes_three_files (Samples.ext PNone) (Some Samples.config_ini)
              "PL1" (fst (Extractor.extract_album_data de))
              (fst (Extractor.extract_artist_data de))
              (fst (Extractor.extract_song_data de PNone)) (PStr "local")
              Runtime.initial_world eq_refl eq_refl eq_refl eq_refl
              (fun _ => eq_refl) (fun _ => eq_refl))
    as (w' & l & Hrun & _ & Hartists & _ & _ & Hlog).
  exists w', l. split; [exact Hrun|]. split; [|exact Hlog].
  cbn [String.append] in Hartists. rewrite Hartists. discriminate.
Defined.

(** X27: on the cloud route, with the storage connector already registered
    and holding a client, the bucket configured, three non-empty tables and
    a store that accepts the objects, the transform-and-write block of
    [main] completes: the three CSV objects are stored in the configured
    bucket in the order albums, artists, songs, and no local file is
    written. *)
Theorem cloud_route_uploads_three_objects
    (E : Runtime.Ext) (cfg : option Runtime.Config) (playlist_id bucket : string)
    (album_data artist_data song_data : pyval) (conn : Runtime.Connection) (c : nat)
    (w : Runtime.World) :
  let T := {| Transformer.album_data := album_data;
              Transformer.artist_data := artist_data;
              Transformer.song_data := song_data |} in
  let albums := fst (Transformer.transform_album_data (Runtime.pandas E) T) in
  let artists := fst (Transformer.transform_artist_data (Runtime.pandas E) T) in
  let songs := fst (Transformer.transform_song_data (Runtime.pandas E) T) in
  let n := Runtime.clock w in
  Runtime.instance_of Runtime.S3 w = Some conn ->
  Runtime.client conn = Some c ->
  Runtime.config_get cfg "aws-bucket" "bucket_name" = Ok bucket ->
  Pandas.empty albums = false ->
  Pandas.empty artists = false ->
  Pandas.empty songs = false ->
  (forall b k, Runtime.put_object_error E c b k = None) ->
  exists w',
    Pipeline.transform_and_load E cfg playlist_id album_data artist_data song_data
      (PStr "s3") w = (Ok tt, w') /\
    Runtime.s3_objects w' =
      (Runtime.s3_objects w ++
       [csv_object E bucket (stamped_key E Loaders.default_prefix "albums" n) albums;
        csv_object E bucket (stamped_key E Loaders.default_prefix "artists" (S n)) artists;
        csv_object E bucket (stamped_key E Loaders.default_prefix "songs" (S (S n))) songs])%list /\
    Runtime.files w' = Runtime.files w.
Proof.
  intros T albums artists songs n Hconn Hcl Hbucket Hea Her Hes Hput.
  unfold Pipeline.transform_and_load, Runtime.bind. rewrite !logged_run.
  cbn [fst snd eq_str String.eqb Ascii.eqb Bool.eqb]. fold T. fold albums artists songs.
  cbn [Runtime.logger_info Runtime.logger].
  match goal with
  | |- context [Connectors.get_instance E Runtime.S3 cfg ?w0] =>
      rewrite (get_instance_registered E Runtime.S3 cfg w0 conn)
        by (cbn in Hconn |- *; exact Hconn)
  end.
  unfold Runtime.lift. rewrite Hbucket. cbn [Loaders.LoadDataS3_init].
  match goal with
  | |- context [Loaders.load_all_to_s3 E ?self ?p ?w0] =>
      destruct (load_all_to_s3_ok E self p albums artists songs c w0
                  eq_refl eq_refl eq_refl Hea Her Hes Hcl Hput)
        as (w1 & -> & Hobjs & Hfiles & _)
  end.
  eexists. split; [reflexivity|]. cbn in Hobjs, Hfiles |- *.
  rewrite Hobjs, Hfiles. split; reflexivity.
Qed.

Lemma cloud_route_uploads_three_objects_witness :
  let de := {| Extractor.playlist_data :=
                 Samples.document [Samples.item_a; Samples.item_b; Samples.item_c] |} in
  let conn := {| Runtime.cls := Runtime.S3; Runtime.obj_id := 0;
                 Runtime.config := Some Samples.config_ini; Runtime.client := Some 2 |} in
  exists w',
    Pipeline.transform_and_load (Samples.ext PNone) (Some Samples.config_ini) "PL1"
      (fst (Extractor.extract_album_data de)) (fst (Extractor.extract_artist_data de))
      (fst (Extractor.extract_song_data de PNone)) (PStr "s3")
      (Runtime.set_instance Runtime.S3 (Some conn) Runtime.initial_world)
    = (Ok tt, w') /\
    List.length (Runtime.s3_objects w') = 3 /\
    Runtime.files w' = [].
Proof.
  intros de conn.
  destruct (cloud_route_uploads_three_objects (Samples.ext PNone)
              (Some Samples.config_ini) "PL1" "bkt"
              (fst (Extractor.extract_album_data de))
              (fst (Extractor.extract_artist_data de))
              (fst (Extractor.extract_song_data de PNone)) conn 2
              (Runtime.set_instance Runtime.S3 (Some conn) Runtime.initial_world)
              eq_refl eq_refl eq_refl eq_refl eq_refl eq_refl (fun _ _ => eq_refl))
    as (w' & Hrun & Hobjs & Hfiles).
  exists w'. split; [exact Hrun|]. split; [|exact Hfiles].
  rewrite Hobjs. reflexivity.
Defined.

(** ** Connectors: what a failed connection logs *)

(** X28: a failed storage connection is always logged as an error before
    it is raised again; a failed database connection is logged only when
    the driver raised it -- any other exception, such as a missing
    configuration key, leaves [connect_to_database] without a log line. *)
Theorem connect_failure_logging
    (E : Runtime.Ext) (self : Runtime.Connection) (w w' : Runtime.World) (x : exn) :
  (Connectors.connect_to_s3 E self w = (Raise x, w') ->
   Runtime.log w' =
     (Runtime.log w ++ [Error ("Failed to connect to S3: " ++ exn_str x)])%list) /\
  (Connectors.connect_to_database E self w = (Raise x, w') ->
   Runtime.log w' =
     (Runtime.log w ++
      match x with
      | LibraryError _ => [Error ("Error connecting to MySQL: " ++ exn_str x)]
      | _ => []
      end)%list).
Proof.
  unfold Connectors.connect_to_s3, Connectors.connect_to_database, Runtime.bind,
    Runtime.try_except, Runtime.lift, Runtime.ret, Runtime.raise,
    Runtime.logger_info, Runtime.logger_error, Runtime.logger.
  split.
  - repeat (run_step; cbn); intros [= <- <-]; try discriminate; reflexivity.
  - repeat (run_step; cbn); intros H; try discriminate H;
      injection H as <- <-; cbn; rewrite ?app_nil_r; reflexivity.
Qed.

Lemma connect_failure_logging_witness :
  let self := {| Runtime.cls := Runtime.MySql; Runtime.obj_id := 0;
                 Runtime.config := Some []; Runtime.client := None |} in
  Connectors.connect_to_database (Samples.ext PNone) self Runtime.initial_world =
    (Raise (KeyError "mysql-auth"), Runtime.initial_world) /\
  Runtime.log (snd (Connectors.connect_to_s3 (Samples.ext PNone) self
                      Runtime.initial_world)) =
    [Error "Failed to connect to S3: 'aws-auth'"].
Proof.
  intros self. split; [reflexivity|].
  apply (proj1 (connect_failure_logging (Samples.ext PNone) self Runtime.initial_world
                  _ (KeyError "aws-auth"))).
  reflexivity.
Defined.

(** ** Connectors: the constructor guard *)

(** Whether a connect method completes depends on the configuration of the
    object and on the libraries, not on the object or on the state. *)
Lemma connect_again (E : Runtime.Ext) (b : Runtime.backend)
    (self self' inst : Runtime.Connection) (w w1 w' : Runtime.World) :
  Connectors.connect E b self w = (Ok inst, w1) ->
  Runtime.config self' = Runtime.config self ->
  exists inst' w1', Connectors.connect E b self' w' = (Ok inst', w1').
Proof.
  unfold Connectors.connect, Connectors.connectAPI, Connectors.connect_to_s3,
    Connectors.connect_to_database, Runtime.bind, Runtime.try_except, Runtime.lift,
    Runtime.ret, Runtime.raise, Runtime.logger_info, Runtime.logger_error,
    Runtime.logger.
  intros H ->. revert H.
  destruct b; cbn;
    repeat match goal with
           | |- context [Runtime.config_get ?c ?s ?o] =>
               destruct (Runtime.config_get c s o); cbn
           | |- context [Runtime.spotipy_Spotify ?e ?x ?y] =>
               destruct (Runtime.spotipy_Spotify e x y); cbn
           | |- context [Runtime.boto3_client ?e ?x ?y ?z] =>
               destruct (Runtime.boto3_client e x y z); cbn
           | |- context [Runtime.mysql_connect ?e ?x ?y ?z ?u] =>
               destruct (Runtime.mysql_connect e x y z u); cbn
           end;
    try (intros _; eexists; eexists; reflexivity);
    try (intros H; discriminate H);
    destruct e; intros H; discriminate H.
Qed.

Lemma instance_of_set_next_obj (b : Runtime.backend) (n : nat) (w : Runtime.World) :
  Runtime.instance_of b (Runtime.set_next_obj n w) = Runtime.instance_of b w.
Proof. destruct b; reflexivity. Qed.

(** A direct constructor call that completed where no instance was
    registered completes again wherever none is registered. *)
Lemma construct_again (E : Runtime.Ext) (b : Runtime.backend)
    (cfg : option Runtime.Config) (w w1 w' : Runtime.World) (a : Runtime.Connection) :
  Connectors.construct E b cfg w = (Ok a, w1) ->
  Runtime.instance_of b w' = None ->
  exists a' w2, Connectors.construct E b cfg w' = (Ok a', w2).
Proof.
  unfold Connectors.construct, Connectors.new_object, Runtime.bind. cbn.
  rewrite !instance_of_set_next_obj. intros H ->.
  destruct (Runtime.instance_of b w); [discriminate H|].
  eapply connect_again; [exact H | reflexivity].
Qed.

(** C9 (a defect of the code): [__init__] refuses to run only when
    [_instance] is set, and only [get_instance] sets it.  So wherever no
    instance of a connector class is registered, a direct constructor call
    that completes registers nothing, and a second direct call completes
    as well and returns another object; the [get_instance] that follows
    returns neither of the two: it makes and registers a third.  Nothing
    is raised, and three live objects of the class exist. *)
Theorem direct_construction_is_unguarded
    (E : Runtime.Ext) (b : Runtime.backend) (cfg : option Runtime.Config)
    (w w1 : Runtime.World) (a : Runtime.Connection) :
  Runtime.instance_of b w = None ->
  Connectors.construct E b cfg w = (Ok a, w1) ->
  exists a' w2 c w3,
    Connectors.construct E b cfg w1 = (Ok a', w2) /\
    Connectors.get_instance E b cfg w2 = (Ok c, w3) /\
    Runtime.instance_of b w1 = None /\
    Runtime.instance_of b w2 = None /\
    Runtime.instance_of b w3 = Some c /\
    Runtime.obj_id a = Runtime.next_obj w /\
    Runtime.obj_id a' = S (Runtime.next_obj w) /\
    Runtime.obj_id c = S (S (Runtime.next_obj w)) /\
    a <> a' /\ a <> c /\ a' <> c.
Proof.
  intros Hnone Ha.
  assert (H1 : Runtime.instance_of b w1 = None).
  { rewrite <- Hnone, <- (construct_keeps_registry E b b cfg w), Ha. reflexivity. }
  assert (Hn1 : Runtime.next_obj w1 = S (Runtime.next_obj w)).
  { rewrite <- (construct_next_obj E b cfg w), Ha. reflexivity. }
  destruct (construct_again E b cfg w w1 w1 a Ha H1) as (a' & w2 & Ha').
  assert (H2 : Runtime.instance_of b w2 = None).
  { rewrite <- H1, <- (construct_keeps_registry E b b cfg w1), Ha'. reflexivity. }
  assert (Hn2 : Runtime.next_obj w2 = S (S (Runtime.next_obj w))).
  { rewrite <- Hn1, <- (construct_next_obj E b cfg w1), Ha'. reflexivity. }
  destruct (construct_again E b cfg w w1 w2 a Ha H2) as (c & w3' & Hc).
  destruct (construct_result E b cfg w w1 a Ha) as (_ & Hida & _).
  destruct (construct_result E b cfg w1 w2 a' Ha') as (_ & Hida' & _).
  destruct (construct_result E b cfg w2 w3' c Hc) as (_ & Hidc & _).
  exists a', w2, c, (Runtime.set_instance b (Some c) w3').
  assert (Hget : Connectors.get_instance E b cfg w2 =
                 (Ok c, Runtime.set_instance b (Some c) w3')).
  { unfold Connectors.get_instance, Runtime.bind. rewrite H2, Hc. reflexivity. }
  split; [exact Ha'|]. split; [exact Hget|]. split; [exact H1|]. split; [exact H2|].
  split; [exact (get_instance_registers E b cfg w2 _ c Hget)|].
  split; [exact Hida|]. split; [congruence|]. split; [congruence|].
  repeat split; intros Heq; apply (f_equal Runtime.obj_id) in Heq; lia.
Qed.

Lemma direct_construction_is_unguarded_witness :
  let E := Samples.ext PNone in
  let cfg := Some Samples.config_ini in
  exists a w1 a' w2 c w3,
    Connectors.construct E Runtime.S3 cfg Runtime.initial_world = (Ok a, w1) /\
    Connectors.construct E Runtime.S3 cfg w1 = (Ok a', w2) /\
    Connectors.get_instance E Runtime.S3 cfg w2 = (Ok c, w3) /\
    a <> a' /\ a <> c /\ a' <> c.
Proof.
  intros E cfg.
  destruct (direct_construction_is_unguarded E Runtime.S3 cfg Runtime.initial_world
              _ _ eq_refl eq_refl)
    as (a' & w2 & c & w3 & Ha' & Hc & _ & _ & _ & _ & _ & _ & Hne).
  eexists _, _, a', w2, c, w3.
  split; [reflexivity|]. split; [exact Ha'|]. split; [exact Hc | exact Hne].
Defined.
